(* ===== verification/_CoqProject ===== *)
-Q . S2P
Prelude.v
JsString.v
JsMonad.v
Dom.v
SelectorText.v
SelectorSound.v
Console.v
DomTree.v
CardManager.v
Scenario.v
Filter.v
Reapply.v
Report.v
Methods.v
WellFormed.v
EventLoop.v
Runs.v
Cache.v
Reactive.v
PageContract.v
