(* ===== verification/Prelude.v ===== *)
(** * HideMieterPlus: a verification development

    ** The program

    [src/js/HideMieterPlus.js] is a content script for a real-estate listing
    page.  Its one class, [CardManager], reads the state of the three
    view-mode tabs (cached in [this.tabsCache]), collects the listing cards
    of the view the page shows together with all sponsored cards, and hides
    every card that has a paywall marker below it or is sponsored: it sets
    the card's inline display to [none] and adds the class [hidden-card].
    The top-level code creates the one instance, which runs the filter once,
    and registers two click listeners, on the document and on the pagination
    landmark; each schedules [reapplyFilters] 500 ms after a click it
    reacts to.

    ** Files, in dependency order

    - [Prelude] (this file): the scope of the monad's notations, the hint
      databases [js] and [dom], the tactic [by_compute] and the lemmas on
      lists every component uses.
    - [JsString]: the two anchored replacements of line 66 ([replaceStart],
      [replaceEnd]) and the prefix test of the selector of line 182
      ([startsWith]); the values a caller can pass to a method
      ([JsValue]: the primitive values and the elements) with the two
      tests of the guard of line 31, [typeof] and [truthy].
    - [JsMonad]: sequential JavaScript as a state-and-exception monad
      [Js S A]: [try_catch] (lines 17-21), [js_or] (the short-circuit [||]
      of lines 141-143), [foldM] (the [for ... of] loop of lines 140-153),
      [mapM] (the [map] with an effectful callback of lines 55-69), and the
      run equations proofs start from.
    - [Dom]: the page as the script sees it.  The typeclass [Dom] is the
      interface of a document, [DomLaws] its laws; the browser functions the
      script calls are defined once over the interface, with the frame
      lemmas of the two writes and observational equality [≡].  The laws
      say what a document is as far as the script can tell: its elements
      are pairwise distinct, the ancestors of an element form a chain from
      the element to the root, the proper descendants of an element are
      the elements it is a proper ancestor of, and a write changes the
      properties of one element and nothing else.
    - [SelectorText]: the concrete syntax of the selectors the script
      builds (lines 35, 57, 182, 190, 192): a printer, a parser written as
      a state machine over the characters, and their round trip.
    - [SelectorSound]: the converse, by an invariant of the state machine:
      the parser accepts only printed forms of selectors of the fragment.
    - [Console]: the entries the script prints, as templates with the
      values of their holes ([Message]), and their texts ([message_text]).
    - [DomTree]: documents as finite trees with paths as element
      references; the instance of [Dom], with [DomLaws] proved.
    - [CardManager]: one definition per method of the class (lines 4-175)
      in the monad over [World] (the document, the fields of the instance,
      the console), named as in the source: [constructor], [init],
      [hasChildWithClass], [getAllMapToggleTabs] (its callback is
      [scanTab]), [findTabByMode], [getCards], [hideCards] (its loop body is
      [hideCard]), [refreshTabsCache], [reapplyFilters].  Each method has a
      pure counterpart ([tabs_of], [after_tabs], [cards_of],
      [after_getCards], [hide_step], [after_hideCards], ...) and a run
      equation that says the method returns and changes exactly what the
      counterpart computes.
    - [Scenario]: concrete pages, among them the scenario of the
      specification, on which the methods are evaluated.
    - [Filter]: the contract of the filter.  [hide_spec] is the loop of
      [hideCards] as one simultaneous write.
    - [Reapply]: the view the filter works on ([fresh_cards],
      [list_tab_selected]) and the postcondition of a re-application:
      [filtered] says that every flagged card of the current view is hidden.
    - [Report]: what [hideCards] prints ([hideCards_logs]), its early
      return, and the error handler of [init].
    - [Methods]: the helper methods, branch by branch.
    - [WellFormed]: the shape of the field [tabsCache] (section 3 of the
      specification) as a decidable predicate, [wf_world].
    - [EventLoop]: the top-level code (lines 177-199) as [script], the two
      listeners [onDocumentClick] and [onPaginationClick], [setTimeout], and
      the browser around them as a step relation [step] with its executable
      form [step_fn]: clicks, bubbling up to the document or stopped on
      their way by the host page, the passing of time, the firing of the
      oldest due timer, and re-renders by the host page ([rerender]), which
      keep the listener on the document and keep the listener on the
      pagination landmark only if the landmark element is kept.
    - [Runs]: the runs of that relation: the states the script can reach
      ([reachable]), runs of timer callbacks ([fires]), runs without
      re-render.
    - [Cache]: browsers that differ in what is cached ([with_cache],
      [same_but_cache]), along the runs of the event loop.
    - [Reactive]: the behaviour sections 4.1 and 5 of the specification
      promise, as a machine of its own ([reactive_step]) that has neither
      cache nor console nor listeners and whose triggers are those of the
      specification (a click on a view toggle, a click on a button within
      the pagination container), and the abstraction [abstract] from the
      browser to it.
    - [PageContract]: the page structure contract of section 6 of the
      specification, in terms of the page alone: the elements a filter run
      is to hide ([to_be_hidden]: the [sponsored] elements and the
      [paywalled] cards of the view the page shows, [list_mode]), the page
      it is to leave ([filter_post]), and the markers of the three view
      toggles ([marker], [toggles], [toggle_tab]).  All of them are stated
      with the primitives of a page (class lists, attributes, descendants,
      document order), not with the functions read off the code, and all of
      them are decidable.

    ** What the theorems show

    - The page contract ([PageContract]): the constructor and
      [reapplyFilters] leave the page the contract prescribes, whatever is
      cached; the contract determines that page up to observation, and
      says which elements are hidden on it; the load of the script, every
      timer that fires and every run without re-render meet it.
      [hideCards] alone does not, on a stale cache
      ([hideCards_stale_cache]).  The lemmas that carry these theorems
      translate the tests of the code into properties of the page
      ([has_paywall_paywalled], [list_tab_selected_list_mode],
      [to_hide_to_be_hidden]).  A scan of [getAllMapToggleTabs] finds, for
      each test id, the first element in document order that carries it
      ([getAllMapToggleTabs_finds_markers]).
    - Refinement ([Filter]): [hideCards] returns normally and leaves the
      page [hide_spec] describes, although the loop tests each card on the
      page the earlier iterations have already changed.  From the
      specification follow: flagged cards are hidden, nothing else changes,
      hidden elements stay hidden, a second run changes nothing.
    - View modes and the cache ([Reapply], [Methods]): which cards [getCards]
      returns when the list tab is selected, unselected or missing; that it
      believes a cache it finds; that [reapplyFilters] does not depend on the
      cache it finds ([reapplyFilters_ignores_cache]), leaves a cache that
      is a scan of the page as it is, and leaves the page [filtered]
      ([reapplyFilters_filtered]).
    - Methods ([Methods], [CardManager]): what [hasChildWithClass],
      [getAllMapToggleTabs] and [findTabByMode] return and change on each
      branch, guards and early returns included; what [hasChildWithClass]
      does with a parent that is no element (it returns [false] on a falsy
      one and throws a [TypeError] on a truthy one) and with a class name
      that is not an identifier: when the literal it builds is the text of
      a selector of the fragment, the method answers the query for that
      selector ([hasChildWithClass_string]); the mode name of a test id.
    - Selectors ([SelectorText], [SelectorSound]): parsing inverts
      printing and accepts nothing else, so that the text of a template
      literal determines the selector it denotes; the template literals of
      the script denote the selectors the other files reason with.
    - The cache ([WellFormed]): a scan gives a well-formed array of tab
      objects, every method keeps the cache well formed, and in a
      well-formed cache [findTabByMode] has one candidate at most.
    - The console ([Console]): the text of a message determines its
      template and the values of its holes, so that nothing is lost by
      reasoning on templates.
    - Errors ([Report], [EventLoop]): [init] never reaches its [catch]; the
      top-level code throws a [TypeError] exactly on a page without the
      pagination landmark, after the first filter run.
    - The event loop ([EventLoop]): which clicks queue a timer, also when
      the host page stops their propagation, and that timers are neither
      coalesced nor run early.
    - Runs ([Runs]): the inductive invariant of the running script
      ([script_inv]: timers in firing order, a complete cache, no error,
      the pagination listener on the page), established by the load and
      kept by every step, with the case analysis [step_computed]; that a
      click on a view toggle leads to a filtered page once the delay has
      passed; that
      the page stays as the filter left it while the host page does not
      re-render; that the timer callbacks terminate ([fires] is strongly
      normalising, with the bound) and the script comes to rest; and that
      the pagination listener is lost for good when the host page drops the
      landmark.
    - The cache ([Cache]): the field [tabsCache] is dead state.  Whatever
      is put into it, at any moment, the page, the console, the timers and
      the listeners are the same from then on, and the browser is the same
      once a timer has fired: each filter run clears the field before its
      one read.
    - Refinement of the whole script ([Reactive]): along every run in which
      the host page keeps the pagination landmark, keeps it outside any
      button and lets the clicks bubble up to the document, the browser
      running the script is the reactive contract of the specification,
      seen through [abstract]; without any of these conditions it is not
      ([landmark_dropped], [landmark_in_button], [click_stopped]).

    Each theorem that has a hypothesis is applied, after its section, to a
    page of [Scenario]; those lemmas end in [Defined] and compute.

    ** The testable properties of the specification (section 8)

    - [collectCards] with the list tab selected, and with it absent or
      unselected: [getCards_list_mode], [getCards_grid_mode] ([Reapply]).
    - Idempotence of [applyFilter]: [hideCards_idempotent] ([Filter]).
    - A paywalled card is always hidden, regardless of mode: false of the
      code.  What holds is [hideCards_hides_flagged], for the cards of the
      view shown, and the contract of [PageContract], whose [to_be_hidden]
      names the paywalled cards of the view shown only;
      [paywalled_card_of_other_view] ([Filter]) is a paywalled card of the
      other view that stays visible.
    - A sponsored card is always hidden, regardless of mode:
      [hideCards_hides_sponsored] ([Filter]).
    - [reapply] rebuilds the tab cache: [reapplyFilters_ignores_cache],
      [reapplyFilters_cache_coherent] ([Reapply]), and, for the page it
      leaves, [filter_runs_meet_contract] ([PageContract]).
    - The scenario (three list cards, one of them paywalled, two grid
      cards, one sponsored card, list tab selected, two cards hidden): the
      page [page true] of [Scenario], on which the witnesses are evaluated;
      [scenario_console_text] is what the script prints on it.

    ** Bounds and fuel

    Every recursion of the model is structural (on strings, lists and
    trees), so no definition takes fuel and every method is a total
    function: a theorem that a method returns is a theorem about that
    function.  Time is a natural number of milliseconds and the delay is the
    constant [delay] = 500; counters are natural numbers, as the script
    never counts anything but array entries, and [number_text] prints them
    in decimal, as a template literal does for any integer below 10^21.
    The event loop itself need not terminate (the user can click for ever);
    what terminates is every run of timer callbacks, and the bound is the
    length of the queue ([fires_terminate]).  The numbers of [JsValue] are
    integers: a caller can pass no fraction, infinity or [NaN] (which is
    falsy, as 0 is).

    ** What is not modelled

    - Every line of code of [src/js/HideMieterPlus.js] has its definition;
      the lines no definition covers are comments, blank lines and closing
      braces.
    - The selector language beyond compound selectors of tag, class and
      attribute tests: [parse_selector] returns [None] on combinators,
      selector lists, pseudo-classes, escapes, characters outside ASCII
      and upper-case tag or attribute names, and a query with such a
      string ends in [SelectorError] as it does for a string that is no
      selector.  The script itself builds no such string.  The theorems
      that say what a query returns are stated for strings of the fragment,
      and the theorems that say a query throws for strings no browser
      accepts (a class name that is empty or starts with a digit, after a
      hyphen or not): no theorem of the manifest rests on what the model
      does with a selector a browser accepts and the fragment lacks.
    - Documents in quirks mode, where class names are compared without
      regard to case, and values of [style.display] the style does not
      accept, which an assignment ignores: the page is in standards mode
      and the script writes [none].
    - The second argument of [console.error] (the caught error object) is
      kept in the message but is not part of its text.
    - The host page: what the site's own scripts do on a click appears only
      as the event [Render], which replaces the document by an arbitrary
      one and says whether the element that carried the pagination listener
      is kept, and where.  A listener of the host page that stops the
      propagation of a click appears as the event [ClickStopped], with the
      element the click is stopped at; a click stopped in the capture
      phase reaches no listener of the script and is no event of the
      model.  The target of a click is an element of the page: a click a
      script dispatches on the document itself, which has no [matches],
      is no event of the model either.  Other event types and timer ids
      are not modelled; the script uses none of them.
    - Objects that are no elements, as arguments of a method: the values
      of [JsValue] are the primitive values and the elements of the page.
    - Element identity beyond the pagination landmark: the elements of the
      cached tab objects are references into the page they were read from,
      and after a re-render they denote whatever element is at that place
      of the new page. *)

From stdpp Require Export base tactics option list.
From stdpp Require Export strings.

(** ** Scopes and hint databases *)

Declare Scope js_scope.
Delimit Scope js_scope with js.

(** [js] collects the run equations of the monad and the equations of the
    string operations: [run_js] rewrites with it.  [dom] collects the frame
    lemmas of the document interface, for [autorewrite with dom], and the
    facts that queries return elements of the page, for [eauto with dom]. *)
Create Rewrite HintDb js.
Create HintDb dom discriminated.
Create Rewrite HintDb dom.

(** ** Tactics *)

(** [by_compute] proves a closed decidable proposition by evaluating its
    decision procedure. *)
Ltac by_compute := apply (bool_decide_unpack _); by vm_compute.

(** ** Lists *)

Section list_facts.
Context {A : Type}.
Implicit Types (l k : list A) (x y : A).

(** A left fold whose step ignores elements outside [P] only sees the
    elements of the list that satisfy [P]. *)
Lemma foldl_filter_skip {B} (P : A → Prop) `{!∀ x, Decision (P x)}
    (f : B → A → B) (b : B) l :
  (∀ b x, ¬ P x → f b x = b) →
  foldl f b l = foldl f b (filter P l).
Proof.
  intros Hskip. revert b. induction l as [|x l IH]; intros b; [done|].
  rewrite filter_cons. simpl. case_decide; simpl; [done|].
  by rewrite Hskip.
Qed.

(** Two predicates that agree on the elements of a list filter it alike. *)
Lemma filter_ext_elem (P Q : A → Prop) `{!∀ x, Decision (P x)}
    `{!∀ x, Decision (Q x)} l :
  (∀ x, x ∈ l → P x ↔ Q x) → filter P l = filter Q l.
Proof.
  induction l as [|x l IH]; intros HPQ; [done|].
  rewrite !filter_cons, IH by (intros y Hy; apply HPQ; by right).
  pose proof (HPQ x (list_elem_of_here x l)). repeat case_decide; first [done|tauto].
Qed.

(** The same for boolean tests. *)
Lemma filter_ext_bool (f g : A → bool) l :
  (∀ x, x ∈ l → f x = g x) → filter (λ x, f x) l = filter (λ x, g x) l.
Proof. intros Hfg. apply filter_ext_elem. intros x Hx. by rewrite Hfg. Qed.

(** [omap] after [fmap] is one [omap]. *)
Lemma omap_fmap {B C} (f : A → B) (g : B → option C) l :
  omap g (f <$> l) = omap (g ∘ f) l.
Proof.
  induction l as [|x l IH]; [done|]. cbn [fmap list_fmap omap list_omap].
  unfold compose at 1. destruct (g (f x)); by f_equal.
Qed.

(** The images of what [omap] keeps are among the images of the list, in
    the order of the list. *)
Lemma fmap_omap_sublist {B C} (f : A → option B) (g : B → C) (h : A → C) l :
  (∀ (x : A) (y : B), f x = Some y → g y = h x) →
  g <$> omap f l `sublist_of` h <$> l.
Proof.
  intros Hgh. induction l as [|x l IH]; [constructor|].
  cbn [omap list_omap fmap list_fmap]. destruct (f x) as [y|] eqn:Hfx.
  - cbn [fmap list_fmap]. rewrite (Hgh _ _ Hfx). by apply sublist_skip.
  - by apply sublist_cons.
Qed.

(** A function whose images of a list are pairwise distinct is injective
    on the elements of the list. *)
Lemma NoDup_fmap_inj_elem {B} (f : A → B) l (x1 x2 : A) :
  NoDup (f <$> l) → x1 ∈ l → x2 ∈ l → f x1 = f x2 → x1 = x2.
Proof.
  induction l as [|x l IH]; intros Hnd H1 H2 Hf; [by apply elem_of_nil in H1|].
  rewrite fmap_cons in Hnd. apply NoDup_cons in Hnd as [Hx Hnd].
  apply elem_of_cons in H1 as [->|H1]; apply elem_of_cons in H2 as [->|H2].
  - done.
  - destruct Hx. rewrite Hf. by apply list_elem_of_fmap_2.
  - destruct Hx. rewrite <-Hf. by apply list_elem_of_fmap_2.
  - by apply IH.
Qed.

End list_facts.
