(* ===== verification/JsString.v ===== *)
(** * JsString: the string operations the script uses

    The script builds the mode name of a tab from its test id with two
    anchored replacements, [testId.replace(/^mapToggle/, "")] and
    [.replace(/Mode$/, "")] (HideMieterPlus.js, line 66), and its click
    listener tests an attribute with the prefix selector
    [[data-testid^="mapToggle"]] (line 182).  This file models those
    operations on [string] and proves what each returns on every input.

    Its last part holds the JavaScript values a caller can pass to
    [hasChildWithClass] and the two tests of its guard (line 31): [typeof]
    and the conversion to a boolean that [!] applies. *)

From S2P Require Import Prelude.

(** ** Operations *)

(** [stripPrefix pre s] is the rest of [s] after a leading [pre],
    [None] when [s] does not start with [pre]. *)
Fixpoint stripPrefix (pre s : string) : option string :=
  match pre, s with
  | EmptyString, _ => Some s
  | String a pre', String b s' =>
      if decide (a = b) then stripPrefix pre' s' else None
  | String _ _, EmptyString => None
  end.

(** [stripSuffix suf s] is [s] without a trailing [suf], [None] when [s]
    does not end with [suf]. *)
Fixpoint stripSuffix (suf s : string) : option string :=
  if decide (s = suf) then Some EmptyString
  else match s with
       | EmptyString => None
       | String a s' => String a <$> stripSuffix suf s'
       end.

(** [s.startsWith(pre)], the test behind the selector [[attr^="pre"]]. *)
Definition startsWith (s pre : string) : bool :=
  bool_decide (is_Some (stripPrefix pre s)).

(** [s.replace(/^pre/, "")] for a literal [pre]: the first (and only
    possible) match of the anchored pattern is removed, an input without the
    prefix is returned unchanged. *)
Definition replaceStart (pre s : string) : string :=
  default s (stripPrefix pre s).

(** [s.replace(/suf$/, "")] for a literal [suf]. *)
Definition replaceEnd (suf s : string) : string :=
  default s (stripSuffix suf s).

(** ** Specification of the two strip functions *)

Lemma stripPrefix_Some pre s x :
  stripPrefix pre s = Some x ↔ s = pre +:+ x.
Proof.
  revert s. induction pre as [|a pre IH]; intros s; simpl.
  - split; [by intros [= ->]|by intros ->].
  - destruct s as [|b s]; [done|]. case_decide as Hab; subst.
    + rewrite IH. split; [by intros ->|by intros [= ->]].
    + split; [done|]. intros [= ? _]. by subst.
Qed.

Lemma stripPrefix_app pre s : stripPrefix pre (pre +:+ s) = Some s.
Proof. by apply stripPrefix_Some. Qed.

Lemma string_app_length (s t : string) :
  String.length (s +:+ t) = String.length s + String.length t.
Proof. induction s as [|a s IH]; simpl; [done|]. by rewrite IH. Qed.

Lemma string_app_cancel_l (x s : string) : x +:+ s = s → x = EmptyString.
Proof.
  intros H. apply (f_equal String.length) in H.
  rewrite string_app_length in H. destruct x; simpl in *; [done|lia].
Qed.

Lemma stripSuffix_Some suf s x :
  stripSuffix suf s = Some x ↔ s = x +:+ suf.
Proof.
  revert x. induction s as [|a s IH]; intros x; simpl.
  - case_decide as Hs; subst.
    + split; [by intros [= <-]|]. intros H. symmetry in H.
      apply (f_equal String.length) in H. rewrite string_app_length in H.
      destruct x; simpl in *; [done|lia].
    + split; [done|]. intros H. destruct x; simpl in *; [done|discriminate].
  - case_decide as Hs; subst.
    + split; [by intros [= <-]|]. intros H. symmetry in H.
      by rewrite (string_app_cancel_l _ _ H).
    + rewrite fmap_Some. setoid_rewrite IH. split.
      * by intros (y & -> & ->).
      * destruct x as [|b x]; simpl; [by intros ?|]. intros [= -> ->]. eauto.
Qed.

Lemma stripSuffix_app suf s : stripSuffix suf (s +:+ suf) = Some s.
Proof. by apply stripSuffix_Some. Qed.

Lemma stripPrefix_None pre s :
  stripPrefix pre s = None ↔ ∀ x, s ≠ pre +:+ x.
Proof.
  rewrite eq_None_not_Some. unfold is_Some.
  setoid_rewrite stripPrefix_Some.
  split; [intros H x Hx; apply H; eauto|intros H [x Hx]; by eapply H].
Qed.

Lemma stripSuffix_None suf s :
  stripSuffix suf s = None ↔ ∀ x, s ≠ x +:+ suf.
Proof.
  rewrite eq_None_not_Some. unfold is_Some.
  setoid_rewrite stripSuffix_Some.
  split; [intros H x Hx; apply H; eauto|intros H [x Hx]; by eapply H].
Qed.

(** ** What the replacements return *)

Lemma startsWith_spec s pre : startsWith s pre = true ↔ ∃ x, s = pre +:+ x.
Proof.
  unfold startsWith. rewrite bool_decide_eq_true. unfold is_Some.
  by setoid_rewrite stripPrefix_Some.
Qed.

Lemma startsWith_app pre s : startsWith (pre +:+ s) pre = true.
Proof. apply startsWith_spec. eauto. Qed.

Lemma replaceStart_app pre s : replaceStart pre (pre +:+ s) = s.
Proof. unfold replaceStart. by rewrite stripPrefix_app. Qed.

Lemma replaceStart_no_match pre s :
  startsWith s pre = false → replaceStart pre s = s.
Proof.
  unfold startsWith, replaceStart. rewrite bool_decide_eq_false.
  rewrite <-eq_None_not_Some. by intros ->.
Qed.

Lemma replaceEnd_app suf s : replaceEnd suf (s +:+ suf) = s.
Proof. unfold replaceEnd. by rewrite stripSuffix_app. Qed.

Lemma replaceEnd_no_match suf s :
  (∀ x, s ≠ x +:+ suf) → replaceEnd suf s = s.
Proof. unfold replaceEnd. by intros ->%stripSuffix_None. Qed.

(** A replacement never grows its input. *)
Lemma replaceStart_length pre s :
  String.length (replaceStart pre s) ≤ String.length s.
Proof.
  unfold replaceStart. destruct (stripPrefix pre s) as [x|] eqn:Hx; simpl; [|done].
  apply stripPrefix_Some in Hx as ->. rewrite string_app_length. lia.
Qed.

Lemma replaceEnd_length suf s :
  String.length (replaceEnd suf s) ≤ String.length s.
Proof.
  unfold replaceEnd. destruct (stripSuffix suf s) as [x|] eqn:Hx; simpl; [|done].
  apply stripSuffix_Some in Hx as ->. rewrite string_app_length. lia.
Qed.

#[export] Hint Rewrite stripPrefix_app stripSuffix_app replaceStart_app
  replaceEnd_app startsWith_app : js.

(** ** Values, [typeof] and truthiness *)

(** The JavaScript values a caller can pass to a method of the class: the
    primitive values and the elements of the page, [Obj] being the type of
    element references.  Numbers are the integers: fractions, infinities
    and [NaN] are left out, as are the objects that are no elements. *)
Inductive JsValue (Obj : Type) :=
| JsUndefined
| JsNull
| JsBoolean (b : bool)
| JsNumber (n : Z)
| JsString (s : string)
| JsElement (o : Obj).
Arguments JsUndefined {Obj}.
Arguments JsNull {Obj}.
Arguments JsBoolean {Obj} b.
Arguments JsNumber {Obj} n.
Arguments JsString {Obj} s.
Arguments JsElement {Obj} o.

#[export] Instance JsValue_eq_dec `{EqDecision Obj} : EqDecision (JsValue Obj).
Proof. solve_decision. Defined.

Section values.
Context {Obj : Type}.
Implicit Types v : JsValue Obj.

(** [typeof v]. *)
Definition typeof v : string :=
  match v with
  | JsUndefined => "undefined"
  | JsNull => "object"
  | JsBoolean _ => "boolean"
  | JsNumber _ => "number"
  | JsString _ => "string"
  | JsElement _ => "object"
  end.

(** The conversion to a boolean of [!v], [if (v)] and [v || w]: the falsy
    values are [undefined], [null], [false], [0] and the empty string. *)
Definition truthy v : bool :=
  match v with
  | JsUndefined | JsNull => false
  | JsBoolean b => b
  | JsNumber n => bool_decide (n ≠ 0%Z)
  | JsString s => bool_decide (s ≠ EmptyString)
  | JsElement _ => true
  end.

(** The element a value is, if it is one. *)
Definition as_element v : option Obj :=
  if v is JsElement o then Some o else None.

Lemma as_element_Some v o : as_element v = Some o ↔ v = JsElement o.
Proof. destruct v; simpl; split; by intros [= ->]. Qed.

Lemma as_element_None v : as_element v = None ↔ ∀ o, v ≠ JsElement o.
Proof. destruct v; simpl; split; try done. intros Hv. by destruct (Hv o). Qed.

Lemma typeof_string v : typeof v = "string" ↔ ∃ s, v = JsString s.
Proof. destruct v; simpl; split; first [by intros [? ?]|by eauto]. Qed.

(** The falsy values, one by one. *)
Lemma truthy_false v :
  truthy v = false ↔
  v = JsUndefined ∨ v = JsNull ∨ v = JsBoolean false ∨ v = JsNumber 0 ∨
  v = JsString EmptyString.
Proof.
  split.
  - destruct v as [| |[]|n|s|o]; simpl; try done; eauto 6.
    + intros Hn%bool_decide_eq_false%dec_stable. subst. eauto 6.
    + intros Hs%bool_decide_eq_false%dec_stable. subst. eauto 6.
  - by intros [->|[->|[->|[->| ->]]]].
Qed.

(** An element is truthy and is no string. *)
Lemma truthy_element (o : Obj) : truthy (JsElement o) = true ∧ typeof (JsElement o) = "object".
Proof. done. Qed.

End values.
