(* ===== verification/JsMonad.v ===== *)
(** * JsMonad: sequential JavaScript code as a state-and-exception monad

    A method of the script runs to completion on the single UI thread: it
    reads and writes the page, the fields of [this] and the console, and it
    either returns a value or throws.  [Js S A] is the type of such code over
    a state [S]: a function from the state before to the completion and the
    state after.  [try_catch] models [try { ... } catch (error) { ... }] and
    [foldM] a [for (const x of xs)] loop whose local variables are the
    accumulator.  The run equations at the end are the rewriting rules
    ([autorewrite with js]) every proof about a method starts with. *)

From S2P Require Import Prelude.

(** ** Completions *)

(** The exceptions the model can raise: the [TypeError] of a property access
    on [null], and the error of a query whose string is not a selector (the
    browser's [SyntaxError]; the model raises it also for a selector outside
    the fragment it knows, which the script never builds). *)
Inductive Exn :=
| TypeError (msg : string)
| SelectorError (text : string).

#[export] Instance Exn_eq_dec : EqDecision Exn.
Proof. solve_decision. Defined.

(** How a piece of code completes: normally with a value, or abruptly. *)
Inductive completion (A : Type) :=
| Normal (a : A)
| Throw (e : Exn).
Arguments Normal {A} a.
Arguments Throw {A} e.

#[export] Instance completion_eq_dec `{EqDecision A} : EqDecision (completion A).
Proof. solve_decision. Defined.

Definition is_Normal {A} (c : completion A) : Prop := ∃ a, c = Normal a.

#[export] Instance is_Normal_dec {A} (c : completion A) : Decision (is_Normal c).
Proof.
  refine (match c with Normal a => left _ | Throw e => right _ end);
    unfold is_Normal; [eauto|by intros [? ?]].
Defined.

(** ** The monad *)

Definition Js (S A : Type) : Type := S → completion A * S.

Section monad.
Context {S : Type}.
Implicit Types (s : S).

Definition js_ret {A} (a : A) : Js S A := λ s, (Normal a, s).

Definition js_bind {A B} (f : A → Js S B) (c : Js S A) : Js S B :=
  λ s, match c s with
       | (Normal a, s') => f a s'
       | (Throw e, s') => (Throw e, s')
       end.

#[export] Instance Js_ret : MRet (Js S) := @js_ret.
#[export] Instance Js_bind : MBind (Js S) := @js_bind.
#[export] Instance Js_fmap : FMap (Js S) :=
  λ A B f c, js_bind (λ a, js_ret (f a)) c.

(** Reading and writing the state. *)
Definition gets {A} (f : S → A) : Js S A := λ s, (Normal (f s), s).
Definition modify (f : S → S) : Js S unit := λ s, (Normal (), f s).

(** [throw e]: the statement [throw e], or a faulting operation. *)
Definition throw {A} (e : Exn) : Js S A := λ s, (Throw e, s).

(** [try { c } catch (error) { h error }]: the effects [c] had before it
    threw are kept. *)
Definition try_catch {A} (c : Js S A) (h : Exn → Js S A) : Js S A :=
  λ s, match c s with
       | (Normal a, s') => (Normal a, s')
       | (Throw e, s') => h e s'
       end.

(** [a || b] on booleans: [b] runs only when [a] returned [false]. *)
Definition js_or (a b : Js S bool) : Js S bool :=
  a ≫= λ x : bool, if x then mret true else b.

(** [for (const x of xs) { acc = body(acc, x) }]: a loop over an array
    snapshot, its local variables threaded as [acc].  A throwing iteration
    ends the loop. *)
Fixpoint foldM {A B} (body : B → A → Js S B) (acc : B) (xs : list A) : Js S B :=
  match xs with
  | [] => mret acc
  | x :: xs' => acc' ← body acc x; foldM body acc' xs'
  end.

(** [xs.map(f)] for a callback with effects: the calls happen in order. *)
Fixpoint mapM {A B} (f : A → Js S B) (xs : list A) : Js S (list B) :=
  match xs with
  | [] => mret []
  | x :: xs' => y ← f x; ys ← mapM f xs'; mret (y :: ys)
  end.

(** [exec c s] is the state after running [c], [eval c s] its completion. *)
Definition exec {A} (c : Js S A) s : S := (c s).2.
Definition eval {A} (c : Js S A) s : completion A := (c s).1.

(** [returns c s a s']: from [s], [c] returns [a] and leaves [s']. *)
Definition returns {A} (c : Js S A) s (a : A) s' : Prop := c s = (Normal a, s').

(** [no_throw c]: [c] completes normally from every state. *)
Definition no_throw {A} (c : Js S A) : Prop := ∀ s, is_Normal (eval c s).

(** ** Run equations *)

Lemma run_ret {A} (a : A) s : (mret a : Js S A) s = (Normal a, s).
Proof. done. Qed.

Lemma run_bind {A B} (c : Js S A) (f : A → Js S B) s :
  (c ≫= f) s = match c s with
               | (Normal a, s') => f a s'
               | (Throw e, s') => (Throw e, s')
               end.
Proof. done. Qed.

Lemma run_bind_returns {A B} (c : Js S A) (f : A → Js S B) s a s' :
  returns c s a s' → (c ≫= f) s = f a s'.
Proof. intros Hc. by rewrite run_bind, Hc. Qed.

Lemma run_gets {A} (f : S → A) s : gets f s = (Normal (f s), s).
Proof. done. Qed.

Lemma run_modify (f : S → S) s : modify f s = (Normal (), f s).
Proof. done. Qed.

Lemma run_throw {A} e s : (throw e : Js S A) s = (Throw e, s).
Proof. done. Qed.

Lemma run_try_catch_returns {A} (c : Js S A) h s a s' :
  returns c s a s' → try_catch c h s = (Normal a, s').
Proof. unfold try_catch. by intros ->. Qed.

Lemma run_try_catch_throws {A} (c : Js S A) h s e s' :
  c s = (Throw e, s') → try_catch c h s = h e s'.
Proof. unfold try_catch. by intros ->. Qed.

(** ** Monad laws, pointwise *)

Lemma js_left_id {A B} (a : A) (f : A → Js S B) s : (mret a ≫= f) s = f a s.
Proof. done. Qed.

Lemma js_right_id {A} (c : Js S A) s : (c ≫= mret) s = c s.
Proof. rewrite run_bind. by destruct (c s) as [[a|e] s']. Qed.

Lemma js_assoc {A B C} (c : Js S A) (f : A → Js S B) (g : B → Js S C) s :
  ((c ≫= f) ≫= g) s = (c ≫= λ a, f a ≫= g) s.
Proof. rewrite !run_bind. by destruct (c s) as [[a|e] s']. Qed.

(** ** Loops *)

Lemma foldM_nil {A B} (body : B → A → Js S B) acc s :
  foldM body acc [] s = (Normal acc, s).
Proof. done. Qed.

Lemma foldM_cons {A B} (body : B → A → Js S B) acc x xs s :
  foldM body acc (x :: xs) s = (body acc x ≫= λ acc', foldM body acc' xs) s.
Proof. done. Qed.

Lemma foldM_app {A B} (body : B → A → Js S B) acc xs ys s :
  foldM body acc (xs ++ ys) s = (foldM body acc xs ≫= λ acc', foldM body acc' ys) s.
Proof.
  revert acc s. induction xs as [|x xs IH]; intros acc s; [done|].
  simpl. rewrite !run_bind. destruct (body acc x s) as [[acc'|e] s']; [|done].
  by rewrite IH, run_bind.
Qed.

Lemma mapM_nil {A B} (f : A → Js S B) s : mapM f [] s = (Normal [], s).
Proof. done. Qed.

Lemma mapM_cons {A B} (f : A → Js S B) x xs s :
  mapM f (x :: xs) s = (y ← f x; ys ← mapM f xs; mret (y :: ys)) s.
Proof. done. Qed.

(** A loop whose body always returns is a pure left fold over the pair of
    accumulator and state. *)
Lemma foldM_pure {A B} (body : B → A → Js S B) (step : B * S → A → B * S) xs :
  (∀ acc x s, body acc x s = (Normal (step (acc, s) x).1, (step (acc, s) x).2)) →
  ∀ acc s, foldM body acc xs s =
           (Normal (foldl step (acc, s) xs).1, (foldl step (acc, s) xs).2).
Proof.
  intros Hbody. induction xs as [|x xs IH]; intros acc s; [done|].
  rewrite foldM_cons, run_bind, Hbody, IH. simpl.
  by destruct (step (acc, s) x).
Qed.

End monad.

(** The script's notation for [js_or] and [try_catch]. *)
Notation "a ||| b" := (js_or a b) (at level 50, left associativity) : js_scope.
Notation "c 'catch' h" := (try_catch c h) (at level 60, no associativity) : js_scope.

#[export] Hint Rewrite @run_ret @run_gets @run_modify @run_throw
  @foldM_nil : js.

(** [run_js] runs straight-line code in the goal: it unfolds binds and
    rewrites with the run equations of the database [js]. *)
Ltac run_js :=
  repeat first
    [ rewrite run_bind
    | progress autorewrite with js
    | progress cbn [fst snd] ].
