(* ===== verification/Dom.v ===== *)
(** * Dom: the page as the script sees it

    The script never builds or removes elements: it queries the document,
    reads attributes and classes, and writes two properties of an element
    (its inline [display] and its class list).  This file states that
    contract.

    - [Props] is what the script can observe or change of one element.
    - [Selector] is the abstract syntax of the selectors the script passes
      to [querySelector], [matches] and [closest].
    - [Dom] is the interface of a document: its elements in document order,
      the descendants and ancestors of an element, the properties of an
      element, and the in-place modification of one element.  [DomLaws] are
      the laws of that interface; [DomTree] implements both with a tree.
    - The browser functions the script calls ([querySelector],
      [getElementsByClassName], [getAttribute], [classList.contains],
      [classList.add], [style.display = ...], [matches], [closest]) are
      defined once, over the interface, with their frame lemmas: which
      queries a write leaves unchanged.
    - [≡] on documents is observational equality; every function of the
      interface respects it. *)

From S2P Require Import Prelude JsString.

(** ** Element properties *)

Record Props := mkProps {
  localName : string;                      (* tag name, lower case *)
  attributes : list (string * string);     (* content attributes but class and style *)
  classList : list string;                 (* the tokens of the class attribute *)
  style_display : string;                  (* inline style.display, empty when unset *)
}.

#[export] Instance Props_eq_dec : EqDecision Props.
Proof. solve_decision. Defined.

(** [el.getAttribute(name)] on the attribute list: the first attribute of
    that name, [None] for JavaScript's [null]. *)
Fixpoint lookup_attr (name : string) (attrs : list (string * string)) : option string :=
  match attrs with
  | [] => None
  | (k, v) :: attrs' => if decide (k = name) then Some v else lookup_attr name attrs'
  end.

(** [el.classList.add(c)]: the token is appended unless it is present. *)
Definition add_class (c : string) (pr : Props) : Props :=
  if decide (c ∈ classList pr) then pr
  else mkProps (localName pr) (attributes pr) (classList pr ++ [c]) (style_display pr).

(** [el.style.display = v], for a value [v] the style accepts: the script
    writes [none]. *)
Definition set_display (v : string) (pr : Props) : Props :=
  mkProps (localName pr) (attributes pr) (classList pr) v.

(** ** Selectors *)

(** A simple selector, and a compound selector as the conjunction of its
    simple selectors: [nav[aria-label="pagination"]] is
    [[SelTag "nav"; SelAttrEq "aria-label" "pagination"]]. *)
Inductive Simple :=
| SelTag (t : string)                  (* t *)
| SelClass (c : string)                (* .c *)
| SelAttrEq (a v : string)             (* [a="v"] *)
| SelAttrPrefix (a v : string).        (* [a^="v"] *)

Definition Selector := list Simple.

#[export] Instance Simple_eq_dec : EqDecision Simple.
Proof. solve_decision. Defined.

(** Classes and attribute values are compared as they are written, as in
    a document in standards mode. *)
Definition matches_simple (pr : Props) (s : Simple) : bool :=
  match s with
  | SelTag t => bool_decide (localName pr = t)
  | SelClass c => bool_decide (c ∈ classList pr)
  | SelAttrEq a v => bool_decide (lookup_attr a (attributes pr) = Some v)
  | SelAttrPrefix a v =>
      (* a prefix selector with an empty value matches nothing *)
      match lookup_attr a (attributes pr) with
      | Some x => bool_decide (v ≠ EmptyString) && startsWith x v
      | None => false
      end
  end.

Definition props_match (pr : Props) (sel : Selector) : bool :=
  forallb (matches_simple pr) sel.

(** [mentions_class c sel]: the selector tests the class [c]. *)
Definition mentions_class (c : string) (sel : Selector) : Prop :=
  SelClass c ∈ sel.

(** ** The document interface *)

Class Dom (D R : Type) `{EqDecision R} := {
  (** every element of the document, in document order *)
  dom_nodes : D → list R;
  (** the properties of an element, [None] for a reference to no element *)
  dom_props : D → R → option Props;
  (** the proper descendants of an element, in document order *)
  dom_descendants : D → R → list R;
  (** the element itself, then its parent, grandparent, ... up to the root *)
  dom_ancestors : D → R → list R;
  (** change the properties of one element in place *)
  dom_modify : (Props → Props) → R → D → D;
}.
#[global] Hint Mode Dom ! - - : typeclass_instances.

Class DomLaws (D R : Type) `{Dom D R} := {
  dom_nodes_NoDup (d : D) : NoDup (dom_nodes d);
  dom_props_nodes (d : D) (r : R) : is_Some (dom_props d r) ↔ r ∈ dom_nodes d;
  dom_descendants_nodes (d : D) (r q : R) :
    q ∈ dom_descendants d r → q ∈ dom_nodes d;
  dom_ancestors_nodes (d : D) (r q : R) :
    q ∈ dom_ancestors d r → q ∈ dom_nodes d;
  dom_ancestors_self (d : D) (r : R) :
    r ∈ dom_nodes d → head (dom_ancestors d r) = Some r;
  (** the ancestors of an ancestor are the rest of the way to the root *)
  dom_ancestors_suffix (d : D) (r q : R) :
    q ∈ dom_ancestors d r → dom_ancestors d q `suffix_of` dom_ancestors d r;
  (** the proper descendants of an element are the elements it is a proper
      ancestor of *)
  dom_descendants_ancestors (d : D) (r q : R) :
    q ∈ dom_descendants d r ↔ q ≠ r ∧ r ∈ dom_ancestors d q;
  dom_nodes_modify f (r : R) (d : D) : dom_nodes (dom_modify f r d) = dom_nodes d;
  dom_descendants_modify f (r : R) (d : D) (q : R) :
    dom_descendants (dom_modify f r d) q = dom_descendants d q;
  dom_ancestors_modify f (r : R) (d : D) (q : R) :
    dom_ancestors (dom_modify f r d) q = dom_ancestors d q;
  dom_props_modify f (r : R) (d : D) (q : R) :
    dom_props (dom_modify f r d) q =
      if decide (q = r) then f <$> dom_props d q else dom_props d q;
}.

(** What a write leaves of the document: [autorewrite with dom] pushes
    every observation through the writes before it. *)
#[export] Hint Rewrite @dom_nodes_modify @dom_descendants_modify
  @dom_ancestors_modify @dom_props_modify : dom.
#[export] Hint Resolve dom_descendants_nodes dom_ancestors_nodes : dom.

(** ** The browser functions, over the interface *)

Section api.
Context `{Dom D R}.
Implicit Types (d : D) (r q : R) (sel : Selector) (c : string).

(** [el.matches(sel)]. *)
Definition matches d r sel : bool :=
  from_option (λ pr, props_match pr sel) false (dom_props d r).

(** [document.querySelectorAll(sel)] and [document.querySelector(sel)]:
    the matching elements in document order, and the first of them. *)
Definition querySelectorAll d sel : list R :=
  filter (λ r, matches d r sel) (dom_nodes d).

Definition querySelector d sel : option R :=
  head (querySelectorAll d sel).

(** [el.querySelector(sel)]: the first proper descendant that matches. *)
Definition elem_querySelector d r sel : option R :=
  head (filter (λ q, matches d q sel) (dom_descendants d r)).

(** [el.closest(sel)]: the nearest inclusive ancestor that matches. *)
Definition closest d r sel : option R :=
  head (filter (λ q, matches d q sel) (dom_ancestors d r)).

(** [el.classList.contains(c)]. *)
Definition classList_contains d r c : bool :=
  from_option (λ pr, bool_decide (c ∈ classList pr)) false (dom_props d r).

(** [document.getElementsByClassName(c)], as the array [Array.from] makes
    of it. *)
Definition getElementsByClassName d c : list R :=
  filter (λ r, classList_contains d r c) (dom_nodes d).

(** [el.getAttribute(name)]. *)
Definition getAttribute d r (name : string) : option string :=
  dom_props d r ≫= λ pr, lookup_attr name (attributes pr).

(** [el.classList.add(c)] and [el.style.display = v]. *)
Definition classList_add c r d : D := dom_modify (add_class c) r d.
Definition style_set_display (v : string) r d : D := dom_modify (set_display v) r d.

(** [el.style.display], [None] for a reference to no element. *)
Definition style_get_display d r : option string :=
  style_display <$> dom_props d r.

(** Observational equality of documents. *)
#[export] Instance dom_equiv : Equiv D := λ d1 d2,
  dom_nodes d1 = dom_nodes d2 ∧
  (∀ r, dom_props d1 r = dom_props d2 r) ∧
  (∀ r, dom_descendants d1 r = dom_descendants d2 r) ∧
  (∀ r, dom_ancestors d1 r = dom_ancestors d2 r).

End api.

(** ** Writes on the properties of one element *)

Section props_facts.
Implicit Types (pr : Props) (c v : string) (sel : Selector).

Lemma classList_add_class c c' pr :
  c' ∈ classList (add_class c pr) ↔ c' = c ∨ c' ∈ classList pr.
Proof.
  unfold add_class. case_decide; simpl.
  - split; [tauto|]. by intros [->|?].
  - rewrite elem_of_app, list_elem_of_singleton. tauto.
Qed.

Lemma attributes_add_class c pr : attributes (add_class c pr) = attributes pr.
Proof. unfold add_class. by case_decide. Qed.

Lemma localName_add_class c pr : localName (add_class c pr) = localName pr.
Proof. unfold add_class. by case_decide. Qed.

Lemma style_display_add_class c pr :
  style_display (add_class c pr) = style_display pr.
Proof. unfold add_class. by case_decide. Qed.

Lemma add_class_present c pr : c ∈ classList pr → add_class c pr = pr.
Proof. unfold add_class. by case_decide. Qed.

Lemma add_class_idemp c pr : add_class c (add_class c pr) = add_class c pr.
Proof. apply add_class_present, classList_add_class. by left. Qed.

Lemma set_display_idemp v pr : set_display v (set_display v pr) = set_display v pr.
Proof. done. Qed.

Lemma add_class_set_display c v pr :
  add_class c (set_display v pr) = set_display v (add_class c pr).
Proof. unfold add_class. simpl. by case_decide. Qed.

(** A selector that does not test the class [c] cannot tell whether
    [c] was added. *)
Lemma matches_simple_add_class c pr s :
  s ≠ SelClass c → matches_simple (add_class c pr) s = matches_simple pr s.
Proof.
  intros Hs. destruct s as [t|c'|a v|a v]; simpl;
    rewrite ?attributes_add_class, ?localName_add_class; try done.
  apply bool_decide_ext. rewrite classList_add_class.
  split; [intros [->|?]; [by destruct Hs|done]|tauto].
Qed.

Lemma props_match_add_class c pr sel :
  ¬ mentions_class c sel → props_match (add_class c pr) sel = props_match pr sel.
Proof.
  unfold mentions_class, props_match. induction sel as [|s sel IH]; [done|].
  rewrite not_elem_of_cons. intros [Hs Hsel]. simpl.
  by rewrite matches_simple_add_class, IH.
Qed.

(** No selector looks at the inline style. *)
Lemma props_match_set_display v pr sel :
  props_match (set_display v pr) sel = props_match pr sel.
Proof.
  unfold props_match. induction sel as [|s sel IH]; [done|].
  simpl. rewrite IH. by destruct s.
Qed.

End props_facts.

(** ** Frame lemmas: what a write leaves unchanged *)

Section frame.
Context `{DomLaws D R}.
Implicit Types (d : D) (r q : R) (sel : Selector) (c : string)
  (f : Props → Props).

Lemma matches_modify f r d q sel :
  (∀ pr, props_match (f pr) sel = props_match pr sel) →
  matches (dom_modify f r d) q sel = matches d q sel.
Proof.
  intros Hf. unfold matches. rewrite dom_props_modify.
  case_decide; [|done]. by destruct (dom_props d q); simpl; rewrite ?Hf.
Qed.

Lemma querySelectorAll_modify f r d sel :
  (∀ pr, props_match (f pr) sel = props_match pr sel) →
  querySelectorAll (dom_modify f r d) sel = querySelectorAll d sel.
Proof.
  intros Hf. unfold querySelectorAll. rewrite dom_nodes_modify.
  apply filter_ext_bool. intros q _. by apply matches_modify.
Qed.

Lemma querySelector_modify f r d sel :
  (∀ pr, props_match (f pr) sel = props_match pr sel) →
  querySelector (dom_modify f r d) sel = querySelector d sel.
Proof. intros Hf. unfold querySelector. by rewrite querySelectorAll_modify. Qed.

Lemma elem_querySelector_modify f r d q sel :
  (∀ pr, props_match (f pr) sel = props_match pr sel) →
  elem_querySelector (dom_modify f r d) q sel = elem_querySelector d q sel.
Proof.
  intros Hf. unfold elem_querySelector. rewrite dom_descendants_modify.
  f_equal. apply filter_ext_bool. intros q' _. by apply matches_modify.
Qed.

Lemma closest_modify f r d q sel :
  (∀ pr, props_match (f pr) sel = props_match pr sel) →
  closest (dom_modify f r d) q sel = closest d q sel.
Proof.
  intros Hf. unfold closest. rewrite dom_ancestors_modify.
  f_equal. apply filter_ext_bool. intros q' _. by apply matches_modify.
Qed.

Lemma classList_contains_modify f r d q c :
  classList_contains (dom_modify f r d) q c =
    if decide (q = r)
    then from_option (λ pr, bool_decide (c ∈ classList (f pr))) false (dom_props d q)
    else classList_contains d q c.
Proof.
  unfold classList_contains. rewrite dom_props_modify.
  case_decide; [|done]. by destruct (dom_props d q).
Qed.

Lemma classList_contains_modify_preserved f r d q c :
  (∀ pr, c ∈ classList (f pr) ↔ c ∈ classList pr) →
  classList_contains (dom_modify f r d) q c = classList_contains d q c.
Proof.
  intros Hf. rewrite classList_contains_modify. case_decide; [|done].
  unfold classList_contains. destruct (dom_props d q); simpl; [|done].
  by apply bool_decide_ext.
Qed.

Lemma getElementsByClassName_modify f r d c :
  (∀ pr, c ∈ classList (f pr) ↔ c ∈ classList pr) →
  getElementsByClassName (dom_modify f r d) c = getElementsByClassName d c.
Proof.
  intros Hf. unfold getElementsByClassName. rewrite dom_nodes_modify.
  apply filter_ext_bool. intros q _. by apply classList_contains_modify_preserved.
Qed.

Lemma getAttribute_modify f r d q name :
  (∀ pr, attributes (f pr) = attributes pr) →
  getAttribute (dom_modify f r d) q name = getAttribute d q name.
Proof.
  intros Hf. unfold getAttribute. rewrite dom_props_modify.
  case_decide; [|done]. by destruct (dom_props d q); simpl; rewrite ?Hf.
Qed.

(** What a query returns. *)
Lemma querySelector_Some d sel r :
  querySelector d sel = Some r →
  r ∈ dom_nodes d ∧ matches d r sel = true ∧
  ∃ before after, dom_nodes d = before ++ r :: after ∧
                  Forall (λ q, matches d q sel = false) before.
Proof.
  unfold querySelector, querySelectorAll. intros Hhead.
  pose proof (head_Some_elem_of _ _ Hhead) as Hin.
  apply list_elem_of_filter in Hin as [Hm Hin]. split_and!; [done|by apply Is_true_true|].
  apply head_filter_Some in Hhead as (l1&l2&->&Hl1). exists l1, l2. split; [done|].
  eapply Forall_impl; [done|]. intros q Hq.
  simpl in Hq. destruct (matches d q sel); [exfalso; by apply Hq|done].
Qed.

Lemma querySelector_None d sel :
  querySelector d sel = None ↔ ∀ r, r ∈ dom_nodes d → matches d r sel = false.
Proof.
  unfold querySelector, querySelectorAll. rewrite head_None. split.
  - intros Hnil r Hr. destruct (matches d r sel) eqn:Hm; [|done].
    assert (r ∈ filter (λ q, matches d q sel) (dom_nodes d)) as Hin
      by (apply list_elem_of_filter; by rewrite Hm).
    rewrite Hnil in Hin. by apply elem_of_nil in Hin.
  - intros Hall. induction (dom_nodes d) as [|r l IH]; [done|].
    rewrite filter_cons, (Hall r) by left. simpl.
    apply IH. intros q Hq. apply Hall. by right.
Qed.

Lemma elem_querySelector_Some d r sel q :
  elem_querySelector d r sel = Some q →
  q ∈ dom_descendants d r ∧ matches d q sel = true.
Proof.
  unfold elem_querySelector. intros Hhead.
  pose proof (head_Some_elem_of _ _ Hhead) as Hin.
  apply list_elem_of_filter in Hin as [Hm Hin]. by rewrite Is_true_true in Hm.
Qed.

(** What the two writes establish. *)
Lemma classList_contains_add c r d :
  r ∈ dom_nodes d → classList_contains (classList_add c r d) r c = true.
Proof.
  intros [pr Hpr]%dom_props_nodes. unfold classList_add.
  rewrite classList_contains_modify, decide_True, Hpr by done. simpl.
  apply bool_decide_eq_true, classList_add_class. by left.
Qed.

Lemma style_get_display_set v r d :
  r ∈ dom_nodes d → style_get_display (style_set_display v r d) r = Some v.
Proof.
  intros [pr Hpr]%dom_props_nodes. unfold style_get_display, style_set_display.
  by rewrite dom_props_modify, decide_True, Hpr.
Qed.

(** Queries return elements of the page, each once. *)
Lemma NoDup_getElementsByClassName d c : NoDup (getElementsByClassName d c).
Proof. apply NoDup_filter, dom_nodes_NoDup. Qed.

Lemma elem_querySelector_nodes d r sel q :
  elem_querySelector d r sel = Some q → q ∈ dom_nodes d.
Proof. intros [Hq _]%elem_querySelector_Some. eauto with dom. Qed.

Lemma closest_Some d r sel q :
  closest d r sel = Some q →
  q ∈ dom_ancestors d r ∧ q ∈ dom_nodes d ∧ matches d q sel = true.
Proof.
  unfold closest. intros Hhead.
  pose proof (head_Some_elem_of _ _ Hhead) as Hin.
  apply list_elem_of_filter in Hin as [Hm Hin].
  rewrite Is_true_true in Hm. eauto with dom.
Qed.

(** [closest] finds an element exactly when an inclusive ancestor matches. *)
Lemma closest_is_Some d r sel :
  closest d r sel ≠ None ↔ ∃ q, q ∈ dom_ancestors d r ∧ matches d q sel = true.
Proof.
  unfold closest. rewrite head_None. split.
  - destruct (filter _ _) as [|q l] eqn:Hf; [done|]. intros _. exists q.
    assert (Hq : q ∈ filter (λ q, matches d q sel) (dom_ancestors d r))
      by (rewrite Hf; left).
    apply list_elem_of_filter in Hq as [Hm Hq]. by rewrite Is_true_true in Hm.
  - intros (q&Hq&Hm) Hnil. apply (elem_of_nil q). rewrite <-Hnil.
    apply list_elem_of_filter. by rewrite Is_true_true.
Qed.

(** Ancestry is transitive, and the ancestors of an element form a chain. *)
Lemma dom_ancestors_trans d r q p :
  q ∈ dom_ancestors d r → p ∈ dom_ancestors d q → p ∈ dom_ancestors d r.
Proof. intros Hq Hp. by eapply elem_of_suffix, dom_ancestors_suffix. Qed.

Lemma dom_ancestors_chain d r p q :
  p ∈ dom_ancestors d r → q ∈ dom_ancestors d r →
  p ∈ dom_ancestors d q ∨ q ∈ dom_ancestors d p.
Proof.
  intros Hp Hq.
  pose proof (dom_ancestors_self d p (dom_ancestors_nodes _ _ _ Hp)) as Hhp.
  pose proof (dom_ancestors_self d q (dom_ancestors_nodes _ _ _ Hq)) as Hhq.
  destruct (suffix_weak_total _ _ _ (dom_ancestors_suffix _ _ _ Hp)
              (dom_ancestors_suffix _ _ _ Hq)) as [Hs|Hs]; [left|right];
    (eapply elem_of_suffix; [|exact Hs]); by apply head_Some_elem_of.
Qed.

(** Two elements that are ancestors of each other are one element. *)
Lemma dom_ancestors_antisym d r q :
  q ∈ dom_ancestors d r → r ∈ dom_ancestors d q → q = r.
Proof.
  intros Hq Hr.
  pose proof (dom_ancestors_self d q (dom_ancestors_nodes _ _ _ Hq)) as Hhq.
  pose proof (dom_ancestors_self d r (dom_ancestors_nodes _ _ _ Hr)) as Hhr.
  apply dom_ancestors_suffix in Hq, Hr.
  rewrite (anti_symm suffix _ _ Hq Hr) in Hhq. congruence.
Qed.

(** The descendants of a descendant are descendants. *)
Lemma dom_descendants_trans d r q p :
  q ∈ dom_descendants d r → p ∈ dom_descendants d q → p ∈ dom_descendants d r.
Proof.
  rewrite !dom_descendants_ancestors. intros [Hqr Hr] [Hpq Hq]. split.
  - intros ->. apply Hqr. by eapply dom_ancestors_antisym.
  - by eapply dom_ancestors_trans.
Qed.

(** An element that matches is its own closest match. *)
Lemma closest_self d r sel :
  r ∈ dom_nodes d → matches d r sel = true → closest d r sel = Some r.
Proof.
  intros Hr Hm. unfold closest. pose proof (dom_ancestors_self d r Hr) as Hhead.
  destruct (dom_ancestors d r) as [|x l]; simplify_eq/=.
  by rewrite filter_cons_True by (by rewrite Hm).
Qed.

End frame.

(** ** Observational equality *)

Section equiv.
Context `{DomLaws D R}.
Implicit Types (d : D) (r q : R) (sel : Selector) (c : string)
  (f g : Props → Props).

#[export] Instance dom_equiv_equivalence : Equivalence (≡@{D}).
Proof.
  split.
  - by intros d.
  - intros d1 d2 (?&?&?&?). by split_and!.
  - intros d1 d2 d3 (?&?&?&?) (?&?&?&?).
    split_and!; [congruence|intros r; etrans; eauto..].
Qed.

#[export] Instance dom_nodes_proper : Proper ((≡) ==> (=)) (dom_nodes (D:=D)).
Proof. by intros d1 d2 (?&_). Qed.

#[export] Instance dom_props_proper : Proper ((≡) ==> (=) ==> (=)) (dom_props (D:=D)).
Proof. by intros d1 d2 (_&?&_) r ? <-. Qed.

#[export] Instance dom_descendants_proper :
  Proper ((≡) ==> (=) ==> (=)) (dom_descendants (D:=D)).
Proof. by intros d1 d2 (_&_&?&_) r ? <-. Qed.

#[export] Instance dom_ancestors_proper :
  Proper ((≡) ==> (=) ==> (=)) (dom_ancestors (D:=D)).
Proof. by intros d1 d2 (_&_&_&?) r ? <-. Qed.

#[export] Instance dom_modify_proper f r : Proper ((≡) ==> (≡)) (dom_modify (D:=D) f r).
Proof.
  intros d1 d2 (Hn&Hp&Hd&Ha). split_and!; intros;
    autorewrite with dom; by rewrite ?Hn, ?Hp, ?Hd, ?Ha.
Qed.

#[export] Instance matches_proper : Proper ((≡) ==> (=) ==> (=) ==> (=)) (matches (D:=D)).
Proof. intros d1 d2 Hd r ? <- sel ? <-. unfold matches. by rewrite Hd. Qed.

#[export] Instance classList_contains_proper :
  Proper ((≡) ==> (=) ==> (=) ==> (=)) (classList_contains (D:=D)).
Proof. intros d1 d2 Hd r ? <- c ? <-. unfold classList_contains. by rewrite Hd. Qed.

#[export] Instance querySelectorAll_proper :
  Proper ((≡) ==> (=) ==> (=)) (querySelectorAll (D:=D)).
Proof.
  intros d1 d2 Hd sel ? <-. unfold querySelectorAll. rewrite Hd.
  apply filter_ext_bool. intros r _. by rewrite Hd.
Qed.

#[export] Instance querySelector_proper :
  Proper ((≡) ==> (=) ==> (=)) (querySelector (D:=D)).
Proof. intros d1 d2 Hd sel ? <-. unfold querySelector. by rewrite Hd. Qed.

#[export] Instance elem_querySelector_proper :
  Proper ((≡) ==> (=) ==> (=) ==> (=)) (elem_querySelector (D:=D)).
Proof.
  intros d1 d2 Hd r ? <- sel ? <-. unfold elem_querySelector. rewrite Hd.
  f_equal. apply filter_ext_bool. intros q _. by rewrite Hd.
Qed.

#[export] Instance closest_proper :
  Proper ((≡) ==> (=) ==> (=) ==> (=)) (closest (D:=D)).
Proof.
  intros d1 d2 Hd r ? <- sel ? <-. unfold closest. rewrite Hd.
  f_equal. apply filter_ext_bool. intros q _. by rewrite Hd.
Qed.

#[export] Instance getElementsByClassName_proper :
  Proper ((≡) ==> (=) ==> (=)) (getElementsByClassName (D:=D)).
Proof.
  intros d1 d2 Hd c ? <-. unfold getElementsByClassName. rewrite Hd.
  apply filter_ext_bool. intros r _. by rewrite Hd.
Qed.

#[export] Instance getAttribute_proper :
  Proper ((≡) ==> (=) ==> (=) ==> (=)) (getAttribute (D:=D)).
Proof. intros d1 d2 Hd r ? <- n ? <-. unfold getAttribute. by rewrite Hd. Qed.

(** Documents with the same structure are equal when their elements have
    the same properties. *)
Lemma dom_equiv_modify_l f r d d' :
  dom_nodes d' = dom_nodes d →
  (∀ q, dom_descendants d' q = dom_descendants d q) →
  (∀ q, dom_ancestors d' q = dom_ancestors d q) →
  (∀ q, dom_props d' q = if decide (q = r) then f <$> dom_props d q else dom_props d q) →
  d' ≡ dom_modify f r d.
Proof.
  intros Hn Hd Ha Hp. split_and!; intros;
    by autorewrite with dom.
Qed.

(** Algebra of writes, up to [≡]. *)
Lemma dom_modify_modify f g r d :
  dom_modify f r (dom_modify g r d) ≡ dom_modify (f ∘ g) r d.
Proof.
  apply dom_equiv_modify_l; intros;
    autorewrite with dom; try done.
  case_decide; [|done]. by rewrite option_fmap_compose.
Qed.

Lemma dom_modify_ext f g r d :
  (∀ pr, dom_props d r = Some pr → f pr = g pr) →
  dom_modify f r d ≡ dom_modify g r d.
Proof.
  intros Hfg. apply dom_equiv_modify_l; intros;
    autorewrite with dom; try done.
  case_decide as Hq; [subst|done].
  destruct (dom_props d r) as [pr|] eqn:Hpr; simpl; [|done]. by rewrite Hfg.
Qed.

Lemma dom_modify_fixed f r d :
  (∀ pr, dom_props d r = Some pr → f pr = pr) → dom_modify f r d ≡ d.
Proof.
  intros Hf. split_and!; intros;
    autorewrite with dom; try done.
  case_decide as Hq; [subst|done].
  destruct (dom_props d r) as [pr|] eqn:Hpr; simpl; [|done]. by rewrite Hf.
Qed.

Lemma dom_modify_comm f g r q d :
  (r = q → ∀ pr, f (g pr) = g (f pr)) →
  dom_modify f r (dom_modify g q d) ≡ dom_modify g q (dom_modify f r d).
Proof.
  intros Hfg. split_and!; intros;
    autorewrite with dom; try done.
  repeat case_decide; subst; try done.
  destruct (dom_props d q); simpl; [|done]. by rewrite Hfg.
Qed.

End equiv.

(** ** Writing the same change to many elements *)

Section modify_all.
Context `{DomLaws D R}.
Implicit Types (d : D) (r q : R) (rs : list R) (f : Props → Props).

(** [modify_all f rs d] applies [f] to each element of [rs] in turn. *)
Definition modify_all f rs d : D := foldl (λ d r, dom_modify f r d) d rs.

Lemma modify_all_cons f r rs d :
  modify_all f (r :: rs) d = modify_all f rs (dom_modify f r d).
Proof. done. Qed.

(** An observation that no single write changes is not changed by many. *)
Lemma modify_all_preserved {A} (obs : D → A) f rs d :
  (∀ r d, obs (dom_modify f r d) = obs d) → obs (modify_all f rs d) = obs d.
Proof.
  intros Hobs. revert d. induction rs as [|r rs IH]; intros d; simpl; [done|].
  by rewrite IH, Hobs.
Qed.

Lemma dom_nodes_modify_all f rs d : dom_nodes (modify_all f rs d) = dom_nodes d.
Proof. apply (modify_all_preserved dom_nodes). intros. apply dom_nodes_modify. Qed.

Lemma dom_descendants_modify_all f rs d q :
  dom_descendants (modify_all f rs d) q = dom_descendants d q.
Proof.
  apply (modify_all_preserved (λ d, dom_descendants d q)).
  intros. apply dom_descendants_modify.
Qed.

Lemma dom_ancestors_modify_all f rs d q :
  dom_ancestors (modify_all f rs d) q = dom_ancestors d q.
Proof.
  apply (modify_all_preserved (λ d, dom_ancestors d q)).
  intros. apply dom_ancestors_modify.
Qed.

(** For an idempotent [f], an element listed once or many times is changed
    once. *)
Lemma dom_props_modify_all f rs d q :
  (∀ pr, f (f pr) = f pr) →
  dom_props (modify_all f rs d) q =
    if decide (q ∈ rs) then f <$> dom_props d q else dom_props d q.
Proof.
  intros Hf. revert d. induction rs as [|r rs IH]; intros d; simpl.
  { done. }
  rewrite IH, dom_props_modify.
  destruct (decide (q = r)) as [->|Hqr].
  - rewrite (decide_True (P := r ∈ r :: rs)) by left.
    case_decide; [|done]. rewrite <-option_fmap_compose.
    destruct (dom_props d r); simpl; [|done]. by rewrite Hf.
  - apply decide_ext. rewrite elem_of_cons. tauto.
Qed.

#[export] Instance modify_all_proper f rs : Proper ((≡) ==> (≡)) (modify_all f rs).
Proof.
  induction rs as [|r rs IH]; intros d1 d2 Hd; simpl; [done|].
  apply IH. by rewrite Hd.
Qed.

End modify_all.

#[export] Hint Rewrite @dom_nodes_modify_all @dom_descendants_modify_all
  @dom_ancestors_modify_all : dom.
