(* ===== verification/SelectorText.v ===== *)
(** * SelectorText: the selector strings of the script

    The script passes selectors to the browser as strings: two template
    literals ([`.${className}`], line 35, and [`[data-testid="${testId}"]`],
    line 57) and three literals (lines 182, 190 and 192).  [Dom] works with
    the abstract syntax of selectors ([Selector]).  This file gives the
    concrete syntax of the fragment of the selector language the script
    needs (a compound selector: an optional tag name followed by class and
    attribute tests) with a printer and a parser, proves that parsing
    inverts printing, and says which selector each template literal
    denotes.

    The parser reads the string once, character by character, as a state
    machine.  It returns [None] on what is not a selector and on what is
    outside the fragment: combinators, selector lists, pseudo-classes,
    escapes, other attribute operators, upper-case tag and attribute
    names. *)

From Stdlib Require Import Ascii.
From S2P Require Import Prelude JsString Dom.

(** ** Characters *)

Definition dquote : ascii := "034"%char.
Definition backslash : ascii := "092"%char.

Definition is_lower (c : ascii) : bool := Ascii.leb "a" c && Ascii.leb c "z".
Definition is_upper (c : ascii) : bool := Ascii.leb "A" c && Ascii.leb c "Z".
Definition is_digit (c : ascii) : bool := Ascii.leb "0" c && Ascii.leb c "9".

(** The characters of an identifier, and those it can start with. *)
Definition ident_char (c : ascii) : bool :=
  is_lower c || is_upper c || is_digit c ||
  bool_decide (c = "-"%char) || bool_decide (c = "_"%char).
Definition ident_start (c : ascii) : bool :=
  is_lower c || is_upper c || bool_decide (c = "_"%char).

(** The same for names that are matched without regard to case (tag and
    attribute names): the fragment has them in lower case. *)
Definition name_char (c : ascii) : bool := ident_char c && negb (is_upper c).
Definition name_start (c : ascii) : bool := is_lower c || bool_decide (c = "_"%char).

(** The characters of a quoted value. *)
Definition value_char (c : ascii) : bool :=
  negb (bool_decide (c = dquote)) && negb (bool_decide (c = backslash)) &&
  Ascii.leb " " c.

(** An identifier does not start with a digit. *)
Lemma is_digit_not_ident_start (c : ascii) :
  is_digit c = true →
  ident_start c = false ∧ c ≠ "-"%char.
Proof. by destruct c as [[] [] [] [] [] [] [] []]. Qed.

Fixpoint all_chars (p : ascii → bool) (s : string) : bool :=
  match s with
  | EmptyString => true
  | String c s' => p c && all_chars p s'
  end.

Definition starts_with_char (p : ascii → bool) (s : string) : bool :=
  match s with
  | EmptyString => false
  | String c _ => p c
  end.

(** The start of an identifier: a letter or an underscore, or a hyphen that
    one of these or a second hyphen follows. *)
Definition ident_head (s : string) : bool :=
  match s with
  | EmptyString => false
  | String c s' =>
      if bool_decide (c = "-"%char)
      then starts_with_char (λ c', ident_start c' || bool_decide (c' = "-"%char)) s'
      else ident_start c
  end.

Definition is_ident (s : string) : bool := ident_head s && all_chars ident_char s.
Definition is_name (s : string) : bool :=
  starts_with_char name_start s && all_chars name_char s.
Definition is_value (s : string) : bool := all_chars value_char s.

(** ** Printing *)

Definition quoted (v : string) : string :=
  String dquote (v +:+ String dquote EmptyString).

Definition print_simple (s : Simple) : string :=
  match s with
  | SelTag t => t
  | SelClass c => "." +:+ c
  | SelAttrEq a v => "[" +:+ a +:+ "=" +:+ quoted v +:+ "]"
  | SelAttrPrefix a v => "[" +:+ a +:+ "^=" +:+ quoted v +:+ "]"
  end.

Definition print_selector (sel : Selector) : string :=
  foldr (λ s r, print_simple s +:+ r) EmptyString sel.

(** ** Parsing *)

Inductive PState :=
| PStart                                   (* nothing read yet *)
| PTag (t : string)                        (* in the tag name *)
| PClass (c : string)                      (* in a class name, after [.] *)
| PAttr (a : string)                       (* in an attribute name, after [[] *)
| POp (a : string)                         (* after [^]: [=] must follow *)
| PQuote (a : string) (pre : bool)         (* after [=]: the quote must follow *)
| PValue (a : string) (pre : bool) (v : string)   (* inside the quotes *)
| PClose (s : Simple)                      (* after the value: []] must follow *)
| PNext.                                   (* after a complete test *)

Definition snoc (s : string) (c : ascii) : string := s +:+ String c EmptyString.

Definition attr_test (a : string) (pre : bool) (v : string) : Simple :=
  if pre then SelAttrPrefix a v else SelAttrEq a v.

(** The test a state has read completely, if any. *)
Definition finish (st : PState) : option (list Simple) :=
  match st with
  | PTag t => Some [SelTag t]
  | PClass c => if is_ident c then Some [SelClass c] else None
  | PNext => Some []
  | _ => None
  end.

(** The state after the character that opens a test. *)
Definition open_test (c : ascii) : option PState :=
  if bool_decide (c = "."%char) then Some (PClass EmptyString)
  else if bool_decide (c = "["%char) then Some (PAttr EmptyString)
  else None.

Definition parse_step (st : PState) (c : ascii) : option (list Simple * PState) :=
  match st with
  | PStart =>
      if name_start c then Some ([], PTag (String c EmptyString))
      else st' ← open_test c; Some ([], st')
  | PTag t =>
      if name_char c then Some ([], PTag (snoc t c))
      else st' ← open_test c; Some ([SelTag t], st')
  | PClass x =>
      if ident_char c then Some ([], PClass (snoc x c))
      else done ← finish st; st' ← open_test c; Some (done, st')
  | PAttr a =>
      if name_char c then Some ([], PAttr (snoc a c))
      else if negb (is_name a) then None
      else if bool_decide (c = "="%char) then Some ([], PQuote a false)
      else if bool_decide (c = "^"%char) then Some ([], POp a)
      else None
  | POp a => if bool_decide (c = "="%char) then Some ([], PQuote a true) else None
  | PQuote a pre =>
      if bool_decide (c = dquote) then Some ([], PValue a pre EmptyString) else None
  | PValue a pre v =>
      if bool_decide (c = dquote) then Some ([], PClose (attr_test a pre v))
      else if value_char c then Some ([], PValue a pre (snoc v c))
      else None
  | PClose s => if bool_decide (c = "]"%char) then Some ([s], PNext) else None
  | PNext => st' ← open_test c; Some ([], st')
  end.

Fixpoint parse_from (st : PState) (acc : list Simple) (s : string) : option Selector :=
  match s with
  | EmptyString => done ← finish st; Some (acc ++ done)
  | String c s' =>
      match parse_step st c with
      | Some (done, st') => parse_from st' (acc ++ done) s'
      | None => None
      end
  end.

(** [parse_selector s] is the selector [s] denotes, [None] when [s] is not
    a selector of the fragment. *)
Definition parse_selector (s : string) : option Selector := parse_from PStart [] s.

(** ** Selectors of the fragment *)

Definition wf_simple (s : Simple) : bool :=
  match s with
  | SelTag t => is_name t
  | SelClass c => is_ident c
  | SelAttrEq a v | SelAttrPrefix a v => is_name a && is_value v
  end.

Definition is_test (s : Simple) : bool :=
  match s with SelTag _ => false | _ => true end.

(** A compound selector: a tag name or a test, then tests. *)
Definition wf_selector (sel : Selector) : bool :=
  match sel with
  | [] => false
  | s :: tests => wf_simple s && forallb (λ s, wf_simple s && is_test s) tests
  end.

(** The string is empty or starts a new test. *)
Definition opens (s : string) : bool :=
  match s with
  | EmptyString => true
  | String c _ => bool_decide (c = "."%char) || bool_decide (c = "["%char)
  end.

(** ** The template literals of the script *)

(** [`.${className}`] (line 35), and the selector it is meant to denote. *)
Definition classSelectorText (className : string) : string := "." +:+ className.
Definition classSelector (className : string) : Selector := [SelClass className].

(** [`[data-testid="${testId}"]`] (line 57), and the selector it is meant to
    denote. *)
Definition testIdSelectorText (testId : string) : string :=
  "[data-testid=" +:+ quoted testId +:+ "]".
Definition testIdSelector (testId : string) : Selector :=
  [SelAttrEq "data-testid" testId].

(** ** Strings *)

Lemma string_app_cons (a : ascii) (s t : string) :
  String a s +:+ t = String a (s +:+ t).
Proof. done. Qed.

Lemma string_app_nil_l (s : string) : EmptyString +:+ s = s.
Proof. done. Qed.

Lemma string_app_assoc (s t u : string) : (s +:+ t) +:+ u = s +:+ (t +:+ u).
Proof. induction s as [|a s IH]; [done|]. by rewrite !string_app_cons, IH. Qed.

Lemma string_app_nil_r (s : string) : s +:+ EmptyString = s.
Proof. induction s as [|a s IH]; [done|]. by rewrite string_app_cons, IH. Qed.

Lemma snoc_app (s : string) (c : ascii) (t : string) :
  snoc s c +:+ t = s +:+ String c t.
Proof. unfold snoc. by rewrite string_app_assoc. Qed.

(** ** The parser on the output of the printer *)

(** A state that reads a name consumes the characters of the name. *)
Lemma parse_from_chars (p : ascii → bool) (mk : string → PState) x a acc rest :
  (∀ a c, p c = true → parse_step (mk a) c = Some ([], mk (snoc a c))) →
  all_chars p x = true →
  parse_from (mk a) acc (x +:+ rest) = parse_from (mk (a +:+ x)) acc rest.
Proof.
  intros Hstep. revert a. induction x as [|c x IH]; intros a Hx.
  - by rewrite string_app_nil_r.
  - apply andb_true_iff in Hx as [Hc Hx]. rewrite string_app_cons.
    cbn [parse_from]. by rewrite Hstep, app_nil_r, IH, snoc_app.
Qed.

Lemma parse_from_tag x a acc rest :
  all_chars name_char x = true →
  parse_from (PTag a) acc (x +:+ rest) = parse_from (PTag (a +:+ x)) acc rest.
Proof. apply (parse_from_chars name_char PTag). intros ? c Hc. simpl. by rewrite Hc. Qed.

Lemma parse_from_class x a acc rest :
  all_chars ident_char x = true →
  parse_from (PClass a) acc (x +:+ rest) = parse_from (PClass (a +:+ x)) acc rest.
Proof. apply (parse_from_chars ident_char PClass). intros ? c Hc. simpl. by rewrite Hc. Qed.

Lemma parse_from_attr x a acc rest :
  all_chars name_char x = true →
  parse_from (PAttr a) acc (x +:+ rest) = parse_from (PAttr (a +:+ x)) acc rest.
Proof. apply (parse_from_chars name_char PAttr). intros ? c Hc. simpl. by rewrite Hc. Qed.

Lemma value_char_not_dquote c : value_char c = true → c ≠ dquote.
Proof. by intros Hc ->. Qed.

Lemma parse_from_value x a pre v acc rest :
  all_chars value_char x = true →
  parse_from (PValue a pre v) acc (x +:+ rest) =
    parse_from (PValue a pre (v +:+ x)) acc rest.
Proof.
  apply (parse_from_chars value_char (PValue a pre)). intros ? c Hc. simpl.
  by rewrite bool_decide_eq_false_2, Hc by by apply value_char_not_dquote.
Qed.

(** At the end of a name, where a new test opens or the string ends, the
    name is complete. *)
Lemma parse_from_opens (st : PState) done acc s :
  finish st = Some done →
  (∀ c, opens (String c EmptyString) = true →
        parse_step st c = st' ← open_test c; Some (done, st')) →
  opens s = true →
  parse_from st acc s = parse_from PNext (acc ++ done) s.
Proof.
  intros Hfin Hstep Hs. destruct s as [|c s]; simpl.
  - by rewrite Hfin, app_nil_r.
  - rewrite Hstep by done. destruct (open_test c) as [st'|]; simpl; [|done].
    by rewrite app_nil_r.
Qed.

Lemma opens_not_ident_char c :
  opens (String c EmptyString) = true → ident_char c = false.
Proof.
  simpl. intros [Hc|Hc]%orb_true_iff; apply bool_decide_eq_true in Hc; by subst.
Qed.

Lemma opens_not_name_char c :
  opens (String c EmptyString) = true → name_char c = false.
Proof. intros Hc. unfold name_char. by rewrite opens_not_ident_char. Qed.

Lemma parse_from_tag_end t acc s :
  opens s = true →
  parse_from (PTag t) acc s = parse_from PNext (acc ++ [SelTag t]) s.
Proof.
  apply parse_from_opens; [done|]. intros c Hc. simpl.
  by rewrite opens_not_name_char.
Qed.

Lemma parse_from_class_end c acc s :
  is_ident c = true →
  opens s = true →
  parse_from (PClass c) acc s = parse_from PNext (acc ++ [SelClass c]) s.
Proof.
  intros Hid. apply parse_from_opens; simpl; [by rewrite Hid|].
  intros c' Hc'. by rewrite opens_not_ident_char, Hid.
Qed.

(** One character. *)
Lemma parse_from_step st c acc s done st' :
  parse_step st c = Some (done, st') →
  parse_from st acc (String c s) = parse_from st' (acc ++ done) s.
Proof. intros Hstep. cbn [parse_from]. by rewrite Hstep. Qed.

(** A quoted value and the closing bracket. *)
Lemma parse_from_quoted a pre v acc rest :
  is_value v = true →
  parse_from (PQuote a pre) acc (quoted v +:+ String "]"%char rest) =
    parse_from PNext (acc ++ [attr_test a pre v]) rest.
Proof.
  intros Hv. unfold quoted. rewrite string_app_cons.
  rewrite (parse_from_step _ _ _ _ [] (PValue a pre EmptyString)) by done.
  rewrite string_app_assoc, parse_from_value, string_app_cons by done.
  rewrite (parse_from_step _ _ _ _ [] (PClose (attr_test a pre v))) by done.
  rewrite string_app_nil_l.
  rewrite (parse_from_step _ _ _ _ [attr_test a pre v] PNext) by done.
  by rewrite !app_nil_r.
Qed.

(** An attribute test, from its bracket to the next test. *)
Lemma parse_from_attr_test st a (pre : bool) v acc rest :
  parse_step st "["%char = Some ([], PAttr EmptyString) →
  is_name a = true →
  is_value v = true →
  parse_from st acc
    (String "["%char (a +:+ (if pre then "^=" else "=") +:+ quoted v +:+ String "]"%char rest)) =
  parse_from PNext (acc ++ [attr_test a pre v]) rest.
Proof.
  intros Hst Ha Hv. pose proof Ha as [_ Hchars]%andb_true_iff.
  rewrite (parse_from_step _ _ _ _ _ _ Hst), app_nil_r, parse_from_attr by done.
  rewrite string_app_nil_l.
  destruct pre; rewrite !string_app_cons, string_app_nil_l.
  - rewrite (parse_from_step _ _ _ _ [] (POp a)) by (simpl; by rewrite Ha).
    rewrite (parse_from_step _ _ _ _ [] (PQuote a true)) by done.
    by rewrite !app_nil_r, parse_from_quoted.
  - rewrite (parse_from_step _ _ _ _ [] (PQuote a false)) by (simpl; by rewrite Ha).
    by rewrite !app_nil_r, parse_from_quoted.
Qed.

(** A class test, from its dot to the next test. *)
Lemma parse_from_class_test st c acc rest :
  parse_step st "."%char = Some ([], PClass EmptyString) →
  is_ident c = true →
  opens rest = true →
  parse_from st acc (String "."%char (c +:+ rest)) =
    parse_from PNext (acc ++ [SelClass c]) rest.
Proof.
  intros Hst Hc Hrest. pose proof Hc as [_ Hchars]%andb_true_iff.
  rewrite (parse_from_step _ _ _ _ _ _ Hst), app_nil_r, parse_from_class by done.
  rewrite string_app_nil_l.
  by apply parse_from_class_end.
Qed.

Lemma print_simple_app s rest :
  print_simple s +:+ rest =
    match s with
    | SelTag t => t +:+ rest
    | SelClass c => String "."%char (c +:+ rest)
    | SelAttrEq a v =>
        String "["%char (a +:+ "=" +:+ quoted v +:+ String "]"%char rest)
    | SelAttrPrefix a v =>
        String "["%char (a +:+ "^=" +:+ quoted v +:+ String "]"%char rest)
    end.
Proof.
  destruct s as [t|c|a v|a v]; unfold print_simple; [done|..];
    by rewrite !string_app_assoc.
Qed.

(** One test, read where a test can start. *)
Lemma parse_from_test st s acc rest :
  (∀ c, opens (String c EmptyString) = true → parse_step st c = parse_step PNext c) →
  wf_simple s = true →
  is_test s = true →
  opens rest = true →
  parse_from st acc (print_simple s +:+ rest) = parse_from PNext (acc ++ [s]) rest.
Proof.
  intros Hst Hwf Htest Hrest. rewrite print_simple_app.
  destruct s as [t|c|a v|a v]; simpl in Hwf; [done|..].
  - apply parse_from_class_test; [by rewrite Hst|done..].
  - apply andb_true_iff in Hwf as [Ha Hv].
    apply (parse_from_attr_test st a false); [by rewrite Hst|done..].
  - apply andb_true_iff in Hwf as [Ha Hv].
    apply (parse_from_attr_test st a true); [by rewrite Hst|done..].
Qed.

Lemma opens_print_tests tests :
  forallb (λ s, wf_simple s && is_test s) tests = true →
  opens (print_selector tests) = true.
Proof.
  destruct tests as [|s tests]; [done|]. simpl.
  intros [[_ Hs]%andb_true_iff _]%andb_true_iff. by destruct s.
Qed.

(** A sequence of tests. *)
Lemma parse_from_tests tests acc :
  forallb (λ s, wf_simple s && is_test s) tests = true →
  parse_from PNext acc (print_selector tests) = Some (acc ++ tests).
Proof.
  revert acc. induction tests as [|s tests IH]; intros acc Hwf.
  - simpl. by rewrite app_nil_r.
  - pose proof Hwf as [[Hs Ht]%andb_true_iff Htests]%andb_true_iff.
    cbn [print_selector foldr]. fold (print_selector tests).
    rewrite parse_from_test by (try done; by apply opens_print_tests).
    by rewrite IH, <-app_assoc.
Qed.

(** Round trip: parsing inverts printing on the selectors of the fragment. *)
Theorem parse_print_selector (sel : Selector) :
  wf_selector sel = true → parse_selector (print_selector sel) = Some sel.
Proof.
  destruct sel as [|s tests]; [done|]. intros [Hs Htests]%andb_true_iff.
  pose proof (opens_print_tests _ Htests) as Hopens.
  unfold parse_selector. cbn [print_selector foldr]. fold (print_selector tests).
  destruct (is_test s) eqn:Htest.
  - rewrite parse_from_test; [by rewrite parse_from_tests| |done..].
    intros c [Hc|Hc]%orb_true_iff; apply bool_decide_eq_true in Hc; by subst.
  - destruct s as [t| | |]; try done. simpl in Hs.
    pose proof Hs as [Hstart Hchars]%andb_true_iff.
    destruct t as [|c t]; [done|]. simpl in Hstart, Hchars.
    apply andb_true_iff in Hchars as [_ Hchars]. simpl print_simple.
    rewrite string_app_cons.
    rewrite (parse_from_step _ _ _ _ [] (PTag (String c EmptyString)))
      by (simpl; by rewrite Hstart).
    rewrite app_nil_r, parse_from_tag by done.
    rewrite string_app_cons, string_app_nil_l, parse_from_tag_end by done.
    by rewrite parse_from_tests.
Qed.

(** ** What the template literals denote *)

(** With a class name that is an identifier, the literal of line 35 denotes
    the test for that class. *)
Lemma parse_classSelectorText className :
  is_ident className = true →
  parse_selector (classSelectorText className) = Some (classSelector className).
Proof.
  intros Hid. rewrite <-(parse_print_selector (classSelector className))
    by (simpl; by rewrite Hid).
  unfold classSelectorText. simpl. by rewrite string_app_nil_r.
Qed.

(** With a dot in the class name it denotes the test for two classes. *)
Lemma parse_classSelectorText_dotted c1 c2 :
  is_ident c1 = true →
  is_ident c2 = true →
  parse_selector (classSelectorText (c1 +:+ "." +:+ c2)) =
    Some [SelClass c1; SelClass c2].
Proof.
  intros H1 H2. trans (parse_selector (print_selector [SelClass c1; SelClass c2])).
  - f_equal. unfold classSelectorText. simpl.
    by rewrite string_app_nil_r, !string_app_assoc.
  - apply parse_print_selector. simpl. by rewrite H1, H2.
Qed.

(** What starts as an identifier does so whatever follows. *)
Lemma ident_head_app (x s : string) :
  ident_head x = true → ident_head (x +:+ s) = true.
Proof.
  destruct x as [|c [|c' x]]; simpl; [done| |done].
  by destruct (bool_decide (c = "-"%char)).
Qed.

(** A class name that does not start as an identifier, the empty one
    included, makes it no selector of the fragment. *)
Lemma parse_from_class_bad x acc s :
  ident_head (x +:+ s) = false →
  parse_from (PClass x) acc s = None.
Proof.
  revert x acc. induction s as [|c s IH]; intros x acc Hbad.
  - rewrite string_app_nil_r in Hbad. simpl. unfold is_ident. by rewrite Hbad.
  - cbn [parse_from]. simpl parse_step. destruct (ident_char c).
    + apply IH. by rewrite snoc_app.
    + unfold is_ident. destruct (ident_head x) eqn:Hx; [|done].
      by rewrite ident_head_app in Hbad.
Qed.

(** No identifier is empty or starts with a digit, nor is one a hyphen
    followed by nothing or by a digit. *)
Lemma ident_head_digit (rest : string) :
  rest = EmptyString ∨ starts_with_char is_digit rest = true →
  ident_head rest = false ∧ ident_head (String "-"%char rest) = false.
Proof.
  intros [->|Hdigit]; [done|]. destruct rest as [|c rest]; [done|].
  apply is_digit_not_ident_start in Hdigit as [Hc Hhyphen]. simpl.
  by rewrite Hc, bool_decide_eq_false_2.
Qed.

Lemma parse_classSelectorText_invalid className :
  ident_head className = false →
  parse_selector (classSelectorText className) = None.
Proof.
  intros Hstart. unfold parse_selector, classSelectorText.
  rewrite string_app_cons, string_app_nil_l.
  rewrite (parse_from_step _ _ _ _ [] (PClass EmptyString)) by done.
  by apply parse_from_class_bad.
Qed.

(** With a test id free of quotes and backslashes, the literal of line 57
    denotes the test for that value of [data-testid]. *)
Lemma parse_testIdSelectorText testId :
  is_value testId = true →
  parse_selector (testIdSelectorText testId) = Some (testIdSelector testId).
Proof.
  intros Hv. rewrite <-(parse_print_selector (testIdSelector testId))
    by (simpl; by rewrite Hv).
  unfold testIdSelectorText. simpl. by rewrite !string_app_assoc.
Qed.
