(* ===== verification/SelectorSound.v ===== *)
(** * SelectorSound: the parser accepts selectors only

    [SelectorText] shows that the parser reads back what the printer
    writes.  This file shows the converse: a string the parser accepts is
    the printed form of the selector it returns, and that selector is one of
    the fragment.  The parser therefore decides whether a string is a
    selector of the fragment, and the selector a template literal of the
    script denotes is determined by its text.

    The proof follows the state machine: every state knows the text of the
    test it is reading ([pending]) and what that text has been checked for
    ([st_ok]); one character keeps both in step with the input. *)

From Stdlib Require Import Ascii.
From S2P Require Import Prelude JsString Dom SelectorText.

(** ** What a state has read *)

(** The text of the test the state is in the middle of. *)
Definition pending (st : PState) : string :=
  match st with
  | PStart | PNext => EmptyString
  | PTag t => t
  | PClass c => "." +:+ c
  | PAttr a => "[" +:+ a
  | POp a => "[" +:+ a +:+ "^"
  | PQuote a pre => "[" +:+ a +:+ (if pre then "^=" else "=")
  | PValue a pre v => "[" +:+ a +:+ (if pre then "^=" else "=") +:+ String dquote v
  | PClose (SelAttrEq a v) => "[" +:+ a +:+ "=" +:+ quoted v
  | PClose (SelAttrPrefix a v) => "[" +:+ a +:+ "^=" +:+ quoted v
  | PClose _ => EmptyString
  end.

Definition is_attr_test (s : Simple) : bool :=
  match s with SelAttrEq _ _ | SelAttrPrefix _ _ => true | _ => false end.

(** The tests read so far: none, or a selector of the fragment. *)
Definition wf_acc (acc : list Simple) : bool :=
  match acc with [] => true | _ => wf_selector acc end.

(** What the state has checked of the text it has read. *)
Definition st_ok (st : PState) (acc : list Simple) : bool :=
  match st with
  | PStart => bool_decide (acc = [])
  | PTag t => bool_decide (acc = []) && is_name t
  | PClass c => all_chars ident_char c
  | PAttr a => all_chars name_char a
  | POp a | PQuote a _ => is_name a
  | PValue a _ v => is_name a && is_value v
  | PClose s => wf_simple s && is_attr_test s
  | PNext => negb (bool_decide (acc = []))
  end.

Definition inv (st : PState) (acc : list Simple) : Prop :=
  wf_acc acc = true ∧ st_ok st acc = true.

(** The input read so far. *)
Definition text (st : PState) (acc : list Simple) : string :=
  print_selector acc +:+ pending st.

(** ** Names and strings *)

Lemma all_chars_snoc p x c : all_chars p (snoc x c) = all_chars p x && p c.
Proof.
  unfold snoc. induction x as [|a x IH]; [simpl; by rewrite andb_true_r|].
  rewrite string_app_cons. simpl. by rewrite IH, andb_assoc.
Qed.

Lemma starts_with_char_snoc p x c :
  starts_with_char p (snoc x c) = if x is EmptyString then p c else starts_with_char p x.
Proof. by destruct x. Qed.

Lemma name_start_name_char c : name_start c = true → name_char c = true.
Proof. by destruct c as [[] [] [] [] [] [] [] []]. Qed.

Lemma is_name_single c : name_start c = true → is_name (String c EmptyString) = true.
Proof.
  intros Hc. unfold is_name. simpl. by rewrite Hc, name_start_name_char.
Qed.

Lemma is_name_snoc t c :
  is_name t = true → name_char c = true → is_name (snoc t c) = true.
Proof.
  unfold is_name. intros [Hs Hc]%andb_true_iff Hn.
  rewrite all_chars_snoc, starts_with_char_snoc, Hc, Hn.
  destruct t; simpl in *; [done|by rewrite Hs].
Qed.

Lemma print_selector_app acc tests :
  print_selector (acc ++ tests) = print_selector acc +:+ print_selector tests.
Proof.
  induction acc as [|s acc IH]; [done|]. cbn [app print_selector foldr].
  fold (print_selector (acc ++ tests)) (print_selector acc).
  by rewrite IH, string_app_assoc.
Qed.

Lemma print_selector_snoc acc s :
  print_selector (acc ++ [s]) = print_selector acc +:+ print_simple s.
Proof.
  rewrite print_selector_app. unfold print_selector at 2. simpl.
  by rewrite string_app_nil_r.
Qed.

Lemma wf_selector_snoc acc s :
  wf_acc acc = true →
  wf_simple s = true →
  acc = [] ∨ is_test s = true →
  wf_selector (acc ++ [s]) = true.
Proof.
  intros Hacc Hs Htest. destruct acc as [|s0 acc]; simpl in *.
  - by rewrite Hs.
  - apply andb_true_iff in Hacc as [-> Hacc]. destruct Htest as [?|Htest]; [done|].
    by rewrite forallb_app, Hacc; simpl; rewrite Hs, Htest.
Qed.

Lemma open_test_Some c st :
  open_test c = Some st →
  (c = "."%char ∧ st = PClass EmptyString) ∨ (c = "["%char ∧ st = PAttr EmptyString).
Proof.
  unfold open_test. repeat case_bool_decide; intros; simplify_eq; auto.
Qed.

Lemma wf_acc_snoc acc s :
  wf_acc acc = true →
  wf_simple s = true →
  acc = [] ∨ is_test s = true →
  wf_acc (acc ++ [s]) = true.
Proof.
  intros Hacc Hs Htest. pose proof (wf_selector_snoc _ _ Hacc Hs Htest).
  unfold wf_acc. by destruct (acc ++ [s]).
Qed.

Lemma is_value_snoc v c :
  is_value v = true → value_char c = true → is_value (snoc v c) = true.
Proof. unfold is_value. intros Hv Hc. by rewrite all_chars_snoc, Hv, Hc. Qed.

Lemma is_attr_test_is_test s : is_attr_test s = true → is_test s = true.
Proof. by destruct s. Qed.

Lemma wf_simple_attr_test a pre v :
  is_name a = true → is_value v = true → wf_simple (attr_test a pre v) = true.
Proof. intros Ha Hv. destruct pre; simpl; by rewrite Ha, Hv. Qed.

Lemma is_attr_test_attr_test a pre v : is_attr_test (attr_test a pre v) = true.
Proof. by destruct pre. Qed.

Lemma st_ok_PClose s acc :
  st_ok (PClose s) acc = true → wf_simple s = true ∧ is_attr_test s = true.
Proof. by intros ?%andb_true_iff. Qed.

Lemma st_ok_PNext_snoc acc s : st_ok PNext (acc ++ [s]) = true.
Proof. simpl. apply negb_true_iff, bool_decide_eq_false. by destruct acc. Qed.

(** ** One character *)

(** [str_norm] brings an equation between texts into normal form. *)
Ltac str_norm :=
  unfold text, snoc, quoted, attr_test; cbn [pending print_simple];
  rewrite ?print_selector_snoc, ?app_nil_r; cbn [pending print_simple];
  rewrite ?string_app_assoc, ?string_app_cons, ?string_app_nil_l, ?string_app_nil_r.

(** [parse_step_cases st Hstep] splits [Hstep : parse_step st c = Some _] into
    the transitions of the state machine. *)
Ltac parse_step_cases st Hstep :=
  destruct st as [|?t|?x|?a|?a|?a ?pre|?a ?pre ?v|?s|]; cbn [parse_step] in Hstep;
  repeat first [case_match | progress simplify_option_eq];
  repeat match goal with
    | H : open_test _ = Some _ |- _ => apply open_test_Some in H as [[-> ->]|[-> ->]]
    end.

(** [bool_hyps] opens the boolean hypotheses. *)
Ltac bool_hyps :=
  repeat match goal with
    | H : _ && _ = true |- _ => apply andb_true_iff in H as [? ?]
    | H : bool_decide _ = true |- _ => apply bool_decide_eq_true in H
    | H : negb _ = false |- _ => apply negb_false_iff in H
    end.

(** One character extends the text read by that character. *)
Lemma parse_step_text st c acc done st' :
  parse_step st c = Some (done, st') →
  st_ok st acc = true →
  text st' (acc ++ done) = text st acc +:+ String c EmptyString.
Proof.
  intros Hstep Hst. parse_step_cases st Hstep;
    try match goal with pre : bool |- _ => destruct pre end;
    try match goal with s : Simple |- _ =>
          apply st_ok_PClose in Hst as [_ ?]; destruct s; try done end;
    str_norm; done.
Qed.

(** It leaves the tests read so far a selector of the fragment. *)
Lemma parse_step_wf_acc st c acc done st' :
  parse_step st c = Some (done, st') →
  inv st acc →
  wf_acc (acc ++ done) = true.
Proof.
  intros Hstep [Hacc Hst]. parse_step_cases st Hstep; cbn [st_ok] in Hst; rewrite ?app_nil_r;
    try done; bool_hyps; apply wf_acc_snoc; auto using is_attr_test_is_test.
Qed.

(** And the state it leads to has checked what it has read. *)
Lemma parse_step_st_ok st c acc done st' :
  parse_step st c = Some (done, st') →
  inv st acc →
  st_ok st' (acc ++ done) = true.
Proof.
  intros Hstep [Hacc Hst]. parse_step_cases st Hstep; cbn [st_ok] in Hst; rewrite ?app_nil_r;
    bool_hyps; subst; try apply st_ok_PNext_snoc; cbn [st_ok];
    rewrite ?all_chars_snoc; try done;
    repeat match goal with |- _ && _ = true => apply andb_true_iff; split end;
    auto using is_name_single, is_name_snoc, is_value_snoc, wf_simple_attr_test,
      is_attr_test_attr_test.
Qed.

Lemma parse_step_inv st c acc done st' :
  parse_step st c = Some (done, st') → inv st acc → inv st' (acc ++ done).
Proof.
  intros Hstep Hinv. split; [by eapply parse_step_wf_acc|by eapply parse_step_st_ok].
Qed.

(** ** The end of the input *)

Lemma finish_sound st acc done :
  finish st = Some done →
  inv st acc →
  wf_selector (acc ++ done) = true ∧ print_selector (acc ++ done) = text st acc.
Proof.
  intros Hfin [Hacc Hst].
  destruct st as [|t|x|a|a|a pre|a pre v|s|]; cbn [finish st_ok] in Hfin, Hst;
    try case_match; simplify_eq; bool_hyps; subst.
  - split; [simpl; by rewrite andb_true_r|by str_norm].
  - split; [apply wf_selector_snoc; auto|by str_norm].
  - rewrite app_nil_r. apply negb_true_iff, bool_decide_eq_false in Hst.
    split; [by destruct acc|by str_norm].
Qed.

(** ** The parser *)

Lemma parse_from_sound s st acc sel :
  parse_from st acc s = Some sel →
  inv st acc →
  wf_selector sel = true ∧ print_selector sel = text st acc +:+ s.
Proof.
  revert st acc. induction s as [|c s IH]; intros st acc Hparse Hinv.
  - simpl in Hparse. destruct (finish st) as [tests|] eqn:Hfin; simplify_eq/=.
    rewrite string_app_nil_r. by apply finish_sound.
  - cbn [parse_from] in Hparse.
    destruct (parse_step st c) as [[tests st']|] eqn:Hstep; [|done].
    destruct (IH _ _ Hparse (parse_step_inv _ _ _ _ _ Hstep Hinv)) as [Hwf Hprint].
    split; [done|]. rewrite Hprint, (parse_step_text _ _ _ _ _ Hstep) by apply Hinv.
    by rewrite string_app_assoc.
Qed.

(** Soundness: a string the parser accepts is the printed form of the
    selector it returns, and the selector is one of the fragment. *)
Theorem parse_selector_sound s sel :
  parse_selector s = Some sel → wf_selector sel = true ∧ print_selector sel = s.
Proof. intros Hparse. by apply (parse_from_sound s PStart []). Qed.

(** The parser accepts exactly the printed forms of the selectors of the
    fragment. *)
Theorem parse_selector_spec s sel :
  parse_selector s = Some sel ↔ wf_selector sel = true ∧ print_selector sel = s.
Proof.
  split; [apply parse_selector_sound|]. intros [Hwf <-]. by apply parse_print_selector.
Qed.

Lemma parse_selector_None s :
  parse_selector s = None ↔ ∀ sel, wf_selector sel = true → print_selector sel ≠ s.
Proof.
  split.
  - intros Hnone sel Hwf Hprint.
    by rewrite (proj2 (parse_selector_spec s sel)) in Hnone.
  - intros Hall. destruct (parse_selector s) as [sel|] eqn:Hparse; [|done].
    apply parse_selector_sound in Hparse as [Hwf Hprint]. by destruct (Hall sel).
Qed.

(** The text of a selector of the fragment determines the selector. *)
Corollary print_selector_inj sel1 sel2 :
  wf_selector sel1 = true →
  wf_selector sel2 = true →
  print_selector sel1 = print_selector sel2 →
  sel1 = sel2.
Proof.
  intros H1%parse_print_selector H2%parse_print_selector Heq.
  rewrite Heq in H1. congruence.
Qed.

(** ** The class literal *)

(** The literal of line 35 denotes the test for the class it was given
    exactly when the class name is an identifier. *)
Lemma parse_classSelectorText_iff className :
  parse_selector (classSelectorText className) = Some (classSelector className) ↔
  is_ident className = true.
Proof.
  split; [|apply parse_classSelectorText].
  intros [Hwf _]%parse_selector_sound. simpl in Hwf. by rewrite andb_true_r in Hwf.
Qed.
