(* ===== verification/Console.v ===== *)
(** * Console: what the script prints

    The script reports on the console ([src/js/HideMieterPlus.js], lines 20,
    60, 85, 118-120, 133 and 155-157).  The other files work with a message
    as its template and the values of its holes ([Message]); this file gives
    the text of each message ([message_text], the template literal with its
    holes filled in, numbers in decimal) and shows that nothing is lost by
    working with templates: the text determines the template and the values
    of its holes. *)

From Stdlib Require Import Ascii.
From stdpp Require Import pretty.
From S2P Require Import Prelude JsString JsMonad SelectorText.

(** ** Entries *)

Inductive LogLevel := LevelLog | LevelWarn | LevelError.

(** The messages of the script, by their template and its holes. *)
Inductive Message :=
| MsgInitError (error : Exn)                 (* "Error initializing CardManager:", error *)
| MsgTestIdNotFound (testId : string)        (* `Tab with testId "${testId}" not found` *)
| MsgModeNotFound (mode : string)            (* `Tab with mode "${mode}" not found` *)
| MsgFound (content touchpoint : nat)        (* `Found ${..} content cards and ${..} touchpoint cards` *)
| MsgNoCards                                 (* "No cards found to filter" *)
| MsgHidden (hiddenCount total : nat).       (* `${..} cards hidden out of ${..} total cards` *)

Definition LogEntry : Type := LogLevel * Message.

#[export] Instance LogLevel_eq_dec : EqDecision LogLevel.
Proof. solve_decision. Defined.

#[export] Instance Message_eq_dec : EqDecision Message.
Proof. solve_decision. Defined.

(** ** Texts *)

(** [`${n}`] for an array length or a counter: the decimal numeral. *)
Definition number_text (n : nat) : string := pretty n.

(** The first argument of the console call.  [console.error] of line 20
    has the caught error as a second argument, which is not part of the
    text. *)
Definition message_text (m : Message) : string :=
  match m with
  | MsgInitError _ => "Error initializing CardManager:"
  | MsgTestIdNotFound testId => "Tab with testId " +:+ quoted testId +:+ " not found"
  | MsgModeNotFound mode => "Tab with mode " +:+ quoted mode +:+ " not found"
  | MsgFound content touchpoint =>
      "Found " +:+ number_text content +:+ " content cards and " +:+
      number_text touchpoint +:+ " touchpoint cards"
  | MsgNoCards => "No cards found to filter"
  | MsgHidden hiddenCount total =>
      number_text hiddenCount +:+ " cards hidden out of " +:+
      number_text total +:+ " total cards"
  end.

(** The method of [console] that prints at a level. *)
Definition level_method (l : LogLevel) : string :=
  match l with
  | LevelLog => "log"
  | LevelWarn => "warn"
  | LevelError => "error"
  end.

(** What the console shows for a list of entries: the method called and the
    text it was given. *)
Definition console_text (entries : list LogEntry) : list (string * string) :=
  (λ e : LogEntry, (level_method e.1, message_text e.2)) <$> entries.

(** ** Numerals *)

Definition is_numeral (s : string) : bool := all_chars is_digit s.

Lemma is_digit_pretty_N_char (x : N) : is_digit (pretty_N_char x) = true.
Proof. unfold pretty_N_char. by repeat case_match. Qed.

Lemma is_numeral_pretty_N_go (x : N) (s : string) :
  is_numeral s = true → is_numeral (pretty_N_go x s) = true.
Proof.
  revert s. induction (N.lt_wf_0 x) as [x _ IH]; intros s Hs.
  destruct (decide (x = 0)%N) as [->|Hx]; [by rewrite pretty_N_go_0|].
  rewrite pretty_N_go_step by lia. apply IH; [apply N.div_lt; lia|].
  unfold is_numeral. simpl. by rewrite is_digit_pretty_N_char.
Qed.

Lemma is_numeral_number_text n : is_numeral (number_text n) = true.
Proof.
  unfold number_text, pretty, pretty_nat, pretty, pretty_N.
  case_decide; [done|]. by apply is_numeral_pretty_N_go.
Qed.

Lemma pretty_N_go_nonempty (x : N) (s : string) :
  s ≠ EmptyString → pretty_N_go x s ≠ EmptyString.
Proof.
  revert s. induction (N.lt_wf_0 x) as [x _ IH]; intros s Hs.
  destruct (decide (x = 0)%N) as [->|Hx]; [by rewrite pretty_N_go_0|].
  rewrite pretty_N_go_step by lia. apply IH; [apply N.div_lt; lia|done].
Qed.

(** A numeral starts with a digit. *)
Lemma starts_with_digit_number_text n :
  starts_with_char is_digit (number_text n) = true.
Proof.
  pose proof (is_numeral_number_text n) as Hn.
  assert (Hne : number_text n ≠ EmptyString).
  { unfold number_text, pretty, pretty_nat, pretty, pretty_N.
    case_decide; [done|]. rewrite pretty_N_go_step by lia.
    by apply pretty_N_go_nonempty. }
  destruct (number_text n) as [|c s]; [done|].
  by apply andb_true_iff in Hn as [? _].
Qed.

(** A numeral ends where the first character that is no digit stands. *)
Lemma numeral_app_inj (s1 s2 t1 t2 : string) :
  is_numeral s1 = true →
  is_numeral s2 = true →
  starts_with_char is_digit t1 = false →
  starts_with_char is_digit t2 = false →
  s1 +:+ t1 = s2 +:+ t2 →
  s1 = s2 ∧ t1 = t2.
Proof.
  unfold is_numeral. revert s2.
  induction s1 as [|c1 s1 IH]; intros [|c2 s2] H1 H2 Ht1 Ht2 Heq;
    rewrite ?string_app_cons, ?string_app_nil_l in Heq; simplify_eq/=.
  - done.
  - apply andb_true_iff in H2 as [Hc _]. congruence.
  - apply andb_true_iff in H1 as [Hc _]. congruence.
  - apply andb_true_iff in H1 as [_ H1]. apply andb_true_iff in H2 as [_ H2].
    by destruct (IH s2 H1 H2 Ht1 Ht2) as [-> ->].
Qed.

Lemma number_text_app_inj n1 n2 (t1 t2 : string) :
  starts_with_char is_digit t1 = false →
  starts_with_char is_digit t2 = false →
  number_text n1 +:+ t1 = number_text n2 +:+ t2 →
  n1 = n2 ∧ t1 = t2.
Proof.
  intros Ht1 Ht2 Heq.
  destruct (numeral_app_inj _ _ _ _ (is_numeral_number_text n1)
              (is_numeral_number_text n2) Ht1 Ht2 Heq) as [Hn Ht].
  split; [|done]. by apply (inj pretty).
Qed.

(** ** Strings between a prefix and a suffix *)

Lemma string_app_inv_head (x s t : string) : x +:+ s = x +:+ t → s = t.
Proof.
  induction x as [|a x IH]; [done|]. rewrite !string_app_cons. intros [= ?]. auto.
Qed.

Lemma string_app_inv_tail (x s t : string) : s +:+ x = t +:+ x → s = t.
Proof.
  intros Heq. apply (f_equal (stripSuffix x)) in Heq.
  rewrite !stripSuffix_app in Heq. by simplify_eq.
Qed.

Lemma quoted_inj (s t u : string) : quoted s +:+ u = quoted t +:+ u → s = t.
Proof.
  unfold quoted. rewrite !string_app_cons, !string_app_assoc. intros [= Heq].
  by apply string_app_inv_tail in Heq.
Qed.

(** ** The text determines the message *)

(** The first letters of a text tell the templates apart. *)
Definition template (s : string) : nat :=
  match s with
  | String "E" _ => 0
  | String "T" (String "a" (String "b" (String " " (String "w" (String "i"
      (String "t" (String "h" (String " " (String "t" _))))))))) => 1
  | String "T" _ => 2
  | String "F" _ => 3
  | String "N" _ => 4
  | _ => 5
  end.

Definition message_template (m : Message) : nat :=
  match m with
  | MsgInitError _ => 0
  | MsgTestIdNotFound _ => 1
  | MsgModeNotFound _ => 2
  | MsgFound _ _ => 3
  | MsgNoCards => 4
  | MsgHidden _ _ => 5
  end.

Lemma template_numeral (s t : string) :
  starts_with_char is_digit s = true → template (s +:+ t) = 5.
Proof.
  destruct s as [|c s]; [done|]. rewrite string_app_cons. simpl.
  by destruct c as [[] [] [] [] [] [] [] []].
Qed.

Lemma template_message_text m : template (message_text m) = message_template m.
Proof.
  destruct m as [e|testId|mode|a b| |h t]; try done.
  apply template_numeral, starts_with_digit_number_text.
Qed.

(** The text of a message determines its template and the values of its
    holes: two messages with the same text are the same message, or both
    report an error of [init]. *)
Theorem message_text_inj m1 m2 :
  message_text m1 = message_text m2 →
  m1 = m2 ∨ message_template m1 = 0 ∧ message_template m2 = 0.
Proof.
  intros Heq. pose proof (f_equal template Heq) as Ht.
  rewrite !template_message_text in Ht.
  destruct m1 as [e1|x1|x1|a1 b1| |a1 b1], m2 as [e2|x2|x2|a2 b2| |a2 b2];
    try discriminate Ht; auto; left; clear Ht;
    unfold message_text in Heq; rewrite ?string_app_assoc in Heq.
  - apply string_app_inv_head, quoted_inj in Heq. by subst.
  - apply string_app_inv_head, quoted_inj in Heq. by subst.
  - apply string_app_inv_head, number_text_app_inj in Heq as [-> Heq]; [|done..].
    apply string_app_inv_head, number_text_app_inj in Heq as [-> _]; done.
  - apply number_text_app_inj in Heq as [-> Heq]; [|done..].
    apply string_app_inv_head, number_text_app_inj in Heq as [-> _]; done.
Qed.

(** What the console shows determines what the script printed: two
    sequences of entries that read the same on the console, method by method
    and text by text, are the same sequence of templates with the same
    values in their holes, as long as the first holds no error of [init]
    (whose text leaves out the error caught).  So nothing is lost by
    stating the other theorems on templates, and the counts the script
    prints can be read back from the text. *)
Theorem console_text_inj (l1 l2 : list LogEntry) :
  Forall (λ e : LogEntry, message_template e.2 ≠ 0) l1 →
  console_text l1 = console_text l2 →
  l1 = l2.
Proof.
  revert l2. induction l1 as [|[v1 m1] l1 IH]; intros [|[v2 m2] l2] Hok Heq;
    simplify_eq/=; [done|].
  apply Forall_cons in Hok as [Hm Hok]. f_equal; [|by apply IH].
  match goal with H : message_text _ = _ |- _ =>
    apply message_text_inj in H as [->|[? _]]; [|done] end.
  f_equal. by destruct v1, v2.
Qed.

(** ** Examples *)

Example message_text_hidden :
  message_text (MsgHidden 2 4) = "2 cards hidden out of 4 total cards".
Proof. reflexivity. Qed.

Example message_text_found :
  message_text (MsgFound 12 0) = "Found 12 content cards and 0 touchpoint cards".
Proof. reflexivity. Qed.
