(* ===== verification/DomTree.v ===== *)
(** * DomTree: a document as a tree of elements

    The implementation of the [Dom] interface the concrete scenarios run on.
    A document is its root [Element]; an element reference is the path of
    child indices from the root ([Ref]), so that two references are equal
    exactly when they denote the same element, as object identity does in
    the browser.  The script never changes the shape of the tree, so a path
    taken before a write still denotes the same element after it.

    The file proves the laws of the interface ([DomLaws]) and that
    observational equality of trees is equality ([tree_equiv_eq]). *)

From S2P Require Import Prelude JsString Dom.

(** ** Trees and paths *)

Inductive Element :=
| Node (props : Props) (children : list Element).

Abbreviation Ref := (list nat).

Definition el_props (e : Element) : Props :=
  match e with Node pr _ => pr end.

Definition el_children (e : Element) : list Element :=
  match e with Node _ cs => cs end.

(** The element a path leads to. *)
Fixpoint get (e : Element) (p : Ref) : option Element :=
  match p with
  | [] => Some e
  | i :: p' => el_children e !! i ≫= λ c, get c p'
  end.

(** The paths of all elements of a tree in document order (preorder). *)
Fixpoint refs (e : Element) : list Ref :=
  match e with
  | Node _ cs =>
      [] :: (fix forest (cs : list Element) (i : nat) : list Ref :=
               match cs with
               | [] => []
               | c :: cs' => ((i ::.) <$> refs c) ++ forest cs' (S i)
               end) cs 0
  end.

(** The same enumeration for a list of siblings, the first of which is
    child number [i]. *)
Fixpoint refs_forest (cs : list Element) (i : nat) : list Ref :=
  match cs with
  | [] => []
  | c :: cs' => ((i ::.) <$> refs c) ++ refs_forest cs' (S i)
  end.

(** Change the properties of the element at a path; a path to no element
    changes nothing. *)
Fixpoint update (f : Props → Props) (p : Ref) (e : Element) : Element :=
  match p, e with
  | [], Node pr cs => Node (f pr) cs
  | i :: p', Node pr cs => Node pr (alter (update f p') i cs)
  end.

(** All prefixes of a path, shortest first. *)
Fixpoint prefixes (p : Ref) : list Ref :=
  [] :: match p with
        | [] => []
        | i :: p' => (i ::.) <$> prefixes p'
        end.

Definition tree_props (d : Element) (r : Ref) : option Props :=
  el_props <$> get d r.

Definition tree_descendants (d : Element) (r : Ref) : list Ref :=
  match get d r with
  | Some e => (r ++.) <$> tail (refs e)
  | None => []
  end.

Definition tree_ancestors (d : Element) (r : Ref) : list Ref :=
  match get d r with
  | Some _ => reverse (prefixes r)
  | None => []
  end.

#[export] Instance tree_dom : Dom Element Ref := {
  dom_nodes := refs;
  dom_props := tree_props;
  dom_descendants := tree_descendants;
  dom_ancestors := tree_ancestors;
  dom_modify := update;
}.

(** ** Induction on trees *)

Lemma Element_ind' (P : Element → Prop) :
  (∀ pr cs, Forall P cs → P (Node pr cs)) → ∀ e, P e.
Proof.
  intros HNode. fix IH 1. intros [pr cs]. apply HNode.
  induction cs as [|c cs IHcs]; constructor; [apply IH|apply IHcs].
Qed.

(** ** Paths and enumeration *)

Section paths.
Implicit Types (e c : Element) (cs : list Element) (p q r : Ref) (i j : nat).

Lemma refs_unfold e : refs e = [] :: refs_forest (el_children e) 0.
Proof. by destruct e. Qed.

Lemma get_app e p q : get e (p ++ q) = get e p ≫= λ c, get c q.
Proof.
  revert e. induction p as [|i p IH]; intros e; simpl; [done|].
  destruct (el_children e !! i) as [c|]; simpl; [apply IH|done].
Qed.

Lemma elem_of_refs_forest cs i p :
  p ∈ refs_forest cs i ↔
  ∃ j c p', p = (i + j) :: p' ∧ cs !! j = Some c ∧ p' ∈ refs c.
Proof.
  revert i. induction cs as [|c cs IH]; intros i; simpl.
  - rewrite elem_of_nil. split; [done|]. by intros (j&?&?&_&?&_).
  - rewrite elem_of_app, list_elem_of_fmap, IH. split.
    + intros [(p'&->&Hp')|(j&c'&p'&->&Hj&Hp')].
      * exists 0, c, p'. by rewrite Nat.add_0_r.
      * exists (S j), c', p'. split_and!; [f_equal; lia|done..].
    + intros ([|j]&c'&p'&->&Hj&Hp'); simplify_eq/=.
      * left. exists p'. by rewrite Nat.add_0_r.
      * right. exists j, c', p'. split_and!; [f_equal; lia|done..].
Qed.

Lemma elem_of_refs e p :
  p ∈ refs e ↔
  p = [] ∨ ∃ j c p', p = j :: p' ∧ el_children e !! j = Some c ∧ p' ∈ refs c.
Proof. by rewrite refs_unfold, elem_of_cons, elem_of_refs_forest. Qed.

(** The enumeration lists exactly the paths that lead to an element. *)
Lemma elem_of_refs_get e p : p ∈ refs e ↔ is_Some (get e p).
Proof.
  revert e. induction p as [|i p IH]; intros e; rewrite elem_of_refs; simpl.
  - split; [by eauto|by left].
  - split.
    + intros [?|(j&c&p'&?&Hj&Hp')]; simplify_eq. rewrite Hj. simpl. by apply IH.
    + intros [c' Hc']. right. destruct (el_children e !! i) as [c|] eqn:Hi; [|done].
      exists i, c, p. split_and!; [done..|]. apply IH. by exists c'.
Qed.

Lemma refs_forest_head_ge cs i p :
  p ∈ refs_forest cs i → ∃ j p', p = j :: p' ∧ i ≤ j.
Proof. intros (j&c&p'&->&_)%elem_of_refs_forest. eexists _, _. split; [done|lia]. Qed.

Lemma NoDup_refs e : NoDup (refs e).
Proof.
  induction e as [pr cs IH] using Element_ind'. rewrite refs_unfold. simpl.
  apply NoDup_cons. split.
  { by intros (?&?&?&?)%refs_forest_head_ge. }
  generalize 0. induction IH as [|c cs Hc _ IHcs]; intros i; simpl.
  { constructor. }
  apply NoDup_app. split_and!.
  - apply (NoDup_fmap_2 _), Hc.
  - intros p (p'&->&_)%list_elem_of_fmap (j&p''&?&?)%refs_forest_head_ge.
    simplify_eq. lia.
  - apply IHcs.
Qed.

Lemma last_prefixes p : last (prefixes p) = Some p.
Proof.
  induction p as [|i p IH]; [done|]. cbn [prefixes].
  rewrite last_cons, fmap_last, IH. done.
Qed.

Lemma elem_of_prefixes p q : q ∈ prefixes p ↔ ∃ q', p = q ++ q'.
Proof.
  revert q. induction p as [|i p IH]; intros q; cbn [prefixes].
  - rewrite list_elem_of_singleton. split; [intros ->; by exists []|].
    intros [q' Hq]. symmetry in Hq. by apply app_eq_nil in Hq as [-> _].
  - rewrite elem_of_cons, list_elem_of_fmap. setoid_rewrite IH. split.
    + intros [->|(q0&->&q'&->)]; [by eexists|]. by exists q'.
    + intros [q' Hq]. destruct q as [|j q]; [by left|]. right.
      simplify_eq/=. eauto.
Qed.

End paths.

(** ** Writes *)

Section writes.
Implicit Types (e c : Element) (cs : list Element) (p q r : Ref) (i j : nat)
  (f : Props → Props).

Lemma el_children_update_nil f e : el_children (update f [] e) = el_children e.
Proof. by destruct e. Qed.

Lemma el_children_update_cons f i p e :
  el_children (update f (i :: p) e) = alter (update f p) i (el_children e).
Proof. by destruct e. Qed.

Lemma el_props_update f p e :
  el_props (update f p e) = if decide (p = []) then f (el_props e) else el_props e.
Proof. by destruct p, e. Qed.

(** A write keeps the shape of the tree: the same paths lead to elements. *)
Lemma refs_forest_alter (g : Element → Element) cs i j :
  (∀ c, refs (g c) = refs c) → refs_forest (alter g j cs) i = refs_forest cs i.
Proof.
  intros Hg. revert i j. induction cs as [|c cs IH]; intros i [|j]; simpl; [done..| |].
  - by rewrite Hg.
  - f_equal. apply IH.
Qed.

Lemma refs_update f p e : refs (update f p e) = refs e.
Proof.
  revert e. induction p as [|i p IH]; intros e; rewrite !refs_unfold.
  - by rewrite el_children_update_nil.
  - by rewrite el_children_update_cons, refs_forest_alter.
Qed.

(** The element at [q] after a write at [p]: its properties change when
    [q = p], and its subtree is written to when [q] is a prefix of [p]. *)
Lemma get_update f p e q :
  get (update f p e) q =
    match get e q with
    | Some c =>
        Some (if decide (length q ≤ length p ∧ take (length q) p = q)
              then update f (drop (length q) p) c else c)
    | None => None
    end.
Proof.
  revert p e. induction q as [|j q IH]; intros p e.
  { cbn [get length take drop]. by rewrite decide_True by (split; [lia|done]). }
  destruct p as [|i p].
  { cbn [get length]. rewrite el_children_update_nil.
    destruct (el_children e !! j) as [c|]; simpl; [|done]. by destruct (get c q). }
  cbn [get length take drop]. rewrite el_children_update_cons.
  destruct (decide (i = j)) as [->|Hij].
  - rewrite list_lookup_alter_eq. destruct (el_children e !! j) as [c|]; simpl; [|done].
    rewrite IH. destruct (get c q); [|done]. f_equal. apply decide_ext.
    split; [intros [? ->]; split; [lia|done]|intros [? [= ?]]; split; [lia|done]].
  - rewrite list_lookup_alter_ne by done.
    destruct (el_children e !! j) as [c|]; simpl; [|done].
    destruct (get c q); [|done]. by rewrite decide_False by (by intros [_ [= ?]]).
Qed.

Lemma is_Some_get_update f p e q : is_Some (get (update f p e) q) ↔ is_Some (get e q).
Proof. rewrite get_update. destruct (get e q); [by split; eauto|done]. Qed.

Lemma tree_props_update f p e q :
  tree_props (update f p e) q =
    if decide (q = p) then f <$> tree_props e q else tree_props e q.
Proof.
  unfold tree_props. rewrite get_update.
  destruct (get e q) as [c|]; cbn [fmap option_fmap option_map].
  2:{ by case_decide. }
  destruct (decide (q = p)) as [->|Hqp].
  - rewrite decide_True by (split; [lia|apply firstn_all]). rewrite drop_all.
    by rewrite el_props_update, decide_True.
  - case_decide as Hpre; [|done]. rewrite el_props_update, decide_False; [done|].
    intros Hdrop. destruct Hpre as [Hlen Htake]. apply Hqp.
    rewrite <-Htake at 1. rewrite <-(take_drop (length q) p) at 2.
    by rewrite Hdrop, app_nil_r.
Qed.

Lemma refs_get_update f p e q c c' :
  get e q = Some c → get (update f p e) q = Some c' → refs c' = refs c.
Proof.
  intros Hc. rewrite get_update, Hc. intros [= <-].
  case_decide; [apply refs_update|done].
Qed.

End writes.

(** ** The laws of the interface *)

Section laws.
Implicit Types (d e : Element) (p q r : Ref) (f : Props → Props).

Lemma tree_props_nodes d r : is_Some (tree_props d r) ↔ r ∈ refs d.
Proof. unfold tree_props. by rewrite fmap_is_Some, elem_of_refs_get. Qed.

Lemma tree_descendants_nodes d r q : q ∈ tree_descendants d r → q ∈ refs d.
Proof.
  unfold tree_descendants. destruct (get d r) as [e|] eqn:He; [|by intros ?%elem_of_nil].
  intros (q'&->&Hq')%list_elem_of_fmap. apply elem_of_refs_get.
  rewrite get_app, He. simpl. apply elem_of_refs_get.
  rewrite refs_unfold in Hq' |- *. by right.
Qed.

Lemma tree_ancestors_nodes d r q : q ∈ tree_ancestors d r → q ∈ refs d.
Proof.
  unfold tree_ancestors. destruct (get d r) as [e|] eqn:He; [|by intros ?%elem_of_nil].
  rewrite elem_of_reverse, elem_of_prefixes. intros [q' ->].
  apply elem_of_refs_get. rewrite get_app in He.
  destruct (get d q); [by eauto|done].
Qed.

Lemma tree_ancestors_self d r : r ∈ refs d → head (tree_ancestors d r) = Some r.
Proof.
  intros [e He]%elem_of_refs_get. unfold tree_ancestors. rewrite He.
  by rewrite head_reverse, last_prefixes.
Qed.

Lemma prefixes_app p q : prefixes p `prefix_of` prefixes (p ++ q).
Proof.
  induction p as [|i p IH]; cbn [prefixes app].
  - destruct q; by apply prefix_cons, prefix_nil.
  - apply prefix_cons. destruct IH as [k ->]. rewrite fmap_app. by eexists.
Qed.

Lemma tree_ancestors_suffix d r q :
  q ∈ tree_ancestors d r → tree_ancestors d q `suffix_of` tree_ancestors d r.
Proof.
  intros Hq. pose proof (tree_ancestors_nodes d r q Hq) as [e He]%elem_of_refs_get.
  revert Hq. unfold tree_ancestors. rewrite He.
  destruct (get d r); [|by intros ?%elem_of_nil].
  rewrite elem_of_reverse, elem_of_prefixes. intros [q' ->].
  apply prefix_suffix_reverse, prefixes_app.
Qed.

Lemma tree_descendants_ancestors d r q :
  q ∈ tree_descendants d r ↔ q ≠ r ∧ r ∈ tree_ancestors d q.
Proof.
  split.
  - intros Hq. pose proof (tree_descendants_nodes d r q Hq) as [c Hc]%elem_of_refs_get.
    revert Hq. unfold tree_descendants, tree_ancestors. rewrite Hc.
    destruct (get d r) as [e|]; [|by intros ?%elem_of_nil].
    rewrite refs_unfold. simpl.
    intros (q'&->&(j&p'&->&_)%refs_forest_head_ge)%list_elem_of_fmap. split.
    + intros Heq%(f_equal length). rewrite length_app in Heq. simpl in Heq. lia.
    + apply elem_of_reverse, elem_of_prefixes. by eexists.
  - unfold tree_descendants, tree_ancestors. intros [Hqr Hr].
    destruct (get d q) as [c|] eqn:Hc; [|by apply elem_of_nil in Hr].
    apply elem_of_reverse, elem_of_prefixes in Hr as [q' ->].
    rewrite get_app in Hc. destruct (get d r) as [e|]; [|done]. simpl in Hc.
    apply list_elem_of_fmap. exists q'. split; [done|].
    assert (Hq' : q' ∈ refs e) by (apply elem_of_refs_get; eauto).
    rewrite refs_unfold in Hq' |- *. apply elem_of_cons in Hq' as [->|Hq']; [|done].
    by rewrite app_nil_r in Hqr.
Qed.

Lemma tree_descendants_update f r d q :
  tree_descendants (update f r d) q = tree_descendants d q.
Proof.
  unfold tree_descendants. destruct (get d q) as [c|] eqn:Hc.
  - destruct (get (update f r d) q) as [c'|] eqn:Hc'.
    + by rewrite (refs_get_update _ _ _ _ _ _ Hc Hc').
    + apply eq_None_not_Some in Hc'. destruct Hc'. apply is_Some_get_update. eauto.
  - rewrite get_update, Hc. done.
Qed.

Lemma tree_ancestors_update f r d q :
  tree_ancestors (update f r d) q = tree_ancestors d q.
Proof. unfold tree_ancestors. rewrite get_update. by destruct (get d q). Qed.

#[export] Instance tree_dom_laws : DomLaws Element Ref.
Proof.
  split.
  - apply NoDup_refs.
  - apply tree_props_nodes.
  - apply tree_descendants_nodes.
  - apply tree_ancestors_nodes.
  - apply tree_ancestors_self.
  - apply tree_ancestors_suffix.
  - apply tree_descendants_ancestors.
  - intros. apply refs_update.
  - intros. apply tree_descendants_update.
  - intros. apply tree_ancestors_update.
  - intros. apply tree_props_update.
Qed.

(** A tree is determined by the properties found along its paths. *)
Lemma tree_ext d e : (∀ r, tree_props d r = tree_props e r) → d = e.
Proof.
  revert e. induction d as [pr cs IH] using Element_ind'. intros [pr' cs'] Hext.
  pose proof (Hext []) as Hroot. injection Hroot as ->. f_equal.
  apply list_eq. intros i. pose proof (Hext [i]) as Hi. unfold tree_props in Hi.
  simpl in Hi. destruct (cs !! i) as [c|] eqn:Hc, (cs' !! i) as [c'|] eqn:Hc';
    simpl in Hi; try done.
  f_equal. eapply (Forall_lookup_1 _ _ _ _ IH Hc). intros r.
  specialize (Hext (i :: r)). unfold tree_props in *. simpl in Hext.
  by rewrite Hc, Hc' in Hext.
Qed.

(** Observationally equal trees are equal. *)
Lemma tree_equiv_eq (d e : Element) : d ≡ e ↔ d = e.
Proof. split; [intros (_&Hp&_); by apply tree_ext|by intros ->]. Qed.

End laws.
