(* ===== verification/CardManager.v ===== *)
(** * CardManager: the class of the script

    One definition per method of [class CardManager]
    ([src/js/HideMieterPlus.js], lines 4-175), written in the [Js] monad over
    a [World]: the document, the fields of the one [CardManager] instance
    ([this.tabsCache]) and the console (the entries of [Console]).  The code
    is generic in the document ([Dom]); nothing here depends on how a
    document is represented.

    The second half gives, for every method, its run equation: the value it
    returns and the world it leaves, as pure functions of the world before.
    No method throws, [hasChildWithClass] apart when it is passed a class
    name that makes no selector or a parent that is truthy and no element. *)

From S2P Require Import Prelude JsString JsMonad Dom SelectorText Console.

(** ** Constants of the script *)

(** The exception of calling [parentElement.querySelector] (line 35) on a
    value that has no such method: a number, a boolean, a string. *)
Definition notAFunctionError : Exn :=
  TypeError "parentElement.querySelector is not a function".

(** The test ids of the three view-mode tabs (lines 49-53). *)
Definition testIds : list string :=
  ["mapToggleListMode"; "mapToggleHybridViewMode"; "mapToggleClassicMapMode"].

(** [testId.replace(/^mapToggle/, "").replace(/Mode$/, "")] (line 66). *)
Definition modeOfTestId (testId : string) : string :=
  replaceEnd "Mode" (replaceStart "mapToggle" testId).

(** C40. The mode name is what stands between the prefix [mapToggle] and
    the suffix [Mode] of a test id, whatever it is. *)
Theorem modeOfTestId_roundtrip (m : string) :
  modeOfTestId ("mapToggle" +:+ m +:+ "Mode") = m.
Proof. unfold modeOfTestId. by rewrite replaceStart_app, replaceEnd_app. Qed.

(** A test id that neither starts with [mapToggle] nor ends with
    [Mode] is its own mode name: a replacement that does not match leaves
    the string as it is. *)
Theorem modeOfTestId_no_match (testId : string) :
  startsWith testId "mapToggle" = false →
  (∀ x, testId ≠ x +:+ "Mode") →
  modeOfTestId testId = testId.
Proof.
  intros Hpre Hsuf. unfold modeOfTestId.
  by rewrite replaceStart_no_match, replaceEnd_no_match.
Qed.

Lemma modeOfTestId_no_match_List : modeOfTestId "List" = "List".
Proof.
  apply modeOfTestId_no_match; [reflexivity|].
  apply stripSuffix_None. reflexivity.
Defined.

Section CardManager.
Context `{Dom D R}.
Local Open Scope js_scope.

(** ** State *)

(** A tab object as [getAllMapToggleTabs] builds it (lines 64-68). *)
Record Tab := mkTab {
  element : R;
  mode : string;
  isSelected : bool;
}.

(** The fields of a [CardManager] instance: [tabsCache] is [null] or the
    array of tab objects (line 7). *)
Record CardManager := mkCardManager {
  tabsCache : option (list Tab);
}.

(** What a method can read and write. *)
Record World := mkWorld {
  document : D;
  this : CardManager;
  console : list LogEntry;
}.

Definition set_document (d : D) (w : World) : World :=
  mkWorld d (this w) (console w).
Definition set_tabsCache (c : option (list Tab)) (w : World) : World :=
  mkWorld (document w) (mkCardManager c) (console w).
Definition add_log (e : LogEntry) (w : World) : World :=
  mkWorld (document w) (this w) (console w ++ [e]).

Definition console_log (m : Message) : Js World unit := modify (add_log (LevelLog, m)).
Definition console_warn (m : Message) : Js World unit := modify (add_log (LevelWarn, m)).
Definition console_error (m : Message) : Js World unit := modify (add_log (LevelError, m)).

(** A write to the page. *)
Definition dom_write (f : D → D) : Js World unit :=
  modify (λ w, set_document (f (document w)) w).

(** ** Methods *)

(** [hasChildWithClass(parentElement, className)] (lines 30-37).  The guard
    of line 31 lets through a class name that is a string and a parent that
    is truthy.  Such a parent is an element, on which the query of line 35
    runs with the string [`.${className}`] as its selector, or a primitive
    value, on which [querySelector] is no method. *)
Definition hasChildWithClass (parentElement className : JsValue R) : Js World bool :=
  match className with
  | JsString name =>
      if truthy parentElement then
        match parentElement with
        | JsElement parent =>
            match parse_selector (classSelectorText name) with
            | Some selector =>
                childWithClass ←
                  gets (λ w, elem_querySelector (document w) parent selector);
                mret (bool_decide (childWithClass ≠ None))
            | None => throw (SelectorError (classSelectorText name))
            end
        | _ => throw notAFunctionError
        end
      else mret false
  | _ => mret false
  end.

(** The callback of [testIds.map] (lines 56-69): one tab object, or [null]
    with a warning. *)
Definition scanTab (testId : string) : Js World (option Tab) :=
  match parse_selector (testIdSelectorText testId) with
  | Some selector =>
      tab ← gets (λ w, querySelector (document w) selector);
      match tab with
      | None => console_warn (MsgTestIdNotFound testId);; mret None
      | Some tab =>
          selected ← gets (λ w, getAttribute (document w) tab "aria-selected");
          mret (Some (mkTab tab (modeOfTestId testId)
                        (bool_decide (selected = Some "true"))))
      end
  | None => throw (SelectorError (testIdSelectorText testId))
  end.

(** [getAllMapToggleTabs()] (lines 43-73).  An array is truthy, the empty
    one too: a cached scan that found no tab is returned as it is. *)
Definition getAllMapToggleTabs : Js World (list Tab) :=
  cache ← gets (λ w, tabsCache (this w));
  match cache with
  | Some tabs => mret tabs
  | None =>
      scanned ← mapM scanTab testIds;
      let tabs := omap id scanned in
      modify (set_tabsCache (Some tabs));;
      mret tabs
  end.

(** [findTabByMode(mode)] (lines 80-89). *)
Definition findTabByMode (m : string) : Js World (option Tab) :=
  allTabs ← getAllMapToggleTabs;
  let foundTab := snd <$> list_find (λ tab, mode tab = m) allTabs in
  (if foundTab is None then console_warn (MsgModeNotFound m) else mret ());;
  mret foundTab.

(** [getCards()] (lines 96-123). *)
Definition getCards : Js World (list R) :=
  listModeTab ← findTabByMode "List";
  let isListModeActive := from_option isSelected false listModeTab in
  contentCards ← gets (λ w, getElementsByClassName (document w)
                     (if isListModeActive then "result-list__listing" else "listing-card"));
  touchpointCards ← gets (λ w, getElementsByClassName (document w) "touchpoint-card");
  let allCards := contentCards ++ touchpointCards in
  console_log (MsgFound (length contentCards) (length touchpointCards));;
  mret allCards.

(** The body of the loop of [hideCards] (lines 141-152); [hiddenCount] is
    the loop's local counter. *)
Definition hideCard (hiddenCount : nat) (card : R) : Js World nat :=
  hasPaywallClass ←
    hasChildWithClass (JsElement card) (JsString "paywall-label") |||
    hasChildWithClass (JsElement card) (JsString "plusBooking");
  hasSponsoredClass ← gets (λ w, classList_contains (document w) card "touchpoint-card");
  if hasPaywallClass || hasSponsoredClass then
    dom_write (style_set_display "none" card);;
    dom_write (classList_add "hidden-card" card);;
    mret (S hiddenCount)
  else mret hiddenCount.

(** [hideCards()] (lines 129-158). *)
Definition hideCards : Js World unit :=
  cards ← getCards;
  if bool_decide (length cards = 0) then console_log MsgNoCards
  else
    hiddenCount ← foldM hideCard 0 cards;
    console_log (MsgHidden hiddenCount (length cards)).

(** [refreshTabsCache()] (lines 163-165). *)
Definition refreshTabsCache : Js World unit :=
  modify (set_tabsCache None).

(** [reapplyFilters()] (lines 171-174). *)
Definition reapplyFilters : Js World unit :=
  refreshTabsCache;; hideCards.

(** [init()] (lines 16-22). *)
Definition init : Js World unit :=
  hideCards catch (λ error, console_error (MsgInitError error)).

(** [new CardManager()] (lines 5-11). *)
Definition constructor : Js World unit :=
  modify (set_tabsCache None);; init.

(** ** What each method computes

    The pure counterpart of every method: its result and its effect on the
    world, as functions of the world it starts from. *)

Definition add_logs (l : list LogEntry) (w : World) : World :=
  mkWorld (document w) (this w) (console w ++ l).

(** The tab object [scanTab] returns, and the warning it prints. *)
Definition scan_tab (d : D) (testId : string) : option Tab :=
  tab ← querySelector d (testIdSelector testId);
  Some (mkTab tab (modeOfTestId testId)
          (bool_decide (getAttribute d tab "aria-selected" = Some "true"))).

Definition scan_warning (d : D) (testId : string) : list LogEntry :=
  if querySelector d (testIdSelector testId) is None
  then [(LevelWarn, MsgTestIdNotFound testId)] else [].

(** A complete scan of the three tab markers. *)
Definition scan_tabs (d : D) : list Tab := omap (scan_tab d) testIds.

(** The tabs [getAllMapToggleTabs] returns, and the world it leaves. *)
Definition tabs_of (w : World) : list Tab :=
  default (scan_tabs (document w)) (tabsCache (this w)).

Definition after_tabs (w : World) : World :=
  match tabsCache (this w) with
  | Some _ => w
  | None => set_tabsCache (Some (scan_tabs (document w)))
              (add_logs (testIds ≫= scan_warning (document w)) w)
  end.

(** [allTabs.find(tab => tab.mode === mode)]. *)
Definition find_tab (m : string) (tabs : list Tab) : option Tab :=
  snd <$> list_find (λ tab, mode tab = m) tabs.

Definition find_warning (m : string) (tabs : list Tab) : list LogEntry :=
  if find_tab m tabs is None then [(LevelWarn, MsgModeNotFound m)] else [].

(** [isListModeActive] of [getCards] (lines 97-98). *)
Definition listModeActive (w : World) : bool :=
  from_option isSelected false (find_tab "List" (tabs_of w)).

(** The container class [getCards] reads (lines 101-105). *)
Definition contentClass (isListModeActive : bool) : string :=
  if isListModeActive then "result-list__listing" else "listing-card".

Definition contentCards (w : World) : list R :=
  getElementsByClassName (document w) (contentClass (listModeActive w)).

Definition touchpointCards (d : D) : list R :=
  getElementsByClassName d "touchpoint-card".

(** The array [getCards] returns. *)
Definition cards_of (w : World) : list R :=
  contentCards w ++ touchpointCards (document w).

(** The world [getCards] leaves: the tabs are cached and the counts logged. *)
Definition after_getCards (w : World) : World :=
  add_logs (find_warning "List" (tabs_of w) ++
            [(LevelLog, MsgFound (length (contentCards w))
                          (length (touchpointCards (document w))))])
    (after_tabs w).

(** The test of the loop body (lines 141-147). *)
Definition has_paywall (d : D) (card : R) : bool :=
  bool_decide (elem_querySelector d card (classSelector "paywall-label") ≠ None) ||
  bool_decide (elem_querySelector d card (classSelector "plusBooking") ≠ None).

Definition flagged (d : D) (card : R) : bool :=
  has_paywall d card || classList_contains d card "touchpoint-card".

(** The two writes of the loop body (lines 148-151). *)
Definition hide (card : R) (d : D) : D :=
  classList_add "hidden-card" card (style_set_display "none" card d).

(** One iteration of the loop on the pair of its counter and the page. *)
Definition hide_step (acc : nat * D) (card : R) : nat * D :=
  if flagged acc.2 card then (S acc.1, hide card acc.2) else acc.

(** The world [hideCards] leaves. *)
Definition after_hideCards (w : World) : World :=
  if bool_decide (length (cards_of w) = 0)
  then add_logs [(LevelLog, MsgNoCards)] (after_getCards w)
  else
    let r := foldl hide_step (0, document w) (cards_of w) in
    add_logs [(LevelLog, MsgHidden r.1 (length (cards_of w)))]
      (set_document r.2 (after_getCards w)).

(** ** Algebra of worlds *)

Lemma add_logs_nil w : add_logs [] w = w.
Proof. destruct w. unfold add_logs. simpl. by rewrite app_nil_r. Qed.

Lemma add_logs_app l k w : add_logs k (add_logs l w) = add_logs (l ++ k) w.
Proof. unfold add_logs. simpl. by rewrite app_assoc. Qed.

Lemma add_log_add_logs e w : add_log e w = add_logs [e] w.
Proof. done. Qed.

Lemma document_add_logs l w : document (add_logs l w) = document w.
Proof. done. Qed.

Lemma this_add_logs l w : this (add_logs l w) = this w.
Proof. done. Qed.

Lemma document_set_document d w : document (set_document d w) = d.
Proof. done. Qed.

Lemma this_set_document d w : this (set_document d w) = this w.
Proof. done. Qed.

Lemma set_document_id w : set_document (document w) w = w.
Proof. by destruct w. Qed.

Lemma document_after_tabs w : document (after_tabs w) = document w.
Proof. unfold after_tabs. by destruct (tabsCache (this w)). Qed.

Lemma document_after_getCards w : document (after_getCards w) = document w.
Proof. apply document_after_tabs. Qed.

Lemma tabsCache_after_tabs w : tabsCache (this (after_tabs w)) = Some (tabs_of w).
Proof.
  unfold after_tabs, tabs_of. by destruct (tabsCache (this w)) as [tabs|] eqn:Hc.
Qed.

(** ** Run equations *)

Lemma hasChildWithClass_parsed parent name selector w :
  parse_selector (classSelectorText name) = Some selector →
  hasChildWithClass (JsElement parent) (JsString name) w =
    (Normal (bool_decide (elem_querySelector (document w) parent selector ≠ None)), w).
Proof. intros Hsel. unfold hasChildWithClass. by rewrite Hsel. Qed.

Lemma hasChildWithClass_run parent name w :
  is_ident name = true →
  hasChildWithClass (JsElement parent) (JsString name) w =
    (Normal (bool_decide (elem_querySelector (document w) parent (classSelector name) ≠ None)), w).
Proof. intros Hid. by apply hasChildWithClass_parsed, parse_classSelectorText. Qed.

Lemma hasChildWithClass_throws parent name w :
  parse_selector (classSelectorText name) = None →
  hasChildWithClass (JsElement parent) (JsString name) w =
    (Throw (SelectorError (classSelectorText name)), w).
Proof. intros Hsel. unfold hasChildWithClass. by rewrite Hsel. Qed.

Lemma hasChildWithClass_state parentElement className w :
  exec (hasChildWithClass parentElement className) w = w.
Proof.
  unfold exec, hasChildWithClass. destruct className; try done.
  destruct (truthy parentElement); [|done]. destruct parentElement; try done.
  by destruct (parse_selector _).
Qed.

(** The guard of line 31. *)
Lemma hasChildWithClass_guard parentElement className w :
  truthy parentElement = false ∨ typeof className ≠ "string" →
  hasChildWithClass parentElement className w = (Normal false, w).
Proof.
  unfold hasChildWithClass. intros [Hp|Hty]; destruct className; try done.
  by rewrite Hp.
Qed.

(** Past the guard, on a parent that is no element. *)
Lemma hasChildWithClass_no_method parentElement name w :
  truthy parentElement = true →
  (∀ parent, parentElement ≠ JsElement parent) →
  hasChildWithClass parentElement (JsString name) w = (Throw notAFunctionError, w).
Proof.
  unfold hasChildWithClass. intros -> Hp. destruct parentElement; try done.
  by destruct (Hp o).
Qed.

Lemma scanTab_run testId w :
  is_value testId = true →
  scanTab testId w =
    (Normal (scan_tab (document w) testId),
     add_logs (scan_warning (document w) testId) w).
Proof.
  intros Hv. unfold scanTab, scan_tab, scan_warning.
  rewrite parse_testIdSelectorText by done. run_js.
  destruct (querySelector (document w) (testIdSelector testId)) as [tab|]; simpl.
  - by rewrite add_logs_nil.
  - done.
Qed.

Lemma mapM_scanTab_run ids w :
  forallb is_value ids = true →
  mapM scanTab ids w =
    (Normal (scan_tab (document w) <$> ids),
     add_logs (ids ≫= scan_warning (document w)) w).
Proof.
  revert w. induction ids as [|testId ids IH]; intros w Hids.
  - by rewrite mapM_nil, add_logs_nil.
  - apply andb_true_iff in Hids as [Hid Hids].
    rewrite mapM_cons. run_js. rewrite scanTab_run, run_bind, IH by done. simpl.
    by rewrite add_logs_app.
Qed.

Lemma getAllMapToggleTabs_run w :
  getAllMapToggleTabs w = (Normal (tabs_of w), after_tabs w).
Proof.
  unfold getAllMapToggleTabs, tabs_of, after_tabs. run_js.
  destruct (tabsCache (this w)) as [tabs|]; [done|].
  run_js. rewrite mapM_scanTab_run by done. run_js. unfold scan_tabs.
  by rewrite omap_fmap.
Qed.

Lemma findTabByMode_run m w :
  findTabByMode m w =
    (Normal (find_tab m (tabs_of w)),
     add_logs (find_warning m (tabs_of w)) (after_tabs w)).
Proof.
  unfold findTabByMode. rewrite run_bind, getAllMapToggleTabs_run.
  unfold find_warning, find_tab. run_js.
  destruct (list_find _ (tabs_of w)) as [[i tab]|]; simpl; [|done].
  by rewrite add_logs_nil.
Qed.

Lemma getCards_run w : getCards w = (Normal (cards_of w), after_getCards w).
Proof.
  unfold getCards. rewrite run_bind, findTabByMode_run. run_js.
  unfold cards_of, after_getCards, contentCards, touchpointCards, listModeActive,
    contentClass. simpl. rewrite document_after_tabs.
  by rewrite add_log_add_logs, add_logs_app.
Qed.

Lemma hasPaywallClass_run card w :
  (hasChildWithClass (JsElement card) (JsString "paywall-label") |||
   hasChildWithClass (JsElement card) (JsString "plusBooking")) w =
    (Normal (has_paywall (document w) card), w).
Proof.
  unfold js_or, has_paywall. rewrite run_bind, hasChildWithClass_run by done.
  destruct (bool_decide (_ ≠ None)); [done|]. by rewrite hasChildWithClass_run.
Qed.

Lemma hideCard_run n card w :
  hideCard n card w =
    (Normal (hide_step (n, document w) card).1,
     set_document (hide_step (n, document w) card).2 w).
Proof.
  unfold hideCard. rewrite run_bind, hasPaywallClass_run. run_js.
  unfold hide_step, flagged. cbn [fst snd].
  destruct (has_paywall (document w) card || classList_contains (document w) card _);
    run_js; [done|]. by rewrite set_document_id.
Qed.

Lemma foldM_hideCard_run cards n w :
  foldM hideCard n cards w =
    (Normal (foldl hide_step (n, document w) cards).1,
     set_document (foldl hide_step (n, document w) cards).2 w).
Proof.
  revert n w. induction cards as [|card cards IH]; intros n w.
  - rewrite foldM_nil. simpl. by rewrite set_document_id.
  - rewrite foldM_cons, run_bind, hideCard_run, IH. simpl.
    by destruct (hide_step (n, document w) card).
Qed.

Lemma hideCards_run w : hideCards w = (Normal (), after_hideCards w).
Proof.
  unfold hideCards, after_hideCards. rewrite run_bind, getCards_run.
  case_bool_decide; [done|]. rewrite run_bind, foldM_hideCard_run.
  by rewrite document_after_getCards.
Qed.

Lemma reapplyFilters_run w :
  reapplyFilters w = (Normal (), after_hideCards (set_tabsCache None w)).
Proof. unfold reapplyFilters, refreshTabsCache. run_js. apply hideCards_run. Qed.

Lemma init_run w : init w = (Normal (), after_hideCards w).
Proof. unfold init. apply run_try_catch_returns, hideCards_run. Qed.

Lemma constructor_run w :
  constructor w = (Normal (), after_hideCards (set_tabsCache None w)).
Proof. unfold constructor. run_js. apply init_run. Qed.

(** C22. No method the script calls on its own can throw: from every
    world each of them completes normally. *)
Theorem methods_never_throw :
  no_throw constructor ∧ no_throw init ∧ no_throw hideCards ∧
  no_throw reapplyFilters ∧ no_throw refreshTabsCache ∧ no_throw getCards ∧
  no_throw getAllMapToggleTabs ∧ (∀ m, no_throw (findTabByMode m)).
Proof.
  unfold no_throw, eval. split_and!; intros;
    rewrite ?constructor_run, ?init_run, ?hideCards_run, ?reapplyFilters_run,
      ?getCards_run, ?getAllMapToggleTabs_run, ?findTabByMode_run; by eexists.
Qed.

End CardManager.

Arguments Tab R : clear implicits.
Arguments CardManager R : clear implicits.
Arguments World D R : clear implicits.
