(* ===== verification/Scenario.v ===== *)
(** * Scenario: concrete pages

    The pages the development is run on: the scenario of the specification
    (three list cards, one of them paywalled, two grid cards, one sponsored
    card, the list tab selected), the same page in the hybrid view, pages
    without tabs, without the pagination landmark and without cards, a page
    with an icon inside a tab, a page whose pagination landmark stands inside
    a button, and a page on which one element is both a grid card and a
    sponsored card.  Every definition of the model is executable, so the
    facts of this file are proved by evaluation. *)

From S2P Require Import Prelude JsString JsMonad Dom SelectorText Console DomTree CardManager.

(** ** Building pages *)

(** An element with no inline display. *)
Definition el (tag : string) (attrs : list (string * string)) (classes : list string)
    (children : list Element) : Element :=
  Node (mkProps tag attrs classes "") children.

(** The three view-mode tabs, the first selected when [listSelected]. *)
Definition tabs_nav (listSelected : bool) : Element :=
  el "nav" [("aria-label", "view")] [] [
    el "button" [("data-testid", "mapToggleListMode");
                 ("aria-selected", if listSelected then "true" else "false")] [] [];
    el "button" [("data-testid", "mapToggleHybridViewMode");
                 ("aria-selected", if listSelected then "false" else "true")] [] [];
    el "button" [("data-testid", "mapToggleClassicMapMode");
                 ("aria-selected", "false")] [] []].

Definition pagination_nav : Element :=
  el "nav" [("aria-label", "pagination")] [] [
    el "button" [] [] [el "span" [] ["icon"] []];
    el "button" [] [] []].

(** The cards of the scenario: paths [1]..[3] are the list cards ([2] is
    paywalled), [4] and [5] the grid cards ([4] holds a booking marker),
    [6] the sponsored card. *)
Definition scenario_cards : list Element := [
  el "div" [] ["result-list__listing"] [];
  el "div" [] ["result-list__listing"] [el "span" [] ["paywall-label"] []];
  el "div" [] ["result-list__listing"] [];
  el "div" [] ["listing-card"] [el "div" [] [] [el "span" [] ["plusBooking"] []]];
  el "div" [] ["listing-card"] [];
  el "div" [] ["touchpoint-card"] []].

Definition page (listSelected : bool) : Element :=
  el "html" [] [] (tabs_nav listSelected :: scenario_cards ++ [pagination_nav]).

(** A page with cards and pagination but no tab markers. *)
Definition page_no_tabs : Element :=
  el "html" [] [] (scenario_cards ++ [pagination_nav]).

(** A page without the pagination landmark. *)
Definition page_no_pagination : Element :=
  el "html" [] [] (tabs_nav true :: scenario_cards).

(** A page whose only card is a grid card and a sponsored card at once. *)
Definition page_double : Element :=
  el "html" [] [] [
    tabs_nav false;
    el "div" [] ["listing-card"; "touchpoint-card"] [];
    pagination_nav].

(** A page with tabs and pagination but no card. *)
Definition page_no_cards : Element :=
  el "html" [] [] [tabs_nav true; pagination_nav].

(** The scenario page with an icon inside the list-mode tab. *)
Definition page_tab_icon : Element :=
  el "html" [] [] (
    el "nav" [("aria-label", "view")] [] [
      el "button" [("data-testid", "mapToggleListMode"); ("aria-selected", "true")] []
        [el "span" [] ["icon"] []];
      el "button" [("data-testid", "mapToggleHybridViewMode"); ("aria-selected", "false")] [] []]
    :: scenario_cards ++ [pagination_nav]).

(** A page whose pagination landmark has no button in it and stands inside
    a button. *)
Definition page_nav_in_button : Element :=
  el "html" [] [] [
    tabs_nav true;
    el "button" [] [] [
      el "nav" [("aria-label", "pagination")] [] [el "span" [] ["page-number"] []]]].

(** A world before the script ran: nothing cached, nothing printed. *)
Definition fresh (d : Element) : World Element Ref :=
  mkWorld d (mkCardManager None) [].

Definition scenario : World Element Ref := fresh (page true).
Definition scenario_grid : World Element Ref := fresh (page false).

(** The hybrid-view page with the tabs cached while the list view was
    selected: what a tab switch leaves behind when nothing invalidates the
    cache. *)
Definition scenario_stale : World Element Ref :=
  mkWorld (page false) (this (exec hideCards scenario)) [].

(** ** The scenario of the specification *)

Example scenario_cards_of : cards_of scenario = [[1]; [2]; [3]; [6]].
Proof. reflexivity. Qed.

Example scenario_console :
  console (exec constructor scenario) =
    [(LevelLog, MsgFound 3 1); (LevelLog, MsgHidden 2 4)].
Proof. reflexivity. Qed.

(** The same, as it reads on the console. *)
Example scenario_console_text :
  console_text (console (exec constructor scenario)) =
    [("log", "Found 3 content cards and 1 touchpoint cards");
     ("log", "2 cards hidden out of 4 total cards")].
Proof. reflexivity. Qed.

Example scenario_hidden :
  filter (λ r, style_get_display (document (exec constructor scenario)) r = Some "none")
    (dom_nodes (document (exec constructor scenario))) = [[2]; [6]].
Proof. reflexivity. Qed.

Example scenario_grid_cards_of : cards_of scenario_grid = [[4]; [5]; [6]].
Proof. reflexivity. Qed.

Example scenario_no_tabs_console :
  console (exec constructor (fresh page_no_tabs)) =
    [(LevelWarn, MsgTestIdNotFound "mapToggleListMode");
     (LevelWarn, MsgTestIdNotFound "mapToggleHybridViewMode");
     (LevelWarn, MsgTestIdNotFound "mapToggleClassicMapMode");
     (LevelWarn, MsgModeNotFound "List");
     (LevelLog, MsgFound 2 1);
     (LevelLog, MsgHidden 2 3)].
Proof. reflexivity. Qed.

(** On [page_double] the one card is in the array twice, as a grid card and
    as a sponsored card: the summary counts two cards hidden out of two,
    while one element was hidden. *)
Example page_double_console :
  console (exec constructor (fresh page_double)) =
    [(LevelLog, MsgFound 1 1); (LevelLog, MsgHidden 2 2)] ∧
  filter (λ r, style_get_display (document (exec constructor (fresh page_double))) r
               = Some "none")
    (dom_nodes (document (exec constructor (fresh page_double)))) = [[1]].
Proof. split; reflexivity. Qed.
