(* ===== verification/Filter.v ===== *)
(** * Filter: what [hideCards] promises, and that the code keeps it

    The loop of [hideCards] tests each card on the page as the previous
    iterations left it.  Its specification, [hide_spec], tests every card on
    the page as it was before the loop and applies one change,
    [hide_props], to the cards that are paywalled or sponsored.  This file
    proves that the loop refines the specification
    ([foldl_hide_step_spec], [hideCards_refines_spec]) and derives the
    properties of the filter from the specification: flagged cards end up
    hidden, sponsored elements in every view, nothing else changes, hidden
    cards stay hidden, and a second run changes nothing.

    Everything is proved against the document interface ([DomLaws]) and
    holds for every implementation of it.  The last section instantiates
    each theorem on the tree documents of [Scenario]. *)

From S2P Require Import Prelude JsString JsMonad Dom SelectorText Console DomTree CardManager Scenario.

Section Filter.
Context `{DomLaws D R}.
Implicit Types (d : D) (r q card : R) (cards rs : list R) (w : World D R).

(** ** The specification *)

(** The change a hidden card undergoes. *)
Definition hide_props (pr : Props) : Props :=
  add_class "hidden-card" (set_display "none" pr).

(** The cards of [cards] the filter hides on page [d]. *)
Definition to_hide d cards : list R := filter (λ card, flagged d card) cards.

(** The page after the filter ran over [cards]. *)
Definition hide_spec d cards : D := modify_all hide_props (to_hide d cards) d.

(** [hidden d r]: the element is not displayed and carries the marker. *)
Definition hidden d r : bool :=
  bool_decide (style_get_display d r = Some "none") &&
  classList_contains d r "hidden-card".

(** Two worlds are equivalent when their documents are and the rest is
    equal. *)
#[export] Instance world_equiv : Equiv (World D R) := λ w1 w2,
  document w1 ≡ document w2 ∧ this w1 = this w2 ∧ console w1 = console w2.

#[export] Instance world_equiv_equivalence : Equivalence (≡@{World D R}).
Proof.
  split.
  - by intros w.
  - intros w1 w2 (?&?&?). by split_and!.
  - intros w1 w2 w3 (?&?&?) (?&?&?). split_and!; by etrans.
Qed.

(** ** The change [hide_props] *)

Lemma hide_props_idemp pr : hide_props (hide_props pr) = hide_props pr.
Proof.
  unfold hide_props. by rewrite !add_class_set_display, add_class_idemp.
Qed.

Lemma style_display_hide_props pr : style_display (hide_props pr) = "none".
Proof. unfold hide_props. by rewrite style_display_add_class. Qed.

Lemma classList_hide_props c pr :
  c ∈ classList (hide_props pr) ↔ c = "hidden-card" ∨ c ∈ classList pr.
Proof. unfold hide_props. by rewrite classList_add_class. Qed.

Lemma attributes_hide_props pr : attributes (hide_props pr) = attributes pr.
Proof. unfold hide_props. by rewrite attributes_add_class. Qed.

Lemma props_match_hide_props pr sel :
  ¬ mentions_class "hidden-card" sel →
  props_match (hide_props pr) sel = props_match pr sel.
Proof.
  intros Hsel. unfold hide_props.
  by rewrite props_match_add_class, props_match_set_display.
Qed.

(** The two writes of the loop body amount to one [hide_props]. *)
Lemma hide_modify card d : hide card d ≡ dom_modify hide_props card d.
Proof. unfold hide, classList_add, style_set_display. apply dom_modify_modify. Qed.

(** ** What the filter's own writes cannot change *)

Lemma classSelector_not_hidden name :
  name ≠ "hidden-card" → ¬ mentions_class "hidden-card" (classSelector name).
Proof.
  intros Hname. unfold mentions_class, classSelector.
  rewrite list_elem_of_singleton. by intros [= <-].
Qed.

Lemma testIdSelector_not_hidden testId :
  ¬ mentions_class "hidden-card" (testIdSelector testId).
Proof. unfold mentions_class, testIdSelector. by rewrite list_elem_of_singleton. Qed.

Lemma has_paywall_modify_hide r d q :
  has_paywall (dom_modify hide_props r d) q = has_paywall d q.
Proof.
  unfold has_paywall.
  by rewrite !elem_querySelector_modify
    by (intros; by apply props_match_hide_props, classSelector_not_hidden).
Qed.

Lemma classList_contains_modify_hide r d q c :
  c ≠ "hidden-card" →
  classList_contains (dom_modify hide_props r d) q c = classList_contains d q c.
Proof.
  intros Hc. apply classList_contains_modify_preserved.
  intros pr. rewrite classList_hide_props. split; [by intros [?|?]|tauto].
Qed.

Lemma flagged_modify_hide r d q : flagged (dom_modify hide_props r d) q = flagged d q.
Proof.
  unfold flagged. by rewrite has_paywall_modify_hide, classList_contains_modify_hide.
Qed.

Lemma getElementsByClassName_modify_hide r d c :
  c ≠ "hidden-card" →
  getElementsByClassName (dom_modify hide_props r d) c = getElementsByClassName d c.
Proof.
  intros Hc. apply getElementsByClassName_modify.
  intros pr. rewrite classList_hide_props. split; [by intros [?|?]|tauto].
Qed.

Lemma scan_tab_modify_hide r d testId :
  scan_tab (dom_modify hide_props r d) testId = scan_tab d testId.
Proof.
  unfold scan_tab.
  rewrite querySelector_modify
    by (intros; apply props_match_hide_props, testIdSelector_not_hidden).
  destruct (querySelector d (testIdSelector testId)) as [tab|]; simpl; [|done].
  by rewrite getAttribute_modify by apply attributes_hide_props.
Qed.

Lemma scan_tabs_modify_hide r d : scan_tabs (dom_modify hide_props r d) = scan_tabs d.
Proof.
  unfold scan_tabs. apply list_omap_ext, Forall2_same_length_lookup.
  split; [done|]. intros i x y Hx Hy. simplify_eq.
  by rewrite scan_tab_modify_hide.
Qed.

(** ** The functions of the filter respect [≡] *)

#[export] Instance has_paywall_proper : Proper ((≡) ==> (=) ==> (=)) (has_paywall (D:=D)).
Proof.
  intros d1 d2 Hd r ? <-. unfold has_paywall.
  assert (Hq : ∀ sel, elem_querySelector d1 r sel = elem_querySelector d2 r sel)
    by (intros; by rewrite Hd).
  by rewrite !Hq.
Qed.

#[export] Instance flagged_proper : Proper ((≡) ==> (=) ==> (=)) (flagged (D:=D)).
Proof. intros d1 d2 Hd r ? <-. unfold flagged. by rewrite Hd. Qed.

#[export] Instance hide_proper r : Proper ((≡) ==> (≡)) (hide (D:=D) r).
Proof. intros d1 d2 Hd. unfold hide, classList_add, style_set_display. by rewrite Hd. Qed.

#[export] Instance scan_tab_proper : Proper ((≡) ==> (=) ==> (=)) (scan_tab (D:=D)).
Proof.
  intros d1 d2 Hd testId ? <-. unfold scan_tab.
  assert (Hq : ∀ sel, querySelector d1 sel = querySelector d2 sel)
    by (intros; by rewrite Hd).
  assert (Ha : ∀ r n, getAttribute d1 r n = getAttribute d2 r n)
    by (intros; by rewrite Hd).
  rewrite Hq. destruct (querySelector d2 _); simpl; [|done]. by rewrite Ha.
Qed.

#[export] Instance scan_tabs_proper : Proper ((≡) ==> (=)) (scan_tabs (D:=D)).
Proof.
  intros d1 d2 Hd. unfold scan_tabs. apply list_omap_ext, Forall2_same_length_lookup.
  split; [done|]. intros i x y Hx Hy. simplify_eq. by rewrite Hd.
Qed.

#[export] Instance hidden_proper : Proper ((≡) ==> (=) ==> (=)) hidden.
Proof.
  intros d1 d2 Hd r ? <-. unfold hidden, style_get_display.
  assert (Hp : dom_props d1 r = dom_props d2 r) by (by rewrite Hd).
  by rewrite Hp, Hd.
Qed.

#[export] Instance to_hide_proper : Proper ((≡) ==> (=) ==> (=)) to_hide.
Proof.
  intros d1 d2 Hd cards ? <-. unfold to_hide.
  apply filter_ext_bool. intros r _. by rewrite Hd.
Qed.

#[export] Instance hide_spec_proper : Proper ((≡) ==> (=) ==> (≡)) hide_spec.
Proof.
  intros d1 d2 Hd cards ? <-. unfold hide_spec.
  rewrite (to_hide_proper _ _ Hd cards cards eq_refl). by apply modify_all_proper.
Qed.

Lemma flagged_hide r d q : flagged (hide r d) q = flagged d q.
Proof. by rewrite hide_modify, flagged_modify_hide. Qed.

(** ** The loop refines the specification *)

(** The loop started on any page [d'] that flags the same cards as [d]. *)
Lemma foldl_hide_step_from d cards n d' :
  (∀ q, flagged d' q = flagged d q) →
  (foldl hide_step (n, d') cards).1 = n + length (to_hide d cards) ∧
  (foldl hide_step (n, d') cards).2 ≡ modify_all hide_props (to_hide d cards) d'.
Proof.
  revert n d'. induction cards as [|card cards IH]; intros n d' Hflag.
  { split; [simpl; lia|done]. }
  assert (Hstep : hide_step (n, d') card =
                  if flagged d card then (S n, hide card d') else (n, d'))
    by (unfold hide_step; simpl; by rewrite Hflag).
  cbn [foldl]. rewrite Hstep. unfold to_hide. rewrite filter_cons.
  fold (to_hide d cards). destruct (flagged d card) eqn:Hcard.
  - rewrite decide_True by done.
    destruct (IH (S n) (hide card d')) as [Hn Hd].
    { intros q. by rewrite flagged_hide. }
    split; [rewrite Hn; simpl; lia|].
    by rewrite Hd, modify_all_cons, hide_modify.
  - rewrite decide_False by (simpl; tauto). by apply IH.
Qed.

Lemma foldl_hide_step_spec d cards n :
  (foldl hide_step (n, d) cards).1 = n + length (to_hide d cards) ∧
  (foldl hide_step (n, d) cards).2 ≡ hide_spec d cards.
Proof. by apply foldl_hide_step_from. Qed.

(** ** Observations of the specification *)

Lemma dom_nodes_hide_spec d cards : dom_nodes (hide_spec d cards) = dom_nodes d.
Proof. apply dom_nodes_modify_all. Qed.

Lemma dom_props_hide_spec d cards q :
  dom_props (hide_spec d cards) q =
    if decide (q ∈ cards ∧ flagged d q)
    then hide_props <$> dom_props d q else dom_props d q.
Proof.
  unfold hide_spec. rewrite dom_props_modify_all by apply hide_props_idemp.
  apply decide_ext. unfold to_hide. rewrite list_elem_of_filter. tauto.
Qed.

Lemma flagged_modify_all_hide rs d q :
  flagged (modify_all hide_props rs d) q = flagged d q.
Proof.
  apply (modify_all_preserved (λ d, flagged d q)). intros. apply flagged_modify_hide.
Qed.

Lemma flagged_hide_spec d cards q : flagged (hide_spec d cards) q = flagged d q.
Proof. apply flagged_modify_all_hide. Qed.

Lemma getElementsByClassName_hide_spec d cards c :
  c ≠ "hidden-card" →
  getElementsByClassName (hide_spec d cards) c = getElementsByClassName d c.
Proof.
  intros Hc. apply (modify_all_preserved (λ d, getElementsByClassName d c)).
  intros. by apply getElementsByClassName_modify_hide.
Qed.

Lemma scan_tabs_hide_spec d cards : scan_tabs (hide_spec d cards) = scan_tabs d.
Proof.
  apply (modify_all_preserved scan_tabs). intros. apply scan_tabs_modify_hide.
Qed.

(** ** The cards [getCards] returns *)

Lemma elem_of_getElementsByClassName d c r :
  r ∈ getElementsByClassName d c ↔ r ∈ dom_nodes d ∧ classList_contains d r c = true.
Proof.
  unfold getElementsByClassName. rewrite list_elem_of_filter, Is_true_true. tauto.
Qed.

Lemma cards_of_nodes w card : card ∈ cards_of w → card ∈ dom_nodes (document w).
Proof.
  unfold cards_of, contentCards, touchpointCards.
  rewrite elem_of_app, !elem_of_getElementsByClassName. tauto.
Qed.

(** ** The page [hideCards] leaves *)

Lemma document_after_hideCards w :
  document (after_hideCards w) ≡ hide_spec (document w) (cards_of w).
Proof.
  unfold after_hideCards. case_bool_decide as Hlen.
  - apply nil_length_inv in Hlen.
    by rewrite Hlen, document_add_logs, document_after_getCards.
  - rewrite document_add_logs, document_set_document. apply foldl_hide_step_spec.
Qed.

Lemma this_after_hideCards w :
  this (after_hideCards w) = mkCardManager (Some (tabs_of w)).
Proof.
  assert (Ht : this (after_tabs w) = mkCardManager (Some (tabs_of w))).
  { pose proof (tabsCache_after_tabs w) as Hc.
    destruct (this (after_tabs w)) as [c]. simpl in Hc. by rewrite Hc. }
  unfold after_hideCards.
  case_bool_decide; by rewrite this_add_logs, ?this_set_document.
Qed.

(** C1. [hideCards] refines its specification: from every world it returns
    normally, leaves the page on which exactly the paywalled or sponsored
    cards of [getCards] underwent [hide_props] (tested on the page as it was
    before the call), and leaves the tabs it used in the cache. *)
Theorem hideCards_refines_spec w :
  eval hideCards w = Normal () ∧
  document (exec hideCards w) ≡ hide_spec (document w) (cards_of w) ∧
  tabsCache (this (exec hideCards w)) = Some (tabs_of w).
Proof.
  unfold eval, exec. rewrite hideCards_run. simpl. split_and!; [done| |].
  - apply document_after_hideCards.
  - by rewrite this_after_hideCards.
Qed.

(** ** Properties of the specification *)

Lemma hidden_hide_spec d cards card :
  card ∈ dom_nodes d → card ∈ cards → flagged d card = true →
  hidden (hide_spec d cards) card = true.
Proof.
  intros [pr Hpr]%dom_props_nodes Hcard Hflag.
  unfold hidden, style_get_display, classList_contains.
  rewrite dom_props_hide_spec, decide_True, Hpr by (by rewrite Hflag). simpl.
  rewrite style_display_hide_props, bool_decide_eq_true_2 by done. simpl.
  apply bool_decide_eq_true, classList_hide_props. by left.
Qed.

Lemma hidden_mono_hide_spec d cards r :
  hidden d r = true → hidden (hide_spec d cards) r = true.
Proof.
  unfold hidden, style_get_display, classList_contains.
  rewrite dom_props_hide_spec. case_decide; [|done].
  destruct (dom_props d r) as [pr|]; simpl; [|done].
  rewrite !andb_true_iff, !bool_decide_eq_true. intros [_ Hc].
  rewrite style_display_hide_props, classList_hide_props. auto.
Qed.

Lemma hide_spec_idemp d cards : hide_spec (hide_spec d cards) cards ≡ hide_spec d cards.
Proof.
  split_and!; intros; rewrite ?dom_nodes_hide_spec; try done.
  - rewrite !dom_props_hide_spec. rewrite flagged_hide_spec.
    case_decide; [|done]. rewrite <-option_fmap_compose.
    apply option_fmap_ext. intros pr. apply hide_props_idemp.
  - unfold hide_spec. by autorewrite with dom.
  - unfold hide_spec. by autorewrite with dom.
Qed.

(** ** Properties of [hideCards] *)

Lemma exec_hideCards w : exec hideCards w = after_hideCards w.
Proof. unfold exec. by rewrite hideCards_run. Qed.

(** C4. Every card [getCards] returns that is paywalled (a descendant
    carries [paywall-label] or [plusBooking]) or sponsored (the card carries
    [touchpoint-card]) is hidden when [hideCards] returns: its inline
    display is [none] and it carries [hidden-card]. *)
Theorem hideCards_hides_flagged w card :
  card ∈ cards_of w →
  flagged (document w) card = true →
  hidden (document (exec hideCards w)) card = true.
Proof.
  intros Hcard Hflag. rewrite exec_hideCards, document_after_hideCards.
  apply hidden_hide_spec; [by apply cards_of_nodes|done..].
Qed.

(** A sponsored element is a card of every view. *)
Lemma sponsored_cards_of w r :
  r ∈ dom_nodes (document w) →
  classList_contains (document w) r "touchpoint-card" = true →
  r ∈ cards_of w ∧ flagged (document w) r = true.
Proof.
  intros Hr Hs. split.
  - apply elem_of_app. right. by apply elem_of_getElementsByClassName.
  - unfold flagged. rewrite Hs. apply orb_true_r.
Qed.

(** C5. Sponsored elements are hidden regardless of mode: every element of the
    page that carries [touchpoint-card] is hidden when [hideCards] returns,
    whichever tab is selected, whichever tabs are on the page and whatever
    is cached, stale or not. *)
Theorem hideCards_hides_sponsored w r :
  r ∈ dom_nodes (document w) →
  classList_contains (document w) r "touchpoint-card" = true →
  hidden (document (exec hideCards w)) r = true.
Proof.
  intros Hr Hs. destruct (sponsored_cards_of w r Hr Hs) as [Hcard Hflag].
  rewrite exec_hideCards, document_after_hideCards.
  by apply hidden_hide_spec.
Qed.

(** C6. [hideCards] changes nothing else: the page keeps its elements, in
    the same order, and an element that is not a flagged card of [getCards]
    keeps its properties. *)
Theorem hideCards_frame w r :
  dom_nodes (document (exec hideCards w)) = dom_nodes (document w) ∧
  (¬ (r ∈ cards_of w ∧ flagged (document w) r = true) →
   dom_props (document (exec hideCards w)) r = dom_props (document w) r).
Proof.
  rewrite exec_hideCards. split.
  - by rewrite document_after_hideCards, dom_nodes_hide_spec.
  - intros Hr. assert (Hp : dom_props (document (after_hideCards w)) r =
                           dom_props (hide_spec (document w) (cards_of w)) r)
      by (by rewrite document_after_hideCards).
    rewrite Hp, dom_props_hide_spec, decide_False; [done|].
    by rewrite Is_true_true.
Qed.

(** [hideCards] never shows a card again: an element that was hidden
    before the call is hidden after it. *)
Theorem hideCards_hidden_mono w r :
  hidden (document w) r = true →
  hidden (document (exec hideCards w)) r = true.
Proof.
  intros Hr. rewrite exec_hideCards, document_after_hideCards.
  by apply hidden_mono_hide_spec.
Qed.

(** The second run reads the tabs from the cache and finds the same cards. *)
Lemma tabs_of_after_hideCards w : tabs_of (after_hideCards w) = tabs_of w.
Proof. unfold tabs_of at 1. by rewrite this_after_hideCards. Qed.

Lemma cards_of_after_hideCards w : cards_of (after_hideCards w) = cards_of w.
Proof.
  unfold cards_of, contentCards, touchpointCards, listModeActive.
  rewrite tabs_of_after_hideCards, !document_after_hideCards.
  by rewrite !getElementsByClassName_hide_spec
    by (unfold contentClass; try destruct (from_option _ _ _); done).
Qed.

(** C7. [hideCards] is idempotent: a second call in succession leaves the
    page and the fields of the manager as the first call left them. *)
Theorem hideCards_idempotent w :
  document (exec hideCards (exec hideCards w)) ≡ document (exec hideCards w) ∧
  this (exec hideCards (exec hideCards w)) = this (exec hideCards w).
Proof.
  rewrite !exec_hideCards. split.
  - rewrite (document_after_hideCards (after_hideCards w)).
    rewrite cards_of_after_hideCards, document_after_hideCards.
    apply hide_spec_idemp.
  - by rewrite !this_after_hideCards, tabs_of_after_hideCards.
Qed.

End Filter.

(** ** The theorems on the pages of [Scenario] *)

Lemma hideCards_refines_spec_scenario :
  eval hideCards scenario = Normal () ∧
  document (exec hideCards scenario) ≡
    hide_spec (document scenario) [[1]; [2]; [3]; [6]] ∧
  tabsCache (this (exec hideCards scenario)) = Some (tabs_of scenario).
Proof. exact (hideCards_refines_spec scenario). Defined.

Lemma hideCards_hides_flagged_scenario :
  hidden (document (exec hideCards scenario)) [2] = true.
Proof.
  apply (hideCards_hides_flagged scenario [2]).
  - by_compute.
  - reflexivity.
Defined.

(** The sponsored card of the scenario, with the tabs of the other view
    cached. *)
Lemma hideCards_hides_sponsored_scenario :
  hidden (document (exec hideCards scenario_stale)) [6] = true.
Proof.
  apply (hideCards_hides_sponsored scenario_stale [6]); [by_compute|reflexivity].
Defined.

(** Paywalled cards are not: the grid card [[4]] of the scenario holds a
    booking marker and stays as it is when the list tab is selected, the
    filter looking at the list cards only. *)
Example paywalled_card_of_other_view :
  [4] ∈ getElementsByClassName (page true) "listing-card" ∧
  has_paywall (page true) [4] = true ∧
  hidden (document (exec constructor scenario)) [4] = false.
Proof. split; [by_compute|split; reflexivity]. Qed.

Lemma hideCards_frame_scenario :
  dom_nodes (document (exec hideCards scenario)) = dom_nodes (page true) ∧
  dom_props (document (exec hideCards scenario)) [4] = dom_props (page true) [4].
Proof.
  destruct (hideCards_frame scenario [4]) as [Hnodes Hprops].
  split; [exact Hnodes|]. apply Hprops. intros [Hcard _].
  apply (bool_decide_pack _) in Hcard. by vm_compute in Hcard.
Defined.

Lemma hideCards_hidden_mono_scenario :
  hidden (document (exec hideCards (exec hideCards scenario))) [6] = true.
Proof. apply (hideCards_hidden_mono (exec hideCards scenario) [6]). reflexivity. Defined.

Lemma hideCards_idempotent_scenario :
  document (exec hideCards (exec hideCards scenario)) ≡
    document (exec hideCards scenario) ∧
  this (exec hideCards (exec hideCards scenario)) = this (exec hideCards scenario).
Proof. exact (hideCards_idempotent scenario). Defined.
