(* ===== verification/Reapply.v ===== *)
(** * Reapply: the view the filter works on, and the re-application

    Which cards [getCards] collects depends on the view mode it reads from
    the tabs, and the tabs may come from the cache.  This file shows which
    container [getCards] reads when it has no cache, that [reapplyFilters]
    does not depend on the cache it finds and leaves a cache that is a scan
    of the page as it is, and that it leaves the page [filtered]: every
    paywalled or sponsored card of the view the page shows is hidden.

    [fresh_cards] and [list_tab_selected] read the view off the page alone;
    they are what the run-level theorems of [Runs] and the contract of
    [Reactive] are stated with. *)

From S2P Require Import Prelude JsString JsMonad Dom SelectorText Console DomTree CardManager Scenario Filter.

Section Reapply.
Context `{DomLaws D R}.
Implicit Types (d : D) (r q card : R) (cards rs : list R) (w : World D R).

(** ** The view mode [getCards] reads *)

(** The three test ids give the three mode names. *)
Lemma modeOfTestId_testIds :
  modeOfTestId <$> testIds = ["List"; "HybridView"; "ClassicMap"].
Proof. reflexivity. Qed.

Lemma mode_scan_tab d testId tab :
  scan_tab d testId = Some tab → mode tab = modeOfTestId testId.
Proof.
  unfold scan_tab. destruct (querySelector d _); simpl; [|done]. by intros [= <-].
Qed.

(** Among the scanned tabs, the one of mode ["List"] is the scan of the
    first test id. *)
Lemma find_tab_List_scan_tabs d :
  find_tab "List" (scan_tabs d) = scan_tab d "mapToggleListMode".
Proof.
  assert (HH : modeOfTestId "mapToggleHybridViewMode" = "HybridView") by reflexivity.
  assert (HC : modeOfTestId "mapToggleClassicMapMode" = "ClassicMap") by reflexivity.
  unfold find_tab, scan_tabs, testIds. cbn [omap list_omap].
  destruct (scan_tab d "mapToggleListMode") as [t1|] eqn:H1.
  { apply mode_scan_tab in H1. cbn [list_find]. by rewrite decide_True. }
  destruct (scan_tab d "mapToggleHybridViewMode") as [t2|] eqn:H2;
    destruct (scan_tab d "mapToggleClassicMapMode") as [t3|] eqn:H3;
    repeat match goal with
      | H : scan_tab _ _ = Some _ |- _ => apply mode_scan_tab in H
      end;
    rewrite ?HH, ?HC in *; cbn [list_find];
    repeat (rewrite decide_False by congruence); done.
Qed.

(** [list_tab_selected d]: the page has the list-mode tab and its
    [aria-selected] attribute is ["true"]. *)
Definition list_tab_selected d : bool :=
  match querySelector d (testIdSelector "mapToggleListMode") with
  | Some tab => bool_decide (getAttribute d tab "aria-selected" = Some "true")
  | None => false
  end.

Lemma listModeActive_fresh w :
  tabsCache (this w) = None → listModeActive w = list_tab_selected (document w).
Proof.
  intros Hc. unfold listModeActive, tabs_of. rewrite Hc. simpl.
  rewrite find_tab_List_scan_tabs. unfold scan_tab, list_tab_selected.
  by destruct (querySelector _ _).
Qed.

Lemma eval_getCards w : eval getCards w = Normal (cards_of w).
Proof. unfold eval. by rewrite getCards_run. Qed.

(** C8. With no cached tabs, on a page whose list-mode tab is selected,
    [getCards] returns the list-container cards followed by all sponsored
    cards. *)
Theorem getCards_list_mode w :
  tabsCache (this w) = None →
  list_tab_selected (document w) = true →
  eval getCards w =
    Normal (getElementsByClassName (document w) "result-list__listing" ++
            getElementsByClassName (document w) "touchpoint-card").
Proof.
  intros Hc Hsel. rewrite eval_getCards. unfold cards_of, contentCards.
  by rewrite listModeActive_fresh, Hsel.
Qed.

(** C9. With no cached tabs, on a page whose list-mode tab is absent or not
    selected, [getCards] returns the grid-container cards followed by all
    sponsored cards. *)
Theorem getCards_grid_mode w :
  tabsCache (this w) = None →
  list_tab_selected (document w) = false →
  eval getCards w =
    Normal (getElementsByClassName (document w) "listing-card" ++
            getElementsByClassName (document w) "touchpoint-card").
Proof.
  intros Hc Hsel. rewrite eval_getCards. unfold cards_of, contentCards.
  by rewrite listModeActive_fresh, Hsel.
Qed.

(** ** [reapplyFilters] *)

Lemma exec_reapplyFilters w :
  exec reapplyFilters w = after_hideCards (set_tabsCache None w).
Proof. unfold exec. by rewrite reapplyFilters_run. Qed.

(** C10. [reapplyFilters] does not depend on the cache it finds: whatever
    tabs were cached, stale or not, it returns the same completion and
    leaves the same world. *)
Theorem reapplyFilters_ignores_cache w cache :
  reapplyFilters (set_tabsCache cache w) = reapplyFilters w.
Proof. by rewrite !reapplyFilters_run. Qed.

(** C11. After [reapplyFilters] the cache holds a complete scan of the
    three tab markers of the page as it now is, and the page is the one the
    specification gives for the cards of that scan. *)
Theorem reapplyFilters_cache_coherent w :
  let w' := exec reapplyFilters w in
  tabsCache (this w') = Some (scan_tabs (document w')) ∧
  document w' ≡ hide_spec (document w) (cards_of (set_tabsCache None w)).
Proof.
  simpl. rewrite exec_reapplyFilters.
  pose proof (document_after_hideCards (set_tabsCache None w)) as Hd.
  split; [|done]. rewrite this_after_hideCards. simpl. f_equal.
  rewrite Hd. unfold tabs_of. simpl. by rewrite scan_tabs_hide_spec.
Qed.

(** ** A filtered page *)

(** The cards [getCards] finds on page [d] when nothing is cached. *)
Definition fresh_cards d : list R :=
  getElementsByClassName d (contentClass (list_tab_selected d)) ++
  getElementsByClassName d "touchpoint-card".

(** [filtered d]: every paywalled or sponsored card of the current view mode
    is hidden. *)
Definition filtered d : Prop :=
  ∀ card, card ∈ fresh_cards d → flagged d card = true → hidden d card = true.

Lemma cards_of_fresh w : tabsCache (this w) = None → cards_of w = fresh_cards (document w).
Proof.
  intros Hc. unfold cards_of, fresh_cards, contentCards, touchpointCards.
  by rewrite listModeActive_fresh.
Qed.

Lemma querySelector_hide_spec d cards sel :
  ¬ mentions_class "hidden-card" sel →
  querySelector (hide_spec d cards) sel = querySelector d sel.
Proof.
  intros Hsel. apply (modify_all_preserved (λ d, querySelector d sel)).
  intros. apply querySelector_modify. intros. by apply props_match_hide_props.
Qed.

Lemma closest_hide_spec d cards r sel :
  ¬ mentions_class "hidden-card" sel →
  closest (hide_spec d cards) r sel = closest d r sel.
Proof.
  intros Hsel. apply (modify_all_preserved (λ d, closest d r sel)).
  intros. apply closest_modify. intros. by apply props_match_hide_props.
Qed.

Lemma getAttribute_hide_spec d cards r name :
  getAttribute (hide_spec d cards) r name = getAttribute d r name.
Proof.
  apply (modify_all_preserved (λ d, getAttribute d r name)).
  intros. apply getAttribute_modify, attributes_hide_props.
Qed.

Lemma list_tab_selected_hide_spec d cards :
  list_tab_selected (hide_spec d cards) = list_tab_selected d.
Proof.
  unfold list_tab_selected.
  rewrite querySelector_hide_spec by apply testIdSelector_not_hidden.
  destruct (querySelector d _); [|done]. by rewrite getAttribute_hide_spec.
Qed.

Lemma fresh_cards_hide_spec d cards : fresh_cards (hide_spec d cards) = fresh_cards d.
Proof.
  unfold fresh_cards. rewrite list_tab_selected_hide_spec.
  by rewrite !getElementsByClassName_hide_spec
    by (unfold contentClass; try destruct (list_tab_selected _); done).
Qed.

#[export] Instance list_tab_selected_proper : Proper ((≡) ==> (=)) list_tab_selected.
Proof.
  intros d1 d2 Hd. unfold list_tab_selected.
  assert (Hq : ∀ sel, querySelector d1 sel = querySelector d2 sel)
    by (intros; by rewrite Hd).
  assert (Ha : ∀ r n, getAttribute d1 r n = getAttribute d2 r n)
    by (intros; by rewrite Hd).
  rewrite Hq. destruct (querySelector d2 _); [|done]. by rewrite Ha.
Qed.

#[export] Instance fresh_cards_proper : Proper ((≡) ==> (=)) fresh_cards.
Proof.
  intros d1 d2 Hd. unfold fresh_cards.
  by rewrite (list_tab_selected_proper _ _ Hd), Hd.
Qed.

#[export] Instance filtered_proper : Proper ((≡) ==> iff) filtered.
Proof.
  intros d1 d2 Hd. unfold filtered.
  rewrite (fresh_cards_proper _ _ Hd).
  split; intros Hf card Hc Hfl; [rewrite <-Hd|rewrite Hd]; apply Hf; try done;
    by rewrite ?Hd in *.
Qed.

Lemma filtered_hide_spec d : filtered (hide_spec d (fresh_cards d)).
Proof.
  intros card. rewrite fresh_cards_hide_spec, flagged_hide_spec. intros Hc Hf.
  apply hidden_hide_spec; [|done..].
  unfold fresh_cards in Hc. rewrite elem_of_app, !elem_of_getElementsByClassName in Hc.
  tauto.
Qed.

(** On a filtered page the specification has nothing left to do. *)
Lemma hide_spec_filtered d : filtered d → hide_spec d (fresh_cards d) ≡ d.
Proof.
  intros Hf. split_and!; intros; unfold hide_spec;
    autorewrite with dom; try done.
  fold (hide_spec d (fresh_cards d)). rewrite dom_props_hide_spec.
  case_decide as Hr; [|done]. destruct Hr as [Hc Hfl%Is_true_true].
  specialize (Hf r Hc Hfl). unfold hidden, style_get_display, classList_contains in Hf.
  destruct (dom_props d r) as [pr|]; simpl in *; [|done]. f_equal.
  apply andb_true_iff in Hf as [Hdisp%bool_decide_eq_true Hcls%bool_decide_eq_true].
  injection Hdisp as Hdisp. unfold hide_props.
  rewrite add_class_present by done. destruct pr. simpl in *. by subst.
Qed.

(** What [reapplyFilters] does to the page: the specification applied to
    the cards of the view mode the page shows now. *)
Lemma document_exec_reapplyFilters w :
  document (exec reapplyFilters w) ≡ hide_spec (document w) (fresh_cards (document w)).
Proof.
  rewrite exec_reapplyFilters, document_after_hideCards. by rewrite cards_of_fresh.
Qed.

(** After [reapplyFilters] the page is filtered: every paywalled or
    sponsored card of the view mode the page now shows is hidden. *)
Theorem reapplyFilters_filtered w : filtered (document (exec reapplyFilters w)).
Proof. rewrite document_exec_reapplyFilters. apply filtered_hide_spec. Qed.

(** On a page that is already filtered, [reapplyFilters] leaves the
    page as it is: a redundant re-application is harmless. *)
Theorem reapplyFilters_filtered_noop w :
  filtered (document w) → document (exec reapplyFilters w) ≡ document w.
Proof. intros Hf. rewrite document_exec_reapplyFilters. by apply hide_spec_filtered. Qed.

End Reapply.

(** ** The theorems on the pages of [Scenario] *)

Lemma getCards_list_mode_scenario :
  eval getCards scenario = Normal ([[1]; [2]; [3]] ++ [[6]]).
Proof. exact (getCards_list_mode scenario eq_refl eq_refl). Defined.

Lemma getCards_grid_mode_scenario :
  eval getCards scenario_grid = Normal ([[4]; [5]] ++ [[6]]).
Proof. exact (getCards_grid_mode scenario_grid eq_refl eq_refl). Defined.

Lemma reapplyFilters_cache_coherent_scenario :
  tabsCache (this (exec reapplyFilters scenario_stale)) =
    Some (scan_tabs (document (exec reapplyFilters scenario_stale))) ∧
  document (exec reapplyFilters scenario_stale) ≡
    hide_spec (page false) [[4]; [5]; [6]].
Proof. exact (reapplyFilters_cache_coherent scenario_stale). Defined.

Lemma reapplyFilters_filtered_scenario :
  filtered (document (exec reapplyFilters scenario_stale)).
Proof. exact (reapplyFilters_filtered scenario_stale). Defined.

Lemma reapplyFilters_filtered_noop_scenario :
  document (exec reapplyFilters (exec hideCards scenario)) ≡
    document (exec hideCards scenario).
Proof.
  apply (reapplyFilters_filtered_noop (exec hideCards scenario)).
  change (document (exec hideCards scenario))
    with (document (exec reapplyFilters scenario)).
  apply (filtered_proper _ _ (document_exec_reapplyFilters scenario)).
  apply filtered_hide_spec.
Defined.
