(* ===== verification/Report.v ===== *)
(** * Report: the early return, the console and the error handler

    What [hideCards] prints ([hideCards_logs]): the warnings of the scan, the
    two counts of [getCards], and the summary, whose first number counts
    entries of the card array; what it does when there is no card; that it
    cannot tell observationally equal documents apart; and that [init]
    never reaches its [catch] branch. *)

From S2P Require Import Prelude JsString JsMonad Dom SelectorText Console DomTree CardManager Scenario Filter Reapply.

Section Report.
Context `{DomLaws D R}.
Implicit Types (d : D) (r q card : R) (cards rs : list R) (w : World D R).

(** C38. On a page without cards [hideCards] returns early: it prints
    that there is nothing to filter and leaves the page as it is. *)
Theorem hideCards_no_cards w :
  cards_of w = [] →
  exec hideCards w = add_logs [(LevelLog, MsgNoCards)] (after_getCards w) ∧
  document (exec hideCards w) = document w.
Proof.
  intros Hcards. rewrite exec_hideCards. unfold after_hideCards.
  rewrite Hcards, bool_decide_eq_true_2 by done.
  by rewrite document_add_logs, document_after_getCards.
Qed.

(** ** The console *)

(** What one call of [hideCards] prints: the warnings of a tab scan (when
    the cache is empty), the warning of a missing list-mode tab, the two
    counts, and the summary. *)
Definition hideCards_logs w : list LogEntry :=
  (if tabsCache (this w) is None then testIds ≫= scan_warning (document w) else []) ++
  find_warning "List" (tabs_of w) ++
  [(LevelLog, MsgFound (length (contentCards w)) (length (touchpointCards (document w))))] ++
  [(LevelLog,
    if bool_decide (length (cards_of w) = 0) then MsgNoCards
    else MsgHidden (length (to_hide (document w) (cards_of w))) (length (cards_of w)))].

Lemma console_after_tabs w :
  console (after_tabs w) =
    console w ++ (if tabsCache (this w) is None
                  then testIds ≫= scan_warning (document w) else []).
Proof.
  unfold after_tabs. destruct (tabsCache (this w)); simpl; [|done].
  by rewrite app_nil_r.
Qed.

Lemma console_add_logs l w : console (add_logs l w) = console w ++ l.
Proof. done. Qed.

Lemma console_set_document d w : console (set_document d w) = console w.
Proof. done. Qed.

Lemma console_after_hideCards w :
  console (after_hideCards w) = console w ++ hideCards_logs w.
Proof.
  unfold after_hideCards, hideCards_logs.
  destruct (foldl_hide_step_spec (document w) (cards_of w) 0) as [Hn _].
  assert (Hg : console (after_getCards w) =
    console w ++ (if tabsCache (this w) is None
                  then testIds ≫= scan_warning (document w) else []) ++
    find_warning "List" (tabs_of w) ++
    [(LevelLog, MsgFound (length (contentCards w)) (length (touchpointCards (document w))))]).
  { unfold after_getCards. rewrite console_add_logs, console_after_tabs.
    by rewrite <-!app_assoc. }
  case_bool_decide; rewrite console_add_logs, ?console_set_document, Hg, ?Hn;
    by rewrite <-!app_assoc.
Qed.

(** The card array has no duplicates when no content card is sponsored. *)
Lemma NoDup_cards_of w :
  (∀ r, r ∈ contentCards w → r ∉ touchpointCards (document w)) → NoDup (cards_of w).
Proof.
  intros Hdisj. apply NoDup_app. split_and!; [|done|];
    apply NoDup_getElementsByClassName.
Qed.

(** C29. When no content card of the current view is also a sponsored
    card, the first number of the summary is the number of elements the call
    hides: the flagged cards, each counted once. *)
Theorem hideCards_count_exact w :
  cards_of w ≠ [] →
  (∀ r, r ∈ contentCards w → r ∉ touchpointCards (document w)) →
  ∃ hiddenNow : list R,
    NoDup hiddenNow ∧
    (∀ r, r ∈ hiddenNow ↔ r ∈ cards_of w ∧ flagged (document w) r = true) ∧
    last (console (exec hideCards w)) =
      Some (LevelLog, MsgHidden (length hiddenNow) (length (cards_of w))).
Proof.
  intros Hne Hdisj. exists (to_hide (document w) (cards_of w)). split_and!.
  - by apply NoDup_filter, NoDup_cards_of.
  - intros r. unfold to_hide. rewrite list_elem_of_filter, Is_true_true. tauto.
  - rewrite exec_hideCards, console_after_hideCards. unfold hideCards_logs.
    rewrite !app_assoc, last_snoc, bool_decide_eq_false_2; [done|].
    by destruct (cards_of w).
Qed.

Lemma hideCards_logs_no_error w m : (LevelError, m) ∉ hideCards_logs w.
Proof.
  unfold hideCards_logs, find_warning, scan_warning.
  rewrite !elem_of_app. intros [Hw|[Hw|[Hw|Hw]]].
  - destruct (tabsCache (this w)); [by apply elem_of_nil in Hw|].
    apply list_elem_of_bind in Hw as (testId&Hw&_).
    destruct (querySelector _ _); [by apply elem_of_nil in Hw|].
    by apply list_elem_of_singleton in Hw.
  - destruct (find_tab _ _); [by apply elem_of_nil in Hw|].
    by apply list_elem_of_singleton in Hw.
  - by apply list_elem_of_singleton in Hw.
  - by apply list_elem_of_singleton in Hw.
Qed.

(** C25. [hideCards] appends to the console exactly [hideCards_logs],
    nothing of which is at error level: in particular the count it reports
    is the number of entries of the card array that are paywalled or
    sponsored, out of the length of that array. *)
Theorem hideCards_console w :
  console (exec hideCards w) = console w ++ hideCards_logs w ∧
  ∀ m, (LevelError, m) ∉ hideCards_logs w.
Proof.
  split; [|intros m; apply hideCards_logs_no_error].
  rewrite exec_hideCards. apply console_after_hideCards.
Qed.

(** ** The filter respects observational equality *)

Lemma tabs_of_equiv w1 w2 : w1 ≡ w2 → tabs_of w1 = tabs_of w2.
Proof. intros (Hd&Ht&_). unfold tabs_of. by rewrite Ht, (scan_tabs_proper _ _ Hd). Qed.

Lemma cards_of_equiv w1 w2 : w1 ≡ w2 → cards_of w1 = cards_of w2.
Proof.
  intros Hw. pose proof (tabs_of_equiv _ _ Hw) as Ht. destruct Hw as (Hd&_&_).
  unfold cards_of, contentCards, touchpointCards, listModeActive.
  by rewrite Ht, !(getElementsByClassName_proper _ _ Hd _ _ eq_refl).
Qed.

Lemma hideCards_logs_equiv w1 w2 : w1 ≡ w2 → hideCards_logs w1 = hideCards_logs w2.
Proof.
  intros Hw. pose proof (tabs_of_equiv _ _ Hw) as Ht.
  pose proof (cards_of_equiv _ _ Hw) as Hc. destruct Hw as (Hd&Hthis&_).
  assert (Hs : ∀ ids : list string,
    ids ≫= scan_warning (document w1) = ids ≫= scan_warning (document w2)).
  { intros ids. apply list_bind_ext; [|done]. intros testId. unfold scan_warning.
    by rewrite (querySelector_proper _ _ Hd _ _ eq_refl). }
  unfold hideCards_logs, contentCards, touchpointCards, listModeActive.
  rewrite Ht, Hc, Hthis, Hs, (to_hide_proper _ _ Hd _ _ eq_refl).
  by rewrite !(getElementsByClassName_proper _ _ Hd _ _ eq_refl).
Qed.

(** [hideCards] cannot tell two observationally equal pages apart:
    from equivalent worlds it returns the same completion and leaves
    equivalent worlds, with the same cache and the same console. *)
Theorem hideCards_congruence w1 w2 :
  w1 ≡ w2 →
  eval hideCards w1 = eval hideCards w2 ∧ exec hideCards w1 ≡ exec hideCards w2.
Proof.
  intros Hw. split; [unfold eval; by rewrite !hideCards_run|].
  rewrite !exec_hideCards. split_and!.
  - rewrite !document_after_hideCards, (cards_of_equiv _ _ Hw).
    by apply hide_spec_proper; [apply Hw|].
  - by rewrite !this_after_hideCards, (tabs_of_equiv _ _ Hw).
  - rewrite !console_after_hideCards, (hideCards_logs_equiv _ _ Hw).
    destruct Hw as (_&_&Hc). by rewrite Hc.
Qed.

(** C23. [init] never takes its [catch] branch: it returns normally, does
    what [hideCards] does, and prints nothing at error level. *)
Theorem init_never_fails w :
  init w = hideCards w ∧
  eval init w = Normal () ∧
  ∀ m, (LevelError, m) ∈ console (exec init w) → (LevelError, m) ∈ console w.
Proof.
  assert (Hinit : init w = hideCards w) by (by rewrite init_run, hideCards_run).
  split_and!; [done|unfold eval; by rewrite init_run|].
  intros m. unfold exec. rewrite Hinit. fold (exec hideCards w).
  rewrite exec_hideCards, console_after_hideCards, elem_of_app. intros [?|Hm]; [done|].
  by apply hideCards_logs_no_error in Hm.
Qed.

End Report.

(** ** The theorems on the pages of [Scenario] *)

Lemma hideCards_console_scenario :
  console (exec hideCards scenario) =
    [] ++ [(LevelLog, MsgFound 3 1); (LevelLog, MsgHidden 2 4)].
Proof. exact (proj1 (hideCards_console scenario)). Defined.

Lemma init_never_fails_scenario :
  init scenario = hideCards scenario ∧
  eval init scenario = Normal () ∧
  ∀ m, (LevelError, m) ∈ console (exec init scenario) → (LevelError, m) ∈ console scenario.
Proof. exact (init_never_fails scenario). Defined.

Lemma hideCards_no_cards_scenario :
  exec hideCards (fresh page_no_cards) =
    add_logs [(LevelLog, MsgNoCards)] (after_getCards (fresh page_no_cards)) ∧
  document (exec hideCards (fresh page_no_cards)) = page_no_cards.
Proof. exact (hideCards_no_cards (fresh page_no_cards) eq_refl). Defined.

Lemma hideCards_count_exact_scenario :
  ∃ hiddenNow : list Ref,
    NoDup hiddenNow ∧
    (∀ r, r ∈ hiddenNow ↔ r ∈ cards_of scenario ∧ flagged (document scenario) r = true) ∧
    last (console (exec hideCards scenario)) =
      Some (LevelLog, MsgHidden (length hiddenNow) (length (cards_of scenario))).
Proof.
  apply (hideCards_count_exact scenario); [done|].
  apply Forall_forall. by_compute.
Defined.

Lemma hideCards_congruence_scenario :
  eval hideCards scenario = eval hideCards scenario ∧
  exec hideCards scenario ≡ exec hideCards scenario.
Proof. apply (hideCards_congruence scenario scenario). by split_and!. Defined.
