(* ===== verification/Methods.v ===== *)
(** * Methods: the helper methods of the class, branch by branch

    What [hasChildWithClass], [getAllMapToggleTabs], [findTabByMode] and
    [getCards] return and change on each of their branches
    ([src/js/HideMieterPlus.js], lines 30-123): the guard of
    [hasChildWithClass] and what follows it on every pair of values (a
    boolean, the [TypeError] of a parent that is no element, the error of
    a string that is no selector), the cached and the scanning branch of
    [getAllMapToggleTabs] with the shape of a scan, the first-match search of
    [findTabByMode], and [getCards] on a cache it finds.  The theorems are
    stated on the methods themselves; each is then run on a page of
    [Scenario]. *)

From S2P Require Import Prelude JsString JsMonad Dom SelectorText SelectorSound Console DomTree CardManager Scenario Filter Reapply Report.

Section Methods.
Context `{DomLaws D R}.
Implicit Types (w : World D R) (d : D) (tabs : list (Tab R)).

(** ** [hasChildWithClass] *)

Lemma matches_classSelector d q name :
  matches d q (classSelector name) = classList_contains d q name.
Proof.
  unfold matches, classList_contains, classSelector, props_match.
  destruct (dom_props d q); simpl; [apply andb_true_r|done].
Qed.

Lemma matches_two_classes d q c1 c2 :
  matches d q [SelClass c1; SelClass c2] =
    classList_contains d q c1 && classList_contains d q c2.
Proof.
  unfold matches, classList_contains, props_match.
  destruct (dom_props d q); simpl; [by rewrite andb_true_r|done].
Qed.

Lemma elem_querySelector_found d parent sel :
  elem_querySelector d parent sel ≠ None ↔
  ∃ q, q ∈ dom_descendants d parent ∧ matches d q sel = true.
Proof.
  split.
  - destruct (elem_querySelector _ _ _) as [q|] eqn:Hq; [|done]. intros _.
    apply elem_querySelector_Some in Hq. by exists q.
  - intros (q&Hq&Hm). unfold elem_querySelector. rewrite head_None. intros Hnil.
    assert (Hin : q ∈ filter (λ q, matches d q sel) (dom_descendants d parent)).
    { apply list_elem_of_filter. by rewrite Hm. }
    rewrite Hnil in Hin. by apply elem_of_nil in Hin.
Qed.

Lemma classSelector_found d parent name :
  bool_decide (elem_querySelector d parent (classSelector name) ≠ None) = true ↔
  ∃ q, q ∈ dom_descendants d parent ∧ q ∈ dom_nodes d ∧
       classList_contains d q name = true.
Proof.
  rewrite bool_decide_eq_true, elem_querySelector_found.
  setoid_rewrite matches_classSelector. split.
  - intros (q&?&?). exists q. split_and!; eauto with dom.
  - intros (q&?&_&?). by exists q.
Qed.

(** C31. [hasChildWithClass] on any two values, the class name being an
    identifier when it is a string.  The method changes nothing and
    completes in one of three ways.  It returns [true] exactly when the
    parent is an element, the class name is a string, and a proper
    descendant of the parent, an element of the page, carries that class.
    It throws the [TypeError] of calling a method that is not there exactly
    when the class name is a string and the parent is truthy and no
    element.  It returns [false] otherwise: on a falsy parent, on a class
    name that is no string, and on an element without such a descendant. *)
Theorem hasChildWithClass_spec parentElement className w :
  (∀ name, className = JsString name → is_ident name = true) →
  ∃ c : completion bool,
    hasChildWithClass parentElement className w = (c, w) ∧
    (c = Normal true ∨ c = Normal false ∨ c = Throw notAFunctionError) ∧
    (c = Normal true ↔
     ∃ parent name q,
       parentElement = JsElement parent ∧ className = JsString name ∧
       q ∈ dom_descendants (document w) parent ∧
       q ∈ dom_nodes (document w) ∧
       classList_contains (document w) q name = true) ∧
    (c = Throw notAFunctionError ↔
     typeof className = "string" ∧ truthy parentElement = true ∧
     ∀ parent, parentElement ≠ JsElement parent).
Proof.
  intros Hid.
  destruct (decide (truthy parentElement = false ∨ typeof className ≠ "string"))
    as [Hguard|Hpast].
  { exists (Normal false). split; [by apply hasChildWithClass_guard|].
    split; [by auto|]. split; (split; [done|]).
    - intros (?&?&?&->&->&_). by destruct Hguard.
    - intros (?&?&_). destruct Hguard; congruence. }
  assert (truthy parentElement = true ∧ typeof className = "string") as [Htruthy Hty].
  { split; [destruct (truthy parentElement)|destruct (decide (typeof className = "string"))];
      first [done|destruct Hpast; by auto]. }
  apply typeof_string in Hty as [name ->]. specialize (Hid name eq_refl).
  destruct (as_element parentElement) as [parent|] eqn:Hel.
  - apply as_element_Some in Hel as ->. rewrite (hasChildWithClass_run parent name w Hid). eexists. split; [done|].
    split; [by destruct (bool_decide _); auto|]. split.
    + split.
      * intros [= Hb]. apply classSelector_found in Hb as (q&?&?&?).
        by exists parent, name, q.
      * intros (?&?&q&[= <-]&[= <-]&Hq). f_equal. apply classSelector_found.
        by exists q.
    + split; [done|]. intros (_&_&Hp). by destruct (Hp parent).
  - pose proof (proj1 (as_element_None _) Hel) as Hno.
    exists (Throw notAFunctionError).
    split; [by apply hasChildWithClass_no_method|].
    split; [by auto|]. split; (split; [done|]); [|done].
    intros (parent&?&?&->&_). by destruct (Hno parent).
Qed.

(** C32. The class name is pasted into the selector as it is: with a dot
    in it, [hasChildWithClass] looks for a descendant that carries the two
    classes left and right of the dot, not for the class of that name. *)
Theorem hasChildWithClass_dotted parent c1 c2 w :
  is_ident c1 = true →
  is_ident c2 = true →
  ∃ b : bool,
    hasChildWithClass (JsElement parent) (JsString (c1 +:+ "." +:+ c2)) w = (Normal b, w) ∧
    (b = true ↔
     ∃ q, q ∈ dom_descendants (document w) parent ∧
          classList_contains (document w) q c1 = true ∧
          classList_contains (document w) q c2 = true).
Proof.
  intros H1 H2. eexists. split.
  - by apply hasChildWithClass_parsed, parse_classSelectorText_dotted.
  - rewrite bool_decide_eq_true, elem_querySelector_found.
    setoid_rewrite matches_two_classes. by setoid_rewrite andb_true_iff.
Qed.

(** C33. With a class name that is empty or starts with a digit, or that
    is a hyphen followed by nothing or by a digit, the string
    [hasChildWithClass] builds is not a selector: the query throws, and
    nothing has changed. *)
Theorem hasChildWithClass_invalid parent name rest w :
  name = rest ∨ name = "-" +:+ rest →
  rest = EmptyString ∨ starts_with_char is_digit rest = true →
  hasChildWithClass (JsElement parent) (JsString name) w =
    (Throw (SelectorError (classSelectorText name)), w).
Proof.
  intros Hname [Hrest Hhyphen]%ident_head_digit.
  apply hasChildWithClass_throws, parse_classSelectorText_invalid.
  by destruct Hname as [->| ->].
Qed.

(** ** [getAllMapToggleTabs] *)

(** C34. With a cache, [getAllMapToggleTabs] returns the cached array and
    touches nothing: no query, no warning, whatever the page shows now and
    also when the cached array is empty. *)
Theorem getAllMapToggleTabs_cached w tabs :
  tabsCache (this w) = Some tabs →
  getAllMapToggleTabs w = (Normal tabs, w).
Proof.
  intros Hc. rewrite getAllMapToggleTabs_run. unfold tabs_of, after_tabs.
  by rewrite Hc.
Qed.

(** The shape of a scan of any list of test ids. *)
Lemma scan_length d (ids : list string) :
  length (omap (scan_tab d) ids) + length (ids ≫= scan_warning d) = length ids.
Proof.
  induction ids as [|testId ids IH]; [done|].
  cbn [omap list_omap mbind list_bind]. rewrite length_app.
  unfold scan_tab at 1, scan_warning at 1.
  destruct (querySelector d (testIdSelector testId)); simpl in *; lia.
Qed.

Lemma scan_modes d (ids : list string) :
  mode <$> omap (scan_tab d) ids `sublist_of` modeOfTestId <$> ids.
Proof.
  induction ids as [|testId ids IH]; [done|]. cbn [omap list_omap].
  destruct (scan_tab d testId) as [tab|] eqn:Htab.
  - rewrite !fmap_cons, (mode_scan_tab _ _ _ Htab). by apply sublist_skip.
  - rewrite fmap_cons. by apply sublist_cons.
Qed.

Lemma scan_elements d (ids : list string) :
  Forall (λ tab, element tab ∈ dom_nodes d) (omap (scan_tab d) ids).
Proof.
  apply Forall_forall. intros tab (testId&_&Htab)%list_elem_of_omap.
  unfold scan_tab in Htab. destruct (querySelector d _) as [r|] eqn:Hr; simplify_eq/=.
  by apply querySelector_Some in Hr as [? _].
Qed.

Lemma scan_warnings d (ids : list string) :
  Forall (λ e : LogEntry, e.1 = LevelWarn) (ids ≫= scan_warning d).
Proof.
  apply Forall_forall. intros e (testId&He&_)%list_elem_of_bind.
  unfold scan_warning in He. destruct (querySelector d _).
  - by apply elem_of_nil in He.
  - by apply list_elem_of_singleton in He as ->.
Qed.

(** C35. Without a cache, [getAllMapToggleTabs] scans the page: it returns
    and caches one tab object per test id whose marker is on the page, in the
    order List, HybridView, ClassicMap, each holding an element of the page,
    and prints one warning per test id whose marker is missing. *)
Theorem getAllMapToggleTabs_scan w :
  tabsCache (this w) = None →
  ∃ tabs warnings,
    getAllMapToggleTabs w =
      (Normal tabs, set_tabsCache (Some tabs) (add_logs warnings w)) ∧
    length tabs + length warnings = 3 ∧
    mode <$> tabs `sublist_of` ["List"; "HybridView"; "ClassicMap"] ∧
    Forall (λ tab, element tab ∈ dom_nodes (document w)) tabs ∧
    Forall (λ e : LogEntry, e.1 = LevelWarn) warnings.
Proof.
  intros Hc. exists (scan_tabs (document w)), (testIds ≫= scan_warning (document w)).
  split_and!.
  - rewrite getAllMapToggleTabs_run. unfold tabs_of, after_tabs. by rewrite Hc.
  - apply (scan_length _ testIds).
  - rewrite <-modeOfTestId_testIds. apply scan_modes.
  - apply scan_elements.
  - apply scan_warnings.
Qed.

(** C30. [hasChildWithClass] on an element and a string whose literal
    [`.${className}`] is the text of a selector of the fragment the model of
    the query knows.  The method returns, and what it returns says whether a
    proper descendant of the parent matches that selector, which is
    determined by the text and need not be the test for one class; the page,
    the cache and the console are as they were.  Nothing is said of a string
    outside the fragment. *)
Theorem hasChildWithClass_string parent name sel w :
  wf_selector sel = true →
  print_selector sel = classSelectorText name →
  ∃ found : bool,
    hasChildWithClass (JsElement parent) (JsString name) w = (Normal found, w) ∧
    (found = true ↔
     ∃ q, q ∈ dom_descendants (document w) parent ∧ matches (document w) q sel = true).
Proof.
  intros Hwf Hprint. eexists. split.
  - apply hasChildWithClass_parsed. rewrite <-Hprint. by apply parse_print_selector.
  - by rewrite bool_decide_eq_true, elem_querySelector_found.
Qed.

(** ** [findTabByMode] *)

Lemma find_tab_Some m tabs tab :
  find_tab m tabs = Some tab →
  ∃ before after,
    tabs = before ++ tab :: after ∧ mode tab = m ∧
    Forall (λ tab', mode tab' ≠ m) before.
Proof.
  unfold find_tab. destruct (list_find _ tabs) as [[i tab']|] eqn:Hfind; [|done].
  intros [= ->]. apply list_find_Some in Hfind as (Hi&Hm&Hleast).
  exists (take i tabs), (drop (S i) tabs). split_and!; [|done|].
  - by rewrite take_drop_middle.
  - apply Forall_lookup. intros j tab' Hj.
    assert (j < i) by (apply lookup_lt_Some in Hj; rewrite length_take in Hj; lia).
    rewrite lookup_take_lt in Hj by done. by eapply Hleast.
Qed.

Lemma find_tab_None m tabs :
  find_tab m tabs = None → Forall (λ tab, mode tab ≠ m) tabs.
Proof.
  unfold find_tab. destruct (list_find _ tabs) eqn:Hfind; [done|]. intros _.
  by apply list_find_None in Hfind.
Qed.

(** C36. [findTabByMode] returns the first tab of the (cached or scanned)
    array whose mode is the one asked for, and [null] with one warning when
    there is none. *)
Theorem findTabByMode_spec m w :
  ∃ found,
    findTabByMode m w =
      (Normal found,
       add_logs (if found is None then [(LevelWarn, MsgModeNotFound m)] else [])
         (after_tabs w)) ∧
    match found with
    | Some tab =>
        ∃ before after,
          tabs_of w = before ++ tab :: after ∧ mode tab = m ∧
          Forall (λ tab', mode tab' ≠ m) before
    | None => Forall (λ tab, mode tab ≠ m) (tabs_of w)
    end.
Proof.
  exists (find_tab m (tabs_of w)). split; [apply findTabByMode_run|].
  destruct (find_tab m (tabs_of w)) as [tab|] eqn:Hfind.
  - by apply find_tab_Some.
  - by apply find_tab_None.
Qed.

(** ** [getCards] on a cache *)

(** C24. With a cache, [getCards] believes the cache: the container it
    reads is chosen by the cached selection state of the list-mode tab, not
    by the page.  After a tab switch a cache that was not reset makes it
    collect the cards of the view the page no longer shows. *)
Theorem getCards_uses_cache w tabs :
  tabsCache (this w) = Some tabs →
  eval getCards w =
    Normal (getElementsByClassName (document w)
              (contentClass (from_option isSelected false (find_tab "List" tabs))) ++
            getElementsByClassName (document w) "touchpoint-card") ∧
  this (exec getCards w) = this w.
Proof.
  intros Hc. unfold eval, exec. rewrite getCards_run. simpl. split.
  - unfold cards_of, contentCards, touchpointCards, listModeActive, tabs_of.
    by rewrite Hc.
  - unfold after_getCards, after_tabs. by rewrite Hc.
Qed.

End Methods.

(** ** The theorems on the pages of [Scenario] *)

(** The number 1 as the parent: truthy, and no element. *)
Lemma hasChildWithClass_spec_scenario :
  ∃ c : completion bool,
    hasChildWithClass (JsNumber 1) (JsString "paywall-label") scenario = (c, scenario) ∧
    (c = Normal true ∨ c = Normal false ∨ c = Throw notAFunctionError) ∧
    (c = Normal true ↔
     ∃ parent name q,
       JsNumber 1 = JsElement parent ∧
       JsString (Obj:=Ref) "paywall-label" = JsString name ∧
       q ∈ dom_descendants (document scenario) parent ∧
       q ∈ dom_nodes (document scenario) ∧
       classList_contains (document scenario) q name = true) ∧
    (c = Throw notAFunctionError ↔
     typeof (JsString (Obj:=Ref) "paywall-label") = "string" ∧
     truthy (JsNumber (Obj:=Ref) 1) = true ∧
     ∀ parent : Ref, JsNumber 1 ≠ JsElement parent).
Proof.
  apply (hasChildWithClass_spec (JsNumber 1) (JsString "paywall-label") scenario).
  by intros name [= <-].
Defined.

(** The method on the paywalled card [[2]] of the scenario, on the number 1
    and on [null]. *)
Example hasChildWithClass_parents :
  hasChildWithClass (JsElement [2]) (JsString "paywall-label") scenario =
    (Normal true, scenario) ∧
  hasChildWithClass (JsNumber 1) (JsString "paywall-label") scenario =
    (Throw notAFunctionError, scenario) ∧
  hasChildWithClass JsNull (JsString "paywall-label") scenario =
    (Normal false, scenario).
Proof. split_and!; reflexivity. Qed.

(** A class name with an attribute test in it, on the card [[2]] of the
    scenario: the selector is the compound of the class test and the
    attribute test. *)
Lemma hasChildWithClass_string_scenario :
  ∃ found : bool,
    hasChildWithClass (JsElement [2])
      (JsString ("paywall-label[data-x=" +:+ quoted "1" +:+ "]")) scenario =
      (Normal found, scenario) ∧
    (found = true ↔
     ∃ q, q ∈ dom_descendants (document scenario) [2] ∧
          matches (document scenario) q
            [SelClass "paywall-label"; SelAttrEq "data-x" "1"] = true).
Proof.
  exact (hasChildWithClass_string [2] _ [SelClass "paywall-label"; SelAttrEq "data-x" "1"]
           scenario eq_refl eq_refl).
Defined.

(** The card [[2]] has a descendant of class [paywall-label], none that
    also has the attribute [data-x]. *)
Example hasChildWithClass_attribute :
  hasChildWithClass (JsElement [2]) (JsString "paywall-label") scenario = (Normal true, scenario) ∧
  hasChildWithClass (JsElement [2]) (JsString ("paywall-label[data-x=" +:+ quoted "1" +:+ "]"))
    scenario = (Normal false, scenario).
Proof. split; reflexivity. Qed.

Lemma hasChildWithClass_dotted_scenario :
  ∃ b : bool,
    hasChildWithClass (JsElement [2]) (JsString ("paywall" +:+ "." +:+ "label")) scenario =
      (Normal b, scenario) ∧
    (b = true ↔
     ∃ q, q ∈ dom_descendants (document scenario) [2] ∧
          classList_contains (document scenario) q "paywall" = true ∧
          classList_contains (document scenario) q "label" = true).
Proof. exact (hasChildWithClass_dotted [2] "paywall" "label" scenario eq_refl eq_refl). Defined.

Lemma hasChildWithClass_invalid_scenario :
  hasChildWithClass (JsElement [2]) (JsString "-2col") scenario =
    (Throw (SelectorError (classSelectorText "-2col")), scenario).
Proof.
  apply (hasChildWithClass_invalid [2] "-2col" "2col" scenario); by right.
Defined.

(** A class name that starts with a hyphen is an identifier when a letter
    follows: the query is made, and finds no such class on the page. *)
Example hasChildWithClass_hyphen :
  hasChildWithClass (JsElement [2]) (JsString "-paywall") scenario =
    (Normal false, scenario) ∧
  hasChildWithClass (JsElement [2]) (JsString "--x") scenario =
    (Normal false, scenario).
Proof. by split. Qed.

Lemma getAllMapToggleTabs_cached_scenario :
  getAllMapToggleTabs scenario_stale =
    (Normal [mkTab [0; 0] "List" true; mkTab [0; 1] "HybridView" false;
             mkTab [0; 2] "ClassicMap" false], scenario_stale).
Proof. exact (getAllMapToggleTabs_cached scenario_stale _ eq_refl). Defined.

Lemma getAllMapToggleTabs_scan_scenario :
  ∃ tabs warnings,
    getAllMapToggleTabs (fresh page_no_tabs) =
      (Normal tabs, set_tabsCache (Some tabs) (add_logs warnings (fresh page_no_tabs))) ∧
    length tabs + length warnings = 3 ∧
    mode <$> tabs `sublist_of` ["List"; "HybridView"; "ClassicMap"] ∧
    Forall (λ tab, element tab ∈ dom_nodes (document (fresh page_no_tabs))) tabs ∧
    Forall (λ e : LogEntry, e.1 = LevelWarn) warnings.
Proof. exact (getAllMapToggleTabs_scan (fresh page_no_tabs) eq_refl). Defined.

Lemma findTabByMode_spec_scenario :
  ∃ found,
    findTabByMode "Map" scenario =
      (Normal found,
       add_logs (if found is None then [(LevelWarn, MsgModeNotFound "Map")] else [])
         (after_tabs scenario)) ∧
    match found with
    | Some tab =>
        ∃ before after,
          tabs_of scenario = before ++ tab :: after ∧ mode tab = "Map" ∧
          Forall (λ tab', mode tab' ≠ "Map") before
    | None => Forall (λ tab, mode tab ≠ "Map") (tabs_of scenario)
    end.
Proof. exact (findTabByMode_spec "Map" scenario). Defined.

(** The page shows the grid, the cache says the list is selected:
    [getCards] collects the list cards. *)
Lemma getCards_uses_cache_scenario :
  eval getCards scenario_stale = Normal ([[1]; [2]; [3]] ++ [[6]]) ∧
  this (exec getCards scenario_stale) = this scenario_stale.
Proof. exact (getCards_uses_cache scenario_stale _ eq_refl). Defined.
