(* ===== verification/WellFormed.v ===== *)
(** * WellFormed: the shape of the tab cache

    The field [tabsCache] of the manager ([src/js/HideMieterPlus.js], line 7)
    is [null] or an array of tab objects as [getAllMapToggleTabs] builds them
    (lines 55-70).  This file states what such an array looks like, as a
    decidable predicate [wf_world] on the worlds of [CardManager]: the mode
    of every tab is one of the three mode names, no two tabs have the same
    mode, and every tab's element is an element of the page.  It shows that
    a scan produces such an array, that every method of the class keeps the
    cache in that shape, and what the shape gives the callers: the search of
    [findTabByMode] has at most one candidate. *)

From S2P Require Import Prelude JsString JsMonad Dom SelectorText Console DomTree CardManager Scenario Filter Reapply Report Methods.

(** The mode names of the three test ids (line 66 applied to lines 50-52). *)
Definition tab_modes : list string := modeOfTestId <$> testIds.

Section WellFormed.
Context `{DomLaws D R}.
Implicit Types (w : World D R) (d : D) (tab : Tab R) (tabs : list (Tab R))
  (cache : option (list (Tab R))).

(** ** The predicate *)

(** A tab object of the page [d]. *)
Definition wf_tab d tab : Prop :=
  mode tab ∈ tab_modes ∧ element tab ∈ dom_nodes d.

(** An array of tab objects: one tab per mode at most. *)
Definition wf_tabs d tabs : Prop :=
  NoDup (mode <$> tabs) ∧ Forall (wf_tab d) tabs.

(** The field [tabsCache]: [null], or such an array. *)
Definition wf_cache d cache : Prop := from_option (wf_tabs d) True cache.

Definition wf_world w : Prop := wf_cache (document w) (tabsCache (this w)).

(** A computation keeps the cache in shape. *)
Definition preserves_wf {A} (c : Js (World D R) A) : Prop :=
  ∀ w, wf_world w → wf_world (exec c w).

#[export] Instance wf_tab_dec d tab : Decision (wf_tab d tab).
Proof. unfold wf_tab. apply _. Defined.

#[export] Instance wf_tabs_dec d tabs : Decision (wf_tabs d tabs).
Proof. unfold wf_tabs. apply _. Defined.

#[export] Instance wf_cache_dec d cache : Decision (wf_cache d cache).
Proof. destruct cache; simpl; apply _. Defined.

#[export] Instance wf_world_dec w : Decision (wf_world w).
Proof. unfold wf_world. apply _. Defined.

(** ** A scan is well formed *)

Lemma element_scan_tab d testId tab :
  scan_tab d testId = Some tab → element tab ∈ dom_nodes d.
Proof.
  unfold scan_tab. destruct (querySelector d _) as [r|] eqn:Hq; simpl; [|done].
  intros [= <-]. by apply querySelector_Some in Hq as [? _].
Qed.

Lemma scan_tabs_modes_sublist d : mode <$> scan_tabs d `sublist_of` tab_modes.
Proof. apply fmap_omap_sublist, mode_scan_tab. Qed.

Lemma NoDup_tab_modes : NoDup tab_modes.
Proof. by_compute. Qed.

Lemma wf_tabs_scan_tabs d : wf_tabs d (scan_tabs d).
Proof.
  split.
  - eapply sublist_NoDup; [apply NoDup_tab_modes|apply scan_tabs_modes_sublist].
  - apply Forall_forall. intros tab (testId&Hid&Hscan)%list_elem_of_omap. split.
    + rewrite (mode_scan_tab _ _ _ Hscan). by apply list_elem_of_fmap_2.
    + by eapply element_scan_tab.
Qed.

(** ** What keeps the shape *)

Lemma wf_cache_nodes d d' cache :
  dom_nodes d' = dom_nodes d → wf_cache d cache → wf_cache d' cache.
Proof.
  intros Hn. destruct cache as [tabs|]; [|done]. intros [Hnd Hall].
  split; [done|]. eapply Forall_impl; [done|]. intros tab [? ?]. split; [done|].
  by rewrite Hn.
Qed.

Lemma wf_world_add_logs l w : wf_world w → wf_world (add_logs l w).
Proof. done. Qed.

Lemma wf_world_set_document d w :
  dom_nodes d = dom_nodes (document w) → wf_world w → wf_world (set_document d w).
Proof. apply wf_cache_nodes. Qed.

Lemma wf_world_reset w : wf_world (set_tabsCache None w).
Proof. done. Qed.

Lemma wf_world_after_tabs w : wf_world w → wf_world (after_tabs w).
Proof.
  unfold wf_world. rewrite tabsCache_after_tabs, document_after_tabs. unfold tabs_of.
  destruct (tabsCache (this w)); [done|]. intros _. apply wf_tabs_scan_tabs.
Qed.

Lemma wf_world_after_getCards w : wf_world w → wf_world (after_getCards w).
Proof. intros Hw. by apply wf_world_add_logs, wf_world_after_tabs. Qed.

Lemma wf_world_after_hideCards w : wf_world w → wf_world (after_hideCards w).
Proof.
  intros Hw%wf_world_after_tabs. unfold wf_world in *.
  rewrite this_after_hideCards. rewrite tabsCache_after_tabs in Hw. simpl.
  eapply (wf_cache_nodes _ _ (Some _)); [|done].
  by rewrite document_after_hideCards, dom_nodes_hide_spec, document_after_tabs.
Qed.

(** ** What the shape gives *)

Lemma wf_tabs_length d tabs : wf_tabs d tabs → length tabs ≤ 3.
Proof.
  intros [Hnd Hall]. rewrite <-(length_fmap mode).
  apply (submseteq_length _ tab_modes), NoDup_submseteq; [done|].
  intros m (tab&->&Htab)%list_elem_of_fmap.
  by apply (proj1 (Forall_forall _ _) Hall tab Htab).
Qed.

Lemma find_tab_unique tabs tab :
  NoDup (mode <$> tabs) → tab ∈ tabs → find_tab (mode tab) tabs = Some tab.
Proof.
  intros Hnd Htab.
  destruct (find_tab (mode tab) tabs) as [tab'|] eqn:Hfind.
  - f_equal. apply find_tab_Some in Hfind as (before&after&->&Hm&_).
    symmetry. eapply (NoDup_fmap_inj_elem mode); [done..| |done].
    apply elem_of_app. right. left.
  - apply find_tab_None in Hfind.
    by destruct (proj1 (Forall_forall _ _) Hfind tab Htab).
Qed.

(** C17. The cache keeps its shape.  A scan of the page gives a well-formed
    array of tab objects; every method of the class leaves a well-formed
    cache well formed, whatever it returns and whether it throws; and the
    constructor and [reapplyFilters] leave a well-formed cache behind from
    any world, the cache they find being discarded. *)
Theorem methods_preserve_wf :
  (∀ d, wf_tabs d (scan_tabs d)) ∧
  (∀ parentElement className, preserves_wf (hasChildWithClass parentElement className)) ∧
  preserves_wf getAllMapToggleTabs ∧ (∀ m, preserves_wf (findTabByMode m)) ∧
  preserves_wf getCards ∧ preserves_wf hideCards ∧ preserves_wf refreshTabsCache ∧
  preserves_wf init ∧
  (∀ w, wf_world (exec constructor w)) ∧ (∀ w, wf_world (exec reapplyFilters w)).
Proof.
  unfold preserves_wf. split_and!; intros; rewrite ?hasChildWithClass_state;
    unfold exec;
    rewrite ?getAllMapToggleTabs_run, ?findTabByMode_run, ?getCards_run,
      ?hideCards_run, ?init_run, ?constructor_run, ?reapplyFilters_run;
    cbn [snd];
    auto using wf_tabs_scan_tabs, wf_world_after_tabs, wf_world_add_logs,
      wf_world_after_getCards, wf_world_after_hideCards, wf_world_reset.
  apply wf_world_reset.
Qed.

(** C37. In a world with a well-formed cache the search of [findTabByMode]
    has one candidate at most: the method returns a tab exactly when that
    tab is in the array and has the mode asked for, and the array holds three
    tabs at most. *)
Theorem findTabByMode_unique w m tab :
  wf_world w →
  length (tabs_of w) ≤ 3 ∧
  (eval (findTabByMode m) w = Normal (Some tab) ↔ tab ∈ tabs_of w ∧ mode tab = m).
Proof.
  intros Hwf%wf_world_after_tabs. revert Hwf.
  unfold wf_world, eval. rewrite tabsCache_after_tabs, document_after_tabs.
  rewrite findTabByMode_run. cbn [fst]. intros Hwf.
  split; [by eapply wf_tabs_length|]. split.
  - intros [= (before&after&->&Hm&_)%find_tab_Some]. split; [|done].
    apply elem_of_app. right. left.
  - intros [Htab <-]. f_equal. apply find_tab_unique; [apply Hwf|done].
Qed.

End WellFormed.

(** ** The theorems on the pages of [Scenario] *)

(** The scan of the scenario page, [hideCards] on the stale cache and
    [reapplyFilters] on the fresh page. *)
Lemma methods_preserve_wf_scenario :
  wf_tabs (page true) (scan_tabs (page true)) ∧
  wf_world (exec hideCards scenario_stale) ∧
  wf_world (exec reapplyFilters scenario).
Proof.
  destruct (methods_preserve_wf (D:=Element) (R:=Ref))
    as (Hscan&_&_&_&_&Hhide&_&_&_&Hre).
  split_and!; [apply Hscan|apply Hhide; by_compute|apply Hre].
Defined.

Lemma findTabByMode_unique_scenario :
  length (tabs_of scenario) ≤ 3 ∧
  (eval (findTabByMode "HybridView") scenario = Normal (Some (mkTab [0; 1] "HybridView" false)) ↔
   mkTab [0; 1] "HybridView" false ∈ tabs_of scenario ∧
   mode (mkTab [0; 1] "HybridView" false) = "HybridView").
Proof.
  apply (findTabByMode_unique scenario "HybridView" (mkTab [0; 1] "HybridView" false)).
  by_compute.
Defined.

(** The stale cache of the scenario is well formed, the elements of its
    tabs being elements of the new page too. *)
Example scenario_stale_wf : wf_world scenario_stale.
Proof. by_compute. Qed.

(** A cache that names an element the page does not have is not. *)
Example wf_world_dangling :
  ¬ wf_world (set_tabsCache (Some [mkTab [9; 9] "List" true]) scenario).
Proof. by_compute. Qed.
