(* ===== verification/EventLoop.v ===== *)
(** * EventLoop: the top-level script, its listeners and its timers

    The last lines of the script ([src/js/HideMieterPlus.js], 177-199)
    create the one [CardManager], register a click listener on the document
    and one on the pagination landmark, and from then on the script only
    runs when the browser calls a listener or a timer callback.

    - [Browser] is the state the script lives in: the world of [CardManager],
      the clock, the pending timers and the registered listeners.
    - [script] is the top-level code; [onDocumentClick] and
      [onPaginationClick] are the two listeners; [setTimeout] queues the
      only callback the script ever schedules, [reapplyFilters].
    - [step] is the transition relation of the browser around the script: a
      click is dispatched, bubbling up to the document or stopped on its
      way by a listener of the host page, time passes, the oldest due timer
      fires, or the host page re-renders.  [step_fn] is its executable
      form.  A listener
      lives as long as the element it was registered on: a re-render keeps
      the listener on the document, and keeps the one on the pagination
      landmark only when it keeps that element ([rerender]).

    The theorems of this file say what the top-level code does on a page
    with and without the pagination landmark, which clicks schedule a
    re-application, and when a timer runs.  What holds along the runs of the
    browser is in [Runs].  The last section runs each theorem on the scenario
    page. *)

From S2P Require Import Prelude JsString JsMonad Dom SelectorText Console DomTree CardManager Scenario Filter Reapply Report.

(** The callbacks the script passes to [setTimeout]: only
    [() => { cardManager.reapplyFilters(); }] (lines 183-185, 196-198). *)
Inductive Task := ReapplyFilters.

#[export] Instance Task_eq_dec : EqDecision Task.
Proof. solve_decision. Defined.

(** The delay of both timers (lines 185 and 198). *)
Definition delay : nat := 500.

(** The selector of the view-toggle test (line 182) and the selector of
    the pagination landmark (line 190). *)
Definition toggleSelector : Selector := [SelAttrPrefix "data-testid" "mapToggle"].
Definition paginationSelector : Selector :=
  [SelTag "nav"; SelAttrEq "aria-label" "pagination"].
Definition buttonSelector : Selector := [SelTag "button"].

(** The three selectors as the script writes them. *)
Definition toggleSelectorText : string :=
  "[data-testid^=" +:+ quoted "mapToggle" +:+ "]".
Definition paginationSelectorText : string :=
  "nav[aria-label=" +:+ quoted "pagination" +:+ "]".
Definition buttonSelectorText : string := "button".

Lemma selector_literals :
  parse_selector toggleSelectorText = Some toggleSelector ∧
  parse_selector paginationSelectorText = Some paginationSelector ∧
  parse_selector buttonSelectorText = Some buttonSelector.
Proof. by vm_compute. Qed.

(** The exception of [null.addEventListener(...)] (lines 189-191). *)
Definition nullListenerError : Exn :=
  TypeError "Cannot read properties of null (reading 'addEventListener')".

Section EventLoop.
Context `{Dom D R}.

(** ** State *)

Record Browser := mkBrowser {
  world : World D R;              (* the page, the manager, the console *)
  now : nat;                      (* the clock, in ms *)
  timers : list (nat * Task);     (* pending timeouts (due time, callback), oldest first *)
  documentClick : bool;           (* the document's click listener is registered *)
  paginationClick : option R;     (* the element that carries the pagination listener *)
}.

Definition set_world (w : World D R) (b : Browser) : Browser :=
  mkBrowser w (now b) (timers b) (documentClick b) (paginationClick b).
Definition set_now (t : nat) (b : Browser) : Browser :=
  mkBrowser (world b) t (timers b) (documentClick b) (paginationClick b).
Definition set_timers (ts : list (nat * Task)) (b : Browser) : Browser :=
  mkBrowser (world b) (now b) ts (documentClick b) (paginationClick b).
Definition set_documentClick (r : bool) (b : Browser) : Browser :=
  mkBrowser (world b) (now b) (timers b) r (paginationClick b).
Definition set_paginationClick (r : option R) (b : Browser) : Browser :=
  mkBrowser (world b) (now b) (timers b) (documentClick b) r.

(** A method of the manager, run inside the browser. *)
Definition lift {A} (c : Js (World D R) A) : Js Browser A :=
  λ b, ((c (world b)).1, set_world (c (world b)).2 b).

(** ** The script *)

(** [setTimeout(callback, ms)]: the callback is queued behind the timers
    already pending. *)
Definition setTimeout (callback : Task) (ms : nat) : Js Browser unit :=
  modify (λ b, set_timers (timers b ++ [(now b + ms, callback)]) b).

(** The listener of lines 179-187. *)
Definition onDocumentClick (target : R) : Js Browser unit :=
  isToggle ← gets (λ b, matches (document (world b)) target toggleSelector);
  if isToggle : bool then setTimeout ReapplyFilters delay else mret ().

(** The listener of lines 191-199. *)
Definition onPaginationClick (target : R) : Js Browser unit :=
  button ← gets (λ b, closest (document (world b)) target buttonSelector);
  if button is None then mret () else setTimeout ReapplyFilters delay.

(** The top-level code (lines 177-199).  [querySelector] returns [null]
    when the page has no pagination landmark, and the call of
    [addEventListener] on it throws. *)
Definition script : Js Browser unit :=
  lift constructor;;
  modify (set_documentClick true);;
  nav ← gets (λ b, querySelector (document (world b)) paginationSelector);
  match nav with
  | None => throw nullListenerError
  | Some nav => modify (set_paginationClick (Some nav))
  end.

(** The callback of a timer. *)
Definition run_task (t : Task) : Js Browser unit :=
  match t with ReapplyFilters => lift reapplyFilters end.

(** ** The browser around the script *)

(** A click on [target] bubbles from the target to the document: the
    listener on the pagination landmark runs when the landmark is the
    target or one of its ancestors, then the listener on the document. *)
Definition bubbleToPagination (target : R) : Js Browser unit :=
  nav ← gets paginationClick;
  ancestors ← gets (λ b, dom_ancestors (document (world b)) target);
  if nav is Some nav
  then (if bool_decide (nav ∈ ancestors) then onPaginationClick target else mret ())
  else mret ().

Definition bubbleToDocument (target : R) : Js Browser unit :=
  registered ← gets documentClick;
  if registered : bool then onDocumentClick target else mret ().

Definition dispatchClick (target : R) : Js Browser unit :=
  bubbleToPagination target;; bubbleToDocument target.

(** A click on [target] whose propagation a listener of the host page
    stops at [stopped], the target or one of its ancestors: the listeners
    of the elements from the target up to [stopped] run, the listeners
    further up and on the document do not.  The pagination listener runs
    when the landmark is on that part of the way. *)
Definition dispatchStoppedClick (target stopped : R) : Js Browser unit :=
  nav ← gets paginationClick;
  onTheWay ← gets (λ b, from_option
                (λ nav, bool_decide (stopped ∈ dom_ancestors (document (world b)) nav))
                false nav);
  if onTheWay : bool then bubbleToPagination target else mret ().

(** What can happen between two runs of the script's code.  When the host
    page replaces its content, the element that carried the pagination
    listener is kept somewhere in the new content ([landmark] says where) or
    is gone, and its listener with it. *)
Inductive Event :=
| Click (target : R)                     (* the user clicks an element of the page *)
| Advance (ms : nat)                     (* time passes *)
| Fire                                   (* the browser runs the oldest timer, which is due *)
| Render (d : D) (landmark : option R)   (* the host page replaces its content *)
| ClickStopped (target stopped : R).     (* a click the host page stops at [stopped] *)

(** The browser after a re-render: a listener lives as long as its element.
    The listener on [document] stays; the one on the landmark stays when the
    landmark is kept. *)
Definition rerender (d : D) (landmark : option R) (b : Browser) : Browser :=
  set_paginationClick (paginationClick b ≫= λ _, landmark)
    (set_world (set_document d (world b)) b).

(** The state after an event; [Fire] with no due timer does nothing. *)
Definition step_fn (e : Event) (b : Browser) : Browser :=
  match e with
  | Click target => exec (dispatchClick target) b
  | Advance ms => set_now (now b + ms) b
  | Fire =>
      match timers b with
      | (due, task) :: rest =>
          if bool_decide (due ≤ now b)
          then exec (run_task task) (set_timers rest b) else b
      | [] => b
      end
  | Render d landmark => rerender d landmark b
  | ClickStopped target stopped => exec (dispatchStoppedClick target stopped) b
  end.

(** The transition relation: [Fire] needs a due timer, a click needs an
    element of the page, a landmark that is kept is an element of the new
    page, and a click is stopped on its way up from the target. *)
Inductive step : Browser → Event → Browser → Prop :=
| step_click b target :
    target ∈ dom_nodes (document (world b)) →
    step b (Click target) (exec (dispatchClick target) b)
| step_advance b ms :
    step b (Advance ms) (set_now (now b + ms) b)
| step_fire b due task rest :
    timers b = (due, task) :: rest →
    due ≤ now b →
    step b Fire (exec (run_task task) (set_timers rest b))
| step_render b d landmark :
    (∀ nav, landmark = Some nav → nav ∈ dom_nodes d) →
    step b (Render d landmark) (rerender d landmark b)
| step_click_stopped b target stopped :
    target ∈ dom_nodes (document (world b)) →
    stopped ∈ dom_ancestors (document (world b)) target →
    step b (ClickStopped target stopped) (exec (dispatchStoppedClick target stopped) b).

(** A run of the browser from [b]. *)
Inductive steps : Browser → list Event → Browser → Prop :=
| steps_nil b : steps b [] b
| steps_cons b e b' es b'' : step b e b' → steps b' es b'' → steps b (e :: es) b''.

(** The browser when the script is loaded into a page. *)
Definition boot (d : D) : Browser :=
  mkBrowser (mkWorld d (mkCardManager None) []) 0 [] false None.

(** The states the script can be in: the one its top-level code leaves on a
    page, and those a run of the browser leads to from there. *)
Inductive reachable : Browser → Prop :=
| reachable_script d : reachable (exec script (boot d))
| reachable_step b e b' : reachable b → step b e b' → reachable b'.

(** ** What the listeners and the script compute *)

(** The timer either listener queues. *)
Definition reapply_timer (b : Browser) : nat * Task := (now b + delay, ReapplyFilters).

(** The pagination listener is reached by the click and finds a button. *)
Definition pagination_hit (b : Browser) (target : R) : bool :=
  match paginationClick b with
  | Some nav =>
      bool_decide (nav ∈ dom_ancestors (document (world b)) target) &&
      bool_decide (closest (document (world b)) target buttonSelector ≠ None)
  | None => false
  end.

(** The document listener is registered and the target is a view toggle. *)
Definition toggle_hit (b : Browser) (target : R) : bool :=
  documentClick b && matches (document (world b)) target toggleSelector.

(** The timers one click queues: one per listener that reacts, the
    pagination listener first. *)
Definition click_timers (b : Browser) (target : R) : list (nat * Task) :=
  (if pagination_hit b target then [reapply_timer b] else []) ++
  (if toggle_hit b target then [reapply_timer b] else []).

(** The landmark that carries the pagination listener is the element
    [stopped] or below it. *)
Definition landmark_below (b : Browser) (stopped : R) : bool :=
  from_option (λ nav, bool_decide (stopped ∈ dom_ancestors (document (world b)) nav))
    false (paginationClick b).

(** The timers a click queues that is stopped at [stopped]. *)
Definition stopped_click_timers (b : Browser) (target stopped : R) : list (nat * Task) :=
  if landmark_below b stopped && pagination_hit b target then [reapply_timer b] else [].

Lemma set_timers_id b : set_timers (timers b) b = b.
Proof. by destruct b. Qed.

Lemma set_timers_set_timers ts ts' b : set_timers ts (set_timers ts' b) = set_timers ts b.
Proof. done. Qed.

Lemma setTimeout_run task ms b :
  setTimeout task ms b = (Normal (), set_timers (timers b ++ [(now b + ms, task)]) b).
Proof. done. Qed.

Lemma onDocumentClick_run target b :
  onDocumentClick target b =
    (Normal (),
     if matches (document (world b)) target toggleSelector
     then set_timers (timers b ++ [reapply_timer b]) b else b).
Proof. unfold onDocumentClick. run_js. by destruct (matches _ _ _). Qed.

Lemma onPaginationClick_run target b :
  onPaginationClick target b =
    (Normal (),
     if bool_decide (closest (document (world b)) target buttonSelector ≠ None)
     then set_timers (timers b ++ [reapply_timer b]) b else b).
Proof.
  unfold onPaginationClick. run_js.
  by destruct (closest _ _ _) as [button|].
Qed.

Lemma bubbleToPagination_run target b :
  bubbleToPagination target b =
    (Normal (),
     set_timers (timers b ++ if pagination_hit b target then [reapply_timer b] else []) b).
Proof.
  unfold bubbleToPagination, pagination_hit. run_js.
  destruct (paginationClick b) as [nav|]; [|by rewrite run_ret, app_nil_r, set_timers_id].
  case_bool_decide; simpl; [|by rewrite run_ret, app_nil_r, set_timers_id].
  rewrite onPaginationClick_run. case_bool_decide; [done|].
  by rewrite app_nil_r, set_timers_id.
Qed.

Lemma bubbleToDocument_run target b :
  bubbleToDocument target b =
    (Normal (),
     set_timers (timers b ++ if toggle_hit b target then [reapply_timer b] else []) b).
Proof.
  unfold bubbleToDocument, toggle_hit. run_js.
  destruct (documentClick b); simpl; [|by rewrite run_ret, app_nil_r, set_timers_id].
  rewrite onDocumentClick_run. destruct (matches _ _ _); [done|].
  by rewrite app_nil_r, set_timers_id.
Qed.

Lemma dispatchClick_run target b :
  dispatchClick target b =
    (Normal (), set_timers (timers b ++ click_timers b target) b).
Proof.
  unfold dispatchClick, click_timers.
  rewrite run_bind, bubbleToPagination_run, bubbleToDocument_run.
  unfold set_timers. simpl. by rewrite <-app_assoc.
Qed.

Lemma dispatchStoppedClick_run target stopped b :
  dispatchStoppedClick target stopped b =
    (Normal (), set_timers (timers b ++ stopped_click_timers b target stopped) b).
Proof.
  unfold dispatchStoppedClick, stopped_click_timers, landmark_below. run_js.
  destruct (from_option _ _ _); simpl; [apply bubbleToPagination_run|].
  by rewrite run_ret, app_nil_r, set_timers_id.
Qed.

(** The world the constructor leaves on page [d]. *)
Definition booted (d : D) : World D R :=
  after_hideCards (mkWorld d (mkCardManager None) []).

Lemma lift_returns {A} (c : Js (World D R) A) b a w' :
  c (world b) = (Normal a, w') → lift c b = (Normal a, set_world w' b).
Proof. unfold lift. by intros ->. Qed.

Lemma script_run d :
  script (boot d) =
    match querySelector (document (booted d)) paginationSelector with
    | Some nav => (Normal (), mkBrowser (booted d) 0 [] true (Some nav))
    | None => (Throw nullListenerError, mkBrowser (booted d) 0 [] true None)
    end.
Proof.
  unfold script. rewrite run_bind, (lift_returns _ _ _ _ (constructor_run _)).
  run_js. change (after_hideCards (set_tabsCache None _)) with (booted d).
  cbn [world set_documentClick set_world].
  by destruct (querySelector (document (booted d)) paginationSelector).
Qed.

Lemma run_task_run task b :
  run_task task b = (Normal (), set_world (exec reapplyFilters (world b)) b).
Proof.
  destruct task. unfold run_task, exec.
  by rewrite (lift_returns _ _ _ _ (reapplyFilters_run _)), reapplyFilters_run.
Qed.

(** Case analysis on a step, with the state each event leads to computed:
    the principle the invariants of the runs are proved by. *)
Lemma step_computed (P : Browser → Event → Browser → Prop) :
  (∀ b target,
     target ∈ dom_nodes (document (world b)) →
     P b (Click target) (set_timers (timers b ++ click_timers b target) b)) →
  (∀ b ms, P b (Advance ms) (set_now (now b + ms) b)) →
  (∀ b due task rest,
     timers b = (due, task) :: rest →
     due ≤ now b →
     P b Fire (set_world (exec reapplyFilters (world b)) (set_timers rest b))) →
  (∀ b d landmark,
     (∀ nav, landmark = Some nav → nav ∈ dom_nodes d) →
     P b (Render d landmark) (rerender d landmark b)) →
  (∀ b target stopped,
     target ∈ dom_nodes (document (world b)) →
     stopped ∈ dom_ancestors (document (world b)) target →
     P b (ClickStopped target stopped)
       (set_timers (timers b ++ stopped_click_timers b target stopped) b)) →
  ∀ b e b', step b e b' → P b e b'.
Proof.
  intros Hclick Hadvance Hfire Hrender Hstopped b e b'
    [b0 target Ht|b0 ms|b0 due task rest Hts Hdue|b0 d landmark Hl|b0 target stopped Ht Hs].
  - unfold exec. rewrite dispatchClick_run. by apply Hclick.
  - apply Hadvance.
  - unfold exec at 1. rewrite run_task_run. apply (Hfire b0 due task rest Hts Hdue).
  - by apply Hrender.
  - unfold exec. rewrite dispatchStoppedClick_run. by apply Hstopped.
Qed.

(** ** The relation and the function agree *)

Lemma step_step_fn b e b' : step b e b' → b' = step_fn e b.
Proof.
  intros [b0 target Ht|b0 ms|b0 due task rest Hts Hdue|b0 d landmark Hl|b0 target stopped Ht Hs];
    simpl; try done.
  by rewrite Hts, bool_decide_eq_true_2.
Qed.

Lemma step_deterministic b e b1 b2 : step b e b1 → step b e b2 → b1 = b2.
Proof. intros H1%step_step_fn H2%step_step_fn. congruence. Qed.

(** [enabled b e]: the browser can take the event in state [b]. *)
Definition enabled (b : Browser) (e : Event) : Prop :=
  match e with
  | Click target => target ∈ dom_nodes (document (world b))
  | Fire => ∃ due task rest, timers b = (due, task) :: rest ∧ due ≤ now b
  | Advance _ => True
  | Render d landmark => ∀ nav, landmark = Some nav → nav ∈ dom_nodes d
  | ClickStopped target stopped =>
      target ∈ dom_nodes (document (world b)) ∧
      stopped ∈ dom_ancestors (document (world b)) target
  end.

Lemma step_fn_step b e : enabled b e → step b e (step_fn e b).
Proof.
  destruct e as [target|ms| |d landmark|target stopped]; simpl.
  - apply step_click.
  - intros _. apply step_advance.
  - intros (due&task&rest&Hts&Hdue). rewrite Hts, bool_decide_eq_true_2 by done.
    by eapply step_fire.
  - apply step_render.
  - intros [Ht Hs]. by apply step_click_stopped.
Qed.

Lemma step_enabled b e b' : step b e b' → enabled b e.
Proof.
  intros [b0 target Ht|b0 ms|b0 due task rest Hts Hdue|b0 d landmark Hl|b0 target stopped Ht Hs];
    simpl; eauto.
Qed.

(** The step relation and the step function agree: the browser can
    take an event exactly when the event is enabled, and the state it then
    reaches is the one the function computes.  In particular the relation is
    deterministic. *)
Theorem step_iff_step_fn b e b' : step b e b' ↔ enabled b e ∧ b' = step_fn e b.
Proof.
  split.
  - intros Hstep. split; [by eapply step_enabled|by apply step_step_fn].
  - intros [He ->]. by apply step_fn_step.
Qed.

(** ** The step function, event by event *)

Lemma step_fn_Click b target :
  step_fn (Click target) b = set_timers (timers b ++ click_timers b target) b.
Proof. simpl. unfold exec. by rewrite dispatchClick_run. Qed.

Lemma step_fn_ClickStopped b target stopped :
  step_fn (ClickStopped target stopped) b =
    set_timers (timers b ++ stopped_click_timers b target stopped) b.
Proof. simpl. unfold exec. by rewrite dispatchStoppedClick_run. Qed.

Lemma click_timers_replicate b target :
  click_timers b target =
    replicate (Nat.b2n (pagination_hit b target) + Nat.b2n (toggle_hit b target))
      (now b + delay, ReapplyFilters).
Proof.
  unfold click_timers, reapply_timer.
  by destruct (pagination_hit b target), (toggle_hit b target).
Qed.

Lemma stopped_click_timers_replicate b target stopped :
  stopped_click_timers b target stopped =
    replicate (Nat.b2n (landmark_below b stopped && pagination_hit b target))
      (now b + delay, ReapplyFilters).
Proof. unfold stopped_click_timers. by destruct (_ && _). Qed.

Lemma step_fn_Fire_due b due task rest :
  timers b = (due, task) :: rest →
  due ≤ now b →
  step_fn Fire b = set_timers rest (set_world (exec reapplyFilters (world b)) b).
Proof.
  intros Hts Hdue. simpl. rewrite Hts, bool_decide_eq_true_2 by done.
  unfold exec at 1. by rewrite run_task_run.
Qed.

Lemma step_fn_Fire_idle b : timers b = [] → step_fn Fire b = b.
Proof. intros Hts. simpl. by rewrite Hts. Qed.

Lemma step_fn_Fire_early b due task rest :
  timers b = (due, task) :: rest → now b < due → step_fn Fire b = b.
Proof. intros Hts Hdue. simpl. by rewrite Hts, bool_decide_eq_false_2 by lia. Qed.

(** ** The script on a page *)

Context `{!DomLaws D R}.

Lemma document_booted d : document (booted d) ≡ hide_spec d (fresh_cards d).
Proof.
  unfold booted. rewrite document_after_hideCards. by rewrite cards_of_fresh.
Qed.

Lemma querySelector_booted d sel :
  ¬ mentions_class "hidden-card" sel →
  querySelector (document (booted d)) sel = querySelector d sel.
Proof. intros Hsel. by rewrite document_booted, querySelector_hide_spec. Qed.

Lemma paginationSelector_not_hidden : ¬ mentions_class "hidden-card" paginationSelector.
Proof.
  unfold mentions_class, paginationSelector.
  rewrite !elem_of_cons, elem_of_nil. by intros [?|[?|[]]].
Qed.

Lemma buttonSelector_not_hidden : ¬ mentions_class "hidden-card" buttonSelector.
Proof.
  unfold mentions_class, buttonSelector.
  rewrite !elem_of_cons, elem_of_nil. by intros [?|[]].
Qed.

(** C21. On a page without a pagination landmark the script throws a
    [TypeError] at load: the manager has run and the document listener is
    registered, the pagination listener is not. *)
Theorem script_without_pagination d :
  querySelector d paginationSelector = None →
  script (boot d) =
    (Throw nullListenerError, mkBrowser (booted d) 0 [] true None).
Proof.
  intros Hnav. rewrite script_run.
  by rewrite querySelector_booted, Hnav by apply paginationSelector_not_hidden.
Qed.

(** On a page with a pagination landmark the script returns
    normally: the manager has run, nothing is scheduled, and both listeners
    are registered, the second on the first landmark of the page. *)
Theorem script_with_pagination d nav :
  querySelector d paginationSelector = Some nav →
  script (boot d) = (Normal (), mkBrowser (booted d) 0 [] true (Some nav)).
Proof.
  intros Hnav. rewrite script_run.
  by rewrite querySelector_booted, Hnav by apply paginationSelector_not_hidden.
Qed.

(** ** Clicks *)

(** C19. A click changes nothing but the timer queue, to which it appends
    one [reapplyFilters] timer, due 500 ms later, for each listener that
    reacts: the pagination listener when the landmark is on the path from
    the target to the root and the target is inside a [button], the document
    listener when the target itself carries a [data-testid] that starts with
    [mapToggle].  A click the host page stops on its way up never reaches
    the document listener, and reaches the pagination listener only when
    the landmark is not above the element it is stopped at. *)
Theorem click_schedules b target stopped :
  step_fn (Click target) b = set_timers (timers b ++ click_timers b target) b ∧
  click_timers b target =
    replicate (Nat.b2n (pagination_hit b target) + Nat.b2n (toggle_hit b target))
      (now b + delay, ReapplyFilters) ∧
  step_fn (ClickStopped target stopped) b =
    set_timers (timers b ++ stopped_click_timers b target stopped) b ∧
  stopped_click_timers b target stopped =
    replicate (Nat.b2n (landmark_below b stopped && pagination_hit b target))
      (now b + delay, ReapplyFilters).
Proof.
  split_and!; [apply step_fn_Click|apply click_timers_replicate|
    apply step_fn_ClickStopped|apply stopped_click_timers_replicate].
Qed.

(** A click on a [button] element below the pagination landmark
    queues a re-application: the button is its own closest button. *)
Theorem click_on_pagination_button b nav target :
  paginationClick b = Some nav →
  target ∈ dom_nodes (document (world b)) →
  nav ∈ dom_ancestors (document (world b)) target →
  matches (document (world b)) target buttonSelector = true →
  pagination_hit b target = true ∧
  timers (step_fn (Click target) b) =
    timers b ++ reapply_timer b :: (if toggle_hit b target then [reapply_timer b] else []).
Proof.
  intros Hnav Htarget Hanc Hbutton.
  assert (Hhit : pagination_hit b target = true).
  { unfold pagination_hit. rewrite Hnav, (closest_self _ _ _ Htarget Hbutton).
    by rewrite !bool_decide_eq_true_2. }
  split; [done|]. rewrite step_fn_Click. unfold click_timers. by rewrite Hhit.
Qed.

Lemma iter_click b target n :
  Nat.iter n (step_fn (Click target)) b =
    set_timers (timers b ++ mjoin (replicate n (click_timers b target))) b.
Proof.
  induction n as [|n IH]; simpl.
  - by rewrite app_nil_r, set_timers_id.
  - rewrite IH. unfold exec. rewrite dispatchClick_run. simpl.
    unfold set_timers. simpl. f_equal. rewrite <-app_assoc. f_equal.
    change (click_timers _ target) with (click_timers b target).
    clear IH. induction n as [|n IH]; simpl; [by rewrite app_nil_r|].
    by rewrite <-app_assoc, IH.
Qed.

(** C28. Clicks are not coalesced: [n] clicks on a view toggle in a row
    queue [n] timers, each of which will run [reapplyFilters]. *)
Theorem clicks_not_coalesced b target n :
  toggle_hit b target = true →
  pagination_hit b target = false →
  timers (Nat.iter n (step_fn (Click target)) b) =
    timers b ++ replicate n (now b + delay, ReapplyFilters).
Proof.
  intros Ht Hp. rewrite iter_click. simpl. f_equal.
  unfold click_timers. rewrite Ht, Hp. simpl.
  induction n as [|n IH]; simpl; [done|]. by rewrite IH.
Qed.

(** ** Timers *)

(** C20. When the oldest timer is due, firing it removes it from the queue,
    runs [reapplyFilters], and leaves the page filtered. *)
Theorem fire_runs_reapplyFilters b due task rest :
  timers b = (due, task) :: rest →
  due ≤ now b →
  step_fn Fire b = set_timers rest (set_world (exec reapplyFilters (world b)) b) ∧
  filtered (document (world (step_fn Fire b))).
Proof.
  intros Hts Hdue. rewrite (step_fn_Fire_due _ _ _ _ Hts Hdue). split; [done|].
  cbn [world set_timers set_world].
  rewrite document_exec_reapplyFilters. apply filtered_hide_spec.
Qed.

(** A timer never runs before its delay has passed: while the oldest
    timer is not due, [Fire] is not enabled and changes nothing. *)
Theorem fire_waits b due task rest :
  timers b = (due, task) :: rest →
  now b < due →
  step_fn Fire b = b ∧ ¬ enabled b Fire.
Proof.
  intros Hts Hdue. split.
  - by eapply step_fn_Fire_early.
  - intros (due'&task'&rest'&Hts'&Hdue'). rewrite Hts in Hts'. simplify_eq. lia.
Qed.

End EventLoop.

Arguments Browser D R : clear implicits.
Arguments Event D R : clear implicits.

(** ** The theorems on the pages of [Scenario] *)

(** The browser after the script was loaded into the scenario page, the
    first tab ([0;0]) clicked, and the delay passed. *)
Definition loaded : Browser Element Ref := exec script (boot (page true)).

Definition clicked : Browser Element Ref := step_fn (Click [0; 0]) loaded.

Definition waited : Browser Element Ref := step_fn (Advance delay) clicked.

Lemma loaded_unfold : exec script (boot (page true)) = loaded.
Proof. unfold loaded. reflexivity. Qed.

Lemma loaded_reachable : reachable loaded.
Proof. apply reachable_script. Defined.

Lemma clicked_step : step loaded (Click [0; 0]) clicked.
Proof. apply step_click. by_compute. Defined.

Lemma waited_due : timers waited = [(500, ReapplyFilters)] ∧ 500 ≤ now waited.
Proof. split; [reflexivity|]. vm_compute. lia. Defined.

Lemma step_iff_step_fn_scenario :
  step loaded (Click [0; 0]) clicked ↔
  enabled loaded (Click [0; 0]) ∧ clicked = step_fn (Click [0; 0]) loaded.
Proof. exact (step_iff_step_fn loaded (Click [0; 0]) clicked). Defined.

Lemma click_on_pagination_button_scenario :
  pagination_hit loaded [7; 1] = true ∧
  timers (step_fn (Click [7; 1]) loaded) =
    timers loaded ++ reapply_timer loaded ::
      (if toggle_hit loaded [7; 1] then [reapply_timer loaded] else []).
Proof.
  apply (click_on_pagination_button loaded [7] [7; 1]); [reflexivity|..|reflexivity];
    by_compute.
Defined.

Lemma script_without_pagination_scenario :
  script (boot page_no_pagination) =
    (Throw nullListenerError, mkBrowser (booted page_no_pagination) 0 [] true None).
Proof. exact (script_without_pagination page_no_pagination eq_refl). Defined.

Lemma script_with_pagination_scenario :
  script (boot (page true)) = (Normal (), mkBrowser (booted (page true)) 0 [] true (Some [7])).
Proof. exact (script_with_pagination (page true) [7] eq_refl). Defined.

Lemma clicks_not_coalesced_scenario :
  timers (Nat.iter 3 (step_fn (Click [0; 0])) loaded) =
    timers loaded ++ replicate 3 (now loaded + delay, ReapplyFilters).
Proof. exact (clicks_not_coalesced loaded [0; 0] 3 eq_refl eq_refl). Defined.

Lemma fire_runs_reapplyFilters_scenario :
  step_fn Fire waited = set_timers [] (set_world (exec reapplyFilters (world waited)) waited) ∧
  filtered (document (world (step_fn Fire waited))).
Proof.
  exact (fire_runs_reapplyFilters waited 500 ReapplyFilters []
           (proj1 waited_due) (proj2 waited_due)).
Defined.

Lemma fire_waits_scenario : step_fn Fire clicked = clicked ∧ ¬ enabled clicked Fire.
Proof.
  apply (fire_waits clicked 500 ReapplyFilters []); [reflexivity|].
  vm_compute. lia.
Defined.

(** ** What the listeners react to, and when the delay is too short *)

(** A click on the icon inside a pagination button reaches the pagination
    listener, which looks for the closest button. *)
Example click_on_pagination_icon :
  click_timers loaded [7; 0; 0] = [(500, ReapplyFilters)].
Proof. reflexivity. Qed.

(** The button the pagination listener looks for need not be inside the
    landmark: a click on a page number inside a landmark that has no button
    queues a re-application when the landmark itself stands in a button. *)
Example click_in_nav_inside_button :
  click_timers (exec script (boot page_nav_in_button)) [1; 0; 0] = [(500, ReapplyFilters)].
Proof. reflexivity. Qed.

(** A click on the icon inside a view toggle queues nothing: the document
    listener tests the target itself.  A click on the toggle does. *)
Example click_on_tab_icon :
  click_timers (exec script (boot page_tab_icon)) [0; 0; 0] = [] ∧
  click_timers (exec script (boot page_tab_icon)) [0; 0] = [(500, ReapplyFilters)].
Proof. split; reflexivity. Qed.

(** A click on the list tab that the host page stops at the tab's own
    navigation queues nothing: it never reaches the document.  A click on
    a pagination button stopped at the button does not reach the landmark
    either; stopped at the landmark it does. *)
Example clicks_stopped :
  timers (step_fn (ClickStopped [0; 0] [0]) loaded) = [] ∧
  timers (step_fn (ClickStopped [7; 0] [7; 0]) loaded) = [] ∧
  timers (step_fn (ClickStopped [7; 0] [7]) loaded) = [(500, ReapplyFilters)].
Proof. split_and!; reflexivity. Qed.
