(* ===== verification/Runs.v ===== *)
(** * Runs: the script along the runs of the browser

    What holds in every state the script can reach and along every run of
    the event loop of [EventLoop]: the invariants of the reachable states
    (the timers are in firing order, the cache is a complete scan, the
    console holds no error, the pagination listener sits on an element of
    the page), each established by the load ([*_loaded]) and kept by every
    step ([*_step]), and together the inductive invariant [script_inv];
    that hidden elements stay hidden; that a click on a view toggle is
    followed, once the delay has passed, by a filtered page; that the
    pagination listener is lost when the host page drops the landmark; that
    the page stays as the filter left it while the host page does not
    re-render; and that the timer callbacks terminate and the script comes
    to rest.  Each invariant is proved once per event, by [step_cases].  The
    last section runs each theorem on the scenario page. *)

From stdpp Require Import sorting relations.
From S2P Require Import Prelude JsString JsMonad Dom SelectorText Console DomTree CardManager Scenario Filter Reapply Report EventLoop.

(** [step_cases] proves a goal [∀ b e b', step b e b' → Q b e b'] event by
    event, by [step_computed]. *)
Ltac step_cases :=
  lazymatch goal with
  | |- ∀ b e b', step b e b' → @?Q b e b' =>
      refine (step_computed Q _ _ _ _ _); cbv beta
  end.

Section Runs.
Context `{DomLaws D R}.
Implicit Types (b : Browser D R) (e : Event D R) (d : D).

(** ** Invariants of the reachable states *)

(** A property that holds when the script has loaded, on every page, and
    that every step keeps, holds in every reachable state. *)
Lemma reachable_inv (P : Browser D R → Prop) :
  (∀ d, P (exec script (boot d))) →
  (∀ b e b', step b e b' → P b → P b') →
  ∀ b, reachable b → P b.
Proof. intros Hload Hstep b. induction 1; eauto. Qed.

(** The state the script leaves on a page. *)
Lemma exec_script_boot d :
  exec script (boot d) =
    mkBrowser (booted d) 0 [] true (querySelector (document (booted d)) paginationSelector).
Proof. unfold exec. rewrite script_run. by destruct (querySelector _ _). Qed.

(** The timers are in firing order and none is due later than one delay
    from now. *)
Definition timers_ok (b : Browser D R) : Prop :=
  StronglySorted (λ t1 t2 : nat * Task, t1.1 ≤ t2.1) (timers b) ∧
  Forall (λ t : nat * Task, t.1 ≤ now b + delay) (timers b).

Lemma timers_ok_boot w nav : timers_ok (mkBrowser w 0 [] true nav).
Proof. split; simpl; constructor. Qed.

Lemma StronglySorted_app_replicate (ts : list (nat * Task)) n t bound :
  StronglySorted (λ t1 t2 : nat * Task, t1.1 ≤ t2.1) ts →
  Forall (λ t' : nat * Task, t'.1 ≤ bound) ts →
  t.1 = bound →
  StronglySorted (λ t1 t2 : nat * Task, t1.1 ≤ t2.1) (ts ++ replicate n t).
Proof.
  intros Hs Hb Ht. induction Hs as [|t' ts Hts IH Hall]; simpl.
  - induction n as [|n IHn]; simpl; constructor; [done|].
    apply Forall_replicate. lia.
  - apply Forall_cons in Hb as [Hb1 Hb]. constructor; [by apply IH|].
    apply Forall_app. split; [done|]. apply Forall_replicate. lia.
Qed.

Lemma timers_ok_loaded d : timers_ok (exec script (boot d)).
Proof. rewrite exec_script_boot. apply timers_ok_boot. Qed.

(** New timers, due one delay from now, keep the queue in order. *)
Lemma timers_ok_replicate b n :
  timers_ok b →
  timers_ok (set_timers (timers b ++ replicate n (now b + delay, ReapplyFilters)) b).
Proof.
  intros [Hs Hb]. split; simpl.
  - by apply (StronglySorted_app_replicate _ _ _ (now b + delay)).
  - apply Forall_app. split; [done|]. by apply Forall_replicate.
Qed.

Lemma timers_ok_step b e b' : step b e b' → timers_ok b → timers_ok b'.
Proof.
  revert b e b'. step_cases; try done.
  - intros b target _. rewrite click_timers_replicate. apply timers_ok_replicate.
  - intros b ms [Hs Hb]. split; simpl; [done|].
    eapply Forall_impl; [done|]. simpl. intros. lia.
  - intros b due task rest Hts _ [Hs Hb]. rewrite Hts in Hs, Hb. split; simpl.
    + by apply StronglySorted_inv in Hs as [? _].
    + by apply Forall_cons in Hb as [_ ?].
  - intros b target stopped _ _. rewrite stopped_click_timers_replicate.
    apply timers_ok_replicate.
Qed.

(** In every reachable state the pending timers are sorted by due
    time, so that the oldest timer is also the first to be due, and no timer
    is due later than 500 ms from now. *)
Theorem reachable_timers_ok b : reachable b → timers_ok b.
Proof.
  revert b. apply (reachable_inv timers_ok); [apply timers_ok_loaded|apply timers_ok_step].
Qed.

(** The cache holds a complete scan of the tab markers of some page. *)
Definition cache_complete (b : Browser D R) : Prop :=
  ∃ d : D, tabsCache (this (world b)) = Some (scan_tabs d).

Lemma cache_complete_loaded d : cache_complete (exec script (boot d)).
Proof.
  exists d. rewrite exec_script_boot. simpl. unfold booted.
  by rewrite this_after_hideCards.
Qed.

Lemma cache_complete_step b e b' : step b e b' → cache_complete b → cache_complete b'.
Proof.
  revert b e b'. step_cases; try done.
  intros b due task rest _ _ _. exists (document (world b)). simpl.
  by rewrite exec_reapplyFilters, this_after_hideCards.
Qed.

(** In every reachable state the cache holds a complete scan of the
    three tab markers of some page the script has seen: it is never absent
    and never partially filled. *)
Theorem reachable_cache_complete b :
  reachable b → ∃ d : D, tabsCache (this (world b)) = Some (scan_tabs d).
Proof.
  revert b. apply (reachable_inv cache_complete); [apply cache_complete_loaded|apply cache_complete_step].
Qed.

Lemma console_exec_reapplyFilters (w : World D R) :
  console (exec reapplyFilters w) = console w ++ hideCards_logs (set_tabsCache None w).
Proof. by rewrite exec_reapplyFilters, console_after_hideCards. Qed.

(** The document listener is registered and the console holds no error. *)
Definition no_error (b : Browser D R) : Prop :=
  documentClick b = true ∧ ∀ m, (LevelError, m) ∉ console (world b).

Lemma no_error_loaded d : no_error (exec script (boot d)).
Proof.
  rewrite exec_script_boot. split; [done|]. intros m. simpl. unfold booted.
  rewrite console_after_hideCards. simpl. apply hideCards_logs_no_error.
Qed.

Lemma no_error_step b e b' : step b e b' → no_error b → no_error b'.
Proof.
  revert b e b'. step_cases; try done.
  intros b due task rest _ _ [Hd Hc]. split; [done|]. simpl.
  intros m. rewrite console_exec_reapplyFilters, elem_of_app.
  intros [?|?%hideCards_logs_no_error]; [by eapply Hc|done].
Qed.

(** Nothing the script does fails: in every reachable state the
    document listener is registered and the console holds no entry at error
    level. *)
Theorem reachable_no_error b :
  reachable b → documentClick b = true ∧ ∀ m, (LevelError, m) ∉ console (world b).
Proof.
  revert b. apply (reachable_inv no_error); [apply no_error_loaded|apply no_error_step].
Qed.

(** C27. The script never shows a card again: along any step that is not a
    re-render of the host page, a hidden element stays hidden. *)
Theorem step_hidden_mono b e b' r :
  step b e b' →
  (∀ d landmark, e ≠ Render d landmark) →
  hidden (document (world b)) r = true →
  hidden (document (world b')) r = true.
Proof.
  revert b e b'. step_cases; try done.
  - intros b due task rest _ _ _ Hr. simpl.
    rewrite document_exec_reapplyFilters. by apply hidden_mono_hide_spec.
  - intros b d landmark _ He. by destruct (He d landmark).
Qed.

(** ** From a click to a filtered page *)

(** Firing every pending timer, oldest first. *)
Definition fire_all (b : Browser D R) : Browser D R :=
  Nat.iter (length (timers b)) (step_fn Fire) b.

Lemma document_step_fn_Fire b due task rest :
  timers b = (due, task) :: rest →
  due ≤ now b →
  document (world (step_fn Fire b)) ≡
    hide_spec (document (world b)) (fresh_cards (document (world b))).
Proof.
  intros Hts Hdue. rewrite (step_fn_Fire_due _ _ _ _ Hts Hdue).
  cbn [world set_timers set_world]. apply document_exec_reapplyFilters.
Qed.

(** Firing due timers on a filtered page changes nothing but the queue. *)
Lemma iter_fire_filtered (ts : list (nat * Task)) b :
  timers b = ts →
  Forall (λ t : nat * Task, t.1 ≤ now b) ts →
  filtered (document (world b)) →
  timers (Nat.iter (length ts) (step_fn Fire) b) = [] ∧
  document (world (Nat.iter (length ts) (step_fn Fire) b)) ≡ document (world b).
Proof.
  revert b. induction ts as [|[due task] ts IH]; intros b Hts Hdue Hf; [done|].
  apply Forall_cons in Hdue as [Hd Hdue]. simpl in Hd.
  pose proof (step_fn_Fire_due _ _ _ _ Hts Hd) as Hfire.
  pose proof (document_step_fn_Fire _ _ _ _ Hts Hd) as Hdoc.
  rewrite hide_spec_filtered in Hdoc by done.
  cbn [length]. rewrite Nat.iter_succ_r.
  destruct (IH (step_fn Fire b)) as [Hnil Hsame].
  { by rewrite Hfire. }
  { by rewrite Hfire. }
  { by rewrite Hdoc. }
  split; [done|]. by rewrite Hsame.
Qed.

(** Firing a non-empty queue of due timers filters the page as it is when
    the first of them fires. *)
Lemma iter_fire_due (ts : list (nat * Task)) b :
  timers b = ts →
  ts ≠ [] →
  Forall (λ t : nat * Task, t.1 ≤ now b) ts →
  timers (Nat.iter (length ts) (step_fn Fire) b) = [] ∧
  document (world (Nat.iter (length ts) (step_fn Fire) b)) ≡
    hide_spec (document (world b)) (fresh_cards (document (world b))).
Proof.
  intros Hts Hne Hdue. destruct ts as [|[due task] ts]; [done|].
  apply Forall_cons in Hdue as [Hd Hdue]. simpl in Hd.
  pose proof (step_fn_Fire_due _ _ _ _ Hts Hd) as Hfire.
  pose proof (document_step_fn_Fire _ _ _ _ Hts Hd) as Hdoc.
  cbn [length]. rewrite Nat.iter_succ_r.
  destruct (iter_fire_filtered ts (step_fn Fire b)) as [Hnil Hsame].
  { by rewrite Hfire. }
  { by rewrite Hfire. }
  { rewrite Hdoc. apply filtered_hide_spec. }
  split; [done|]. by rewrite Hsame.
Qed.

(** C13. A click on a view toggle is followed by a filtered page.  Let the
    host page re-render to any document [d] after the click, the pagination
    navigation kept or not; once the delay has passed and the pending timers
    have fired, no timer is left and the page is [d] with every paywalled or
    sponsored card of the view [d] shows hidden, whatever was cached before
    the click. *)
Theorem click_render_wait b target d landmark :
  timers_ok b →
  toggle_hit b target = true →
  let b' := fire_all (step_fn (Advance delay)
              (step_fn (Render d landmark) (step_fn (Click target) b))) in
  timers b' = [] ∧
  document (world b') ≡ hide_spec d (fresh_cards d) ∧
  filtered (document (world b')).
Proof.
  intros [_ Hb] Ht.
  pose proof (step_fn_Click b target) as Hc.
  pose proof (click_timers_replicate b target) as Hn.
  set (b1 := step_fn (Advance delay) (step_fn (Render d landmark) (step_fn (Click target) b))).
  assert (Hts : timers b1 = timers b ++ click_timers b target)
    by (unfold b1; by rewrite Hc).
  assert (Hnow : now b1 = now b + delay) by (unfold b1; by rewrite Hc).
  assert (Hdoc : document (world b1) = d) by done.
  destruct (iter_fire_due (timers b1) b1 eq_refl) as [Hnil Hf].
  { rewrite Hts, Hn, Ht. destruct (timers b), (pagination_hit b target); done. }
  { rewrite Hts, Hnow, Hn. apply Forall_app. split; [done|]. by apply Forall_replicate. }
  rewrite Hdoc in Hf. simpl. split_and!; [done..|].
  unfold fire_all. rewrite Hf. apply filtered_hide_spec.
Qed.

(** ** Runs *)

(** The state [es] leads to, by the step function. *)
Definition run_events (es : list (Event D R)) (b : Browser D R) : Browser D R :=
  foldl (λ b e, step_fn e b) b es.

Lemma steps_run_events b es b' : steps b es b' → b' = run_events es b.
Proof.
  induction 1 as [b|b e b1 es b2 Hstep _ IH]; [done|].
  simpl. by rewrite <-(step_step_fn _ _ _ Hstep).
Qed.

Lemma steps_app b es1 b1 es2 b2 :
  steps b es1 b1 → steps b1 es2 b2 → steps b (es1 ++ es2) b2.
Proof.
  induction 1 as [b|b e b' es b'' Hstep _ IH]; [done|].
  intros H2. simpl. eapply steps_cons; [done|]. by apply IH.
Qed.

Lemma reachable_steps b es b' : reachable b → steps b es b' → reachable b'.
Proof.
  intros Hb Hsteps. induction Hsteps as [b|b e b1 es b2 Hstep _ IH]; [done|].
  apply IH. by eapply reachable_step.
Qed.

(** From every reachable state with an empty queue the run of a
    click on a view toggle, the wait of 500 ms and the firing of the timer
    exists: each of the three events is enabled when its turn comes, and the
    run ends in a reachable state with an empty queue and a filtered page. *)
Theorem click_wait_fire_run b target :
  reachable b →
  timers b = [] →
  target ∈ dom_nodes (document (world b)) →
  toggle_hit b target = true →
  pagination_hit b target = false →
  ∃ b', steps b [Click target; Advance delay; Fire] b' ∧
        reachable b' ∧ timers b' = [] ∧ filtered (document (world b')).
Proof.
  intros Hb Hts Htarget Ht Hp.
  set (b1 := step_fn (Click target) b). set (b2 := step_fn (Advance delay) b1).
  assert (Hts1 : timers b1 = [(now b + delay, ReapplyFilters)]).
  { unfold b1. rewrite step_fn_Click. unfold click_timers. by rewrite Hts, Ht, Hp. }
  assert (Hen : enabled b2 Fire).
  { exists (now b + delay), ReapplyFilters, []. split; [done|].
    unfold b2, b1. by rewrite step_fn_Click. }
  assert (Hsteps : steps b [Click target; Advance delay; Fire] (step_fn Fire b2)).
  { eapply steps_cons; [by apply (step_fn_step b (Click target))|].
    eapply steps_cons; [by apply (step_fn_step b1 (Advance delay))|].
    eapply steps_cons; [by apply step_fn_step|]. apply steps_nil. }
  exists (step_fn Fire b2). split_and!; [done|by eapply reachable_steps| |].
  - by rewrite (step_fn_Fire_due b2 _ _ [] Hts1) by (unfold b2, b1; by rewrite step_fn_Click).
  - rewrite (document_step_fn_Fire b2 _ _ [] Hts1)
      by (unfold b2, b1; by rewrite step_fn_Click).
    apply filtered_hide_spec.
Qed.

(** ** The pagination listener and the re-render *)

(** The element that carries the pagination listener is on the page. *)
Definition listener_ok (b : Browser D R) : Prop :=
  ∀ nav, paginationClick b = Some nav → nav ∈ dom_nodes (document (world b)).

Lemma dom_nodes_exec_reapplyFilters (w : World D R) :
  dom_nodes (document (exec reapplyFilters w)) = dom_nodes (document w).
Proof. by rewrite document_exec_reapplyFilters, dom_nodes_hide_spec. Qed.

Lemma listener_ok_loaded d : listener_ok (exec script (boot d)).
Proof.
  rewrite exec_script_boot. intros nav Hq. simpl in Hq.
  apply querySelector_Some in Hq as [Hnav _]. revert Hnav. simpl. unfold booted.
  by rewrite document_after_hideCards, dom_nodes_hide_spec.
Qed.

Lemma listener_ok_step b e b' : step b e b' → listener_ok b → listener_ok b'.
Proof.
  revert b e b'. step_cases; try done.
  - intros b due task rest _ _ Hok nav Hnav. simpl.
    rewrite dom_nodes_exec_reapplyFilters. by apply Hok.
  - intros b d landmark Hl _ nav. simpl.
    destruct (paginationClick b); simpl; [apply Hl|done].
Qed.

(** In every reachable state the pagination listener, when it is
    registered, sits on an element of the page shown. *)
Theorem reachable_listener_ok b : reachable b → listener_ok b.
Proof.
  revert b. apply (reachable_inv listener_ok); [apply listener_ok_loaded|apply listener_ok_step].
Qed.

(** ** The invariant of the running script *)

(** The four properties together. *)
Definition script_inv b : Prop :=
  timers_ok b ∧ cache_complete b ∧ no_error b ∧ listener_ok b.

(** C26. The running script has an inductive invariant.  When the script has
    loaded, on whatever page and also when its last statement threw, and
    after every step from a state of which this holds, whether the script
    can reach that state or not: the pending timers are sorted by due time
    and none is due later than 500 ms from now; the cache holds a complete
    scan of the three tab markers of some page; the document listener is
    registered and the console holds no entry at error level; and the
    pagination listener, when registered, sits on an element of the page
    shown.  So all of this holds in every reachable state. *)
Theorem reachable_invariant :
  (∀ d, script_inv (exec script (boot d))) ∧
  (∀ b e b', step b e b' → script_inv b → script_inv b') ∧
  (∀ b, reachable b → script_inv b).
Proof.
  assert (Hload : ∀ d, script_inv (exec script (boot d))).
  { intros d. unfold script_inv.
    auto using timers_ok_loaded, cache_complete_loaded, no_error_loaded,
      listener_ok_loaded. }
  assert (Hstep : ∀ b e b', step b e b' → script_inv b → script_inv b').
  { intros b e b' Hs (?&?&?&?). unfold script_inv.
    eauto 10 using timers_ok_step, cache_complete_step, no_error_step, listener_ok_step. }
  split_and!; [done..|]. by apply (reachable_inv script_inv).
Qed.

Lemma paginationClick_None_step b e b' :
  step b e b' → paginationClick b = None → paginationClick b' = None.
Proof.
  revert b e b'. step_cases; try done.
  intros b d landmark _ Hnone. simpl. by rewrite Hnone.
Qed.

Lemma paginationClick_None_steps b es b' :
  steps b es b' → paginationClick b = None → paginationClick b' = None.
Proof.
  induction 1 as [b|b e b1 es b2 Hstep _ IH]; [done|].
  intros Hnone. by eapply IH, paginationClick_None_step.
Qed.

Lemma paginationClick_rerender_None b d : paginationClick (rerender d None b) = None.
Proof. simpl. by destruct (paginationClick b). Qed.

(** C18. A listener lives and dies with its element.  Once the host page has
    re-rendered without keeping the pagination landmark, no later event
    brings the pagination listener back: a click on a pagination button
    queues nothing, and only view toggles still re-apply the filter. *)
Theorem render_drops_pagination_listener b d es b' :
  steps (step_fn (Render d None) b) es b' →
  paginationClick b' = None ∧
  ∀ target, click_timers b' target =
              if toggle_hit b' target then [reapply_timer b'] else [].
Proof.
  intros Hsteps.
  assert (Hnone : paginationClick b' = None).
  { eapply paginationClick_None_steps; [done|]. apply paginationClick_rerender_None. }
  split; [done|]. intros target. unfold click_timers, pagination_hit.
  by rewrite Hnone.
Qed.

(** On a page without pagination landmark the same holds from the start. *)
Lemma no_landmark_no_listener d es b :
  querySelector d paginationSelector = None →
  steps (exec script (boot d)) es b →
  paginationClick b = None.
Proof.
  intros Hq Hsteps. eapply paginationClick_None_steps; [done|].
  unfold exec. rewrite script_run, querySelector_booted, Hq; [done|].
  apply paginationSelector_not_hidden.
Qed.

(** ** Runs without re-render *)

Definition is_render (e : Event D R) : bool :=
  if e is Render _ _ then true else false.

Lemma stable_step d0 b e b' :
  step b e b' →
  is_render e = false →
  document (world b) ≡ hide_spec d0 (fresh_cards d0) →
  document (world b') ≡ hide_spec d0 (fresh_cards d0).
Proof.
  revert b e b'. step_cases; try done.
  intros b due task rest _ _ _ Hdoc. simpl.
  rewrite document_exec_reapplyFilters. rewrite hide_spec_filtered; [done|].
  rewrite Hdoc. apply filtered_hide_spec.
Qed.

(** The page the load leaves, also when the load throws. *)
Lemma document_exec_script d :
  document (world (exec script (boot d))) ≡ hide_spec d (fresh_cards d).
Proof. rewrite exec_script_boot. apply document_booted. Qed.

Lemma stable_steps d es b :
  steps (exec script (boot d)) es b →
  Forall (λ e, is_render e = false) es →
  document (world b) ≡ hide_spec d (fresh_cards d).
Proof.
  intros Hsteps Hes. pose proof (document_exec_script d) as Hboot.
  induction Hsteps as [b|b e b1 es b2 Hstep _ IH]; [done|].
  apply Forall_cons in Hes as [He Hes]. by eapply IH, stable_step.
Qed.

(** As long as the host page does not re-render, whatever is clicked and
    whichever timers fire, the page stays what the filter made of it at
    load: the page the script was loaded into with its flagged cards hidden,
    and so filtered. *)
Theorem render_free_run_stable d es b :
  steps (exec script (boot d)) es b →
  Forall (λ e, is_render e = false) es →
  document (world b) ≡ hide_spec d (fresh_cards d) ∧
  filtered (document (world b)).
Proof.
  intros Hsteps Hes. pose proof (stable_steps _ _ _ Hsteps Hes) as Hdoc.
  split; [done|]. rewrite Hdoc. apply filtered_hide_spec.
Qed.

(** ** The script comes to rest *)

(** One run of a timer callback. *)
Definition fires (b b' : Browser D R) : Prop := step b Fire b'.

Lemma fires_inv b b' :
  fires b b' →
  ∃ due task rest, timers b = (due, task) :: rest ∧ due ≤ now b ∧
    b' = set_timers rest (set_world (exec reapplyFilters (world b)) b).
Proof.
  intros Hstep. destruct (step_enabled _ _ _ Hstep) as (due&task&rest&Hts&Hdue).
  exists due, task, rest. split_and!; [done..|].
  by rewrite (step_step_fn _ _ _ Hstep), (step_fn_Fire_due _ _ _ _ Hts Hdue).
Qed.

Lemma fires_timers b b' : fires b b' → length (timers b) = S (length (timers b')).
Proof. intros (due&task&rest&Hts&_&->)%fires_inv. by rewrite Hts. Qed.

Lemma nsteps_fires_timers n b b' :
  nsteps fires n b b' → length (timers b') + n = length (timers b).
Proof.
  induction 1 as [b|n b b1 b2 Hfire%fires_timers _ IH]; simpl; lia.
Qed.

(** C16. The callbacks terminate: a timer callback queues no timer, so every
    firing shortens the queue by one.  From any state the browser can run
    only finitely many callbacks in a row, at most as many as timers are
    pending, and after [n] of them [n] timers less are pending. *)
Theorem fires_terminate b :
  sn fires b ∧ ∀ n b', nsteps fires n b b' → length (timers b') + n = length (timers b).
Proof.
  split; [|intros n b'; apply nsteps_fires_timers].
  apply (wf_projected (R1:=flip fires) (<) (λ b, length (timers b))); [|apply lt_wf].
  intros b1 b2 Hfire%fires_timers. lia.
Qed.

Lemma steps_iter_fire (ts : list (nat * Task)) b :
  timers b = ts →
  Forall (λ t : nat * Task, t.1 ≤ now b) ts →
  steps b (replicate (length ts) Fire) (Nat.iter (length ts) (step_fn Fire) b).
Proof.
  revert b. induction ts as [|[due task] ts IH]; intros b Hts Hdue; [apply steps_nil|].
  apply Forall_cons in Hdue as [Hd Hdue]. simpl in Hd.
  pose proof (step_fn_Fire_due _ _ _ _ Hts Hd) as Hfire.
  cbn [length replicate]. rewrite Nat.iter_succ_r.
  eapply steps_cons; [apply step_fn_step; by exists due, task, ts|].
  apply IH; by rewrite Hfire.
Qed.

Lemma timers_nil_nf b : timers b = [] → nf fires b.
Proof. intros Hts [b' (due&task&rest&Hts'&_)%fires_inv]. congruence. Qed.

(** C15. The script comes to rest.  In a state whose timers are in order, let
    the delay pass and the pending timers fire, one after the other: each
    firing is enabled when its turn comes, and the run ends with an empty
    queue, in a state in which no callback is left to run; if a timer was
    pending, the page is then filtered. *)
Theorem script_comes_to_rest b :
  timers_ok b →
  let b' := fire_all (step_fn (Advance delay) b) in
  steps b (Advance delay :: replicate (length (timers b)) Fire) b' ∧
  timers b' = [] ∧ nf fires b' ∧
  (timers b ≠ [] → filtered (document (world b'))).
Proof.
  intros [_ Hb]. set (b1 := step_fn (Advance delay) b).
  assert (Hdue : Forall (λ t : nat * Task, t.1 ≤ now b1) (timers b1)) by done.
  assert (Hnil : timers (fire_all b1) = []).
  { unfold fire_all. destruct (timers b1) as [|t ts] eqn:Hts; [done|].
    by apply (iter_fire_due (t :: ts) b1). }
  simpl. split_and!; [|done|by apply timers_nil_nf|].
  - eapply steps_cons; [apply step_advance|]. by apply (steps_iter_fire (timers b1) b1).
  - intros Hne. destruct (iter_fire_due (timers b1) b1) as [_ Hdoc]; [done..|].
    unfold fire_all. rewrite Hdoc. apply filtered_hide_spec.
Qed.

End Runs.

(** ** The theorems on the pages of [Scenario] *)

Lemma clicked_reachable : reachable clicked.
Proof. exact (reachable_step _ _ _ loaded_reachable clicked_step). Defined.

Lemma reachable_timers_ok_scenario : timers_ok clicked.
Proof.
  exact (reachable_timers_ok clicked clicked_reachable).
Defined.

Lemma reachable_cache_complete_scenario :
  ∃ d : Element, tabsCache (this (world clicked)) = Some (scan_tabs d).
Proof.
  exact (reachable_cache_complete clicked clicked_reachable).
Defined.

Lemma reachable_no_error_scenario :
  documentClick clicked = true ∧ ∀ m, (LevelError, m) ∉ console (world clicked).
Proof.
  exact (reachable_no_error clicked clicked_reachable).
Defined.

Lemma step_hidden_mono_scenario :
  hidden (document (world (exec (run_task ReapplyFilters) (set_timers [] waited)))) [2] = true.
Proof.
  apply (step_hidden_mono waited Fire _ [2]
           (step_fire waited 500 ReapplyFilters [] (proj1 waited_due) (proj2 waited_due)));
    [discriminate|reflexivity].
Defined.

(** The click on the first tab, the switch of the host page to the grid
    view, the wait, and the timer. *)
Lemma click_render_wait_scenario :
  let b' := fire_all (step_fn (Advance delay)
              (step_fn (Render (page false) None) (step_fn (Click [0; 0]) loaded))) in
  timers b' = [] ∧
  document (world b') ≡ hide_spec (page false) (fresh_cards (page false)) ∧
  filtered (document (world b')).
Proof.
  apply (click_render_wait loaded [0; 0] (page false) None); [|reflexivity].
  split; vm_compute; constructor.
Defined.

Lemma click_wait_fire_run_scenario :
  ∃ b', steps loaded [Click [0; 0]; Advance delay; Fire] b' ∧
        reachable b' ∧ timers b' = [] ∧ filtered (document (world b')).
Proof.
  apply (click_wait_fire_run loaded [0; 0] loaded_reachable); try reflexivity.
  by_compute.
Defined.

Lemma clicked_timers_ok : timers_ok clicked.
Proof. split; vm_compute; repeat constructor. Defined.

(** The loaded scenario after a click on the list tab. *)
Lemma reachable_invariant_scenario : script_inv clicked.
Proof.
  destruct (reachable_invariant (D:=Element) (R:=Ref)) as (_&_&Hreach).
  exact (Hreach clicked clicked_reachable).
Defined.

Lemma reachable_listener_ok_scenario : listener_ok clicked.
Proof.
  exact (reachable_listener_ok clicked clicked_reachable).
Defined.

(** The host page switches to the grid view and drops the pagination
    navigation; the user then clicks where a pagination button is. *)
Lemma render_drops_pagination_listener_scenario :
  let b' := step_fn (Click [7; 1]) (step_fn (Render (page false) None) loaded) in
  paginationClick b' = None ∧
  ∀ target, click_timers b' target =
              if toggle_hit b' target then [reapply_timer b'] else [].
Proof.
  apply (render_drops_pagination_listener loaded (page false) [Click [7; 1]]).
  eapply steps_cons; [|apply steps_nil]. apply step_click. by_compute.
Defined.

Lemma render_free_run_stable_scenario :
  document (world clicked) ≡ hide_spec (page true) (fresh_cards (page true)) ∧
  filtered (document (world clicked)).
Proof.
  apply (render_free_run_stable (page true) [Click [0; 0]] clicked).
  - rewrite loaded_unfold. eapply steps_cons; [apply clicked_step|apply steps_nil].
  - by repeat constructor.
Defined.

Lemma fires_terminate_scenario :
  sn fires waited ∧
  ∀ n b', nsteps fires n waited b' → length (timers b') + n = length (timers waited).
Proof. exact (fires_terminate waited). Defined.

Lemma script_comes_to_rest_scenario :
  let b' := fire_all (step_fn (Advance delay) clicked) in
  steps clicked (Advance delay :: replicate (length (timers clicked)) Fire) b' ∧
  timers b' = [] ∧ nf fires b' ∧
  (timers clicked ≠ [] → filtered (document (world b'))).
Proof. exact (script_comes_to_rest clicked clicked_timers_ok). Defined.

(** With the old navigation gone, the click on a pagination button of the
    new page queues nothing; had the navigation been kept, it would. *)
Example pagination_click_after_render :
  click_timers (step_fn (Render (page false) None) loaded) [7; 1] = [] ∧
  click_timers (step_fn (Render (page false) (Some [7])) loaded) [7; 1] =
    [(500, ReapplyFilters)].
Proof. split; reflexivity. Qed.

(** A re-render that comes after the timer fired leaves the new page
    unfiltered, with nothing pending that would filter it. *)
Example late_render :
  let b := step_fn (Render (page false) None) (step_fn Fire waited) in
  timers b = [] ∧ ¬ filtered (document (world b)).
Proof.
  split; [reflexivity|]. intros Hf.
  assert (Hhidden : hidden (page false) [6] = true).
  { apply Hf; [by_compute|reflexivity]. }
  by vm_compute in Hhidden.
Qed.
