(* ===== verification/Cache.v ===== *)
(** * Cache: the tab cache never shows

    The field [tabsCache] is meant to save queries
    ([src/js/HideMieterPlus.js], lines 6 and 40-47).  In the script as it
    runs it never does: the constructor clears the field before the first
    filter run (line 7), every later filter run is a [reapplyFilters], which
    clears it first (line 172), and one filter run reads the tabs once
    (lines 130, 97, 81).  So every read finds the field cleared, and what a
    filter run leaves in it is never looked at.

    This file states that as the non-interference of the field: two
    browsers that differ in nothing but what is cached stay so along every
    sequence of events, with the same page, the same console and the same
    timers, and are the same browser once a timer callback has run. *)

From S2P Require Import Prelude JsString JsMonad Dom SelectorText Console DomTree CardManager Scenario Filter Reapply Report EventLoop Runs.

Section Cache.
Context `{DomLaws D R}.
Implicit Types (b : Browser D R) (e : Event D R) (w : World D R)
  (cache : option (list (Tab R))).

(** ** Browsers up to the cache *)

(** The browser with another cache. *)
Definition with_cache cache b : Browser D R :=
  set_world (set_tabsCache cache (world b)) b.

(** The browser without what is cached. *)
Definition forget_cache b : Browser D R := with_cache None b.

(** Two browsers that differ in the cache at most. *)
Definition same_but_cache b1 b2 : Prop := forget_cache b1 = forget_cache b2.

#[export] Instance same_but_cache_equivalence : Equivalence same_but_cache.
Proof.
  unfold same_but_cache. split.
  - by intros b.
  - by intros b1 b2.
  - intros b1 b2 b3. apply eq_trans.
Qed.

(** What such browsers share. *)
Lemma same_but_cache_observe b1 b2 :
  same_but_cache b1 b2 ↔
  document (world b1) = document (world b2) ∧
  console (world b1) = console (world b2) ∧
  now b1 = now b2 ∧ timers b1 = timers b2 ∧
  documentClick b1 = documentClick b2 ∧ paginationClick b1 = paginationClick b2.
Proof.
  destruct b1 as [[d1 c1 l1] n1 ts1 dc1 pc1], b2 as [[d2 c2 l2] n2 ts2 dc2 pc2].
  unfold same_but_cache, forget_cache, with_cache. simpl. split.
  - by intros [= -> -> -> -> -> ->].
  - by intros (->&->&->&->&->&->).
Qed.

Lemma same_but_cache_with_cache cache b : same_but_cache (with_cache cache b) b.
Proof. by destruct b as [[d c l] n ts dc pc]. Qed.

(** A browser is its own cache put on the browser without. *)
Lemma with_cache_forget b :
  with_cache (tabsCache (this (world b))) (forget_cache b) = b.
Proof. by destruct b as [[d [c] l] n ts dc pc]. Qed.

(** ** One event *)

Lemma click_timers_with_cache cache b target :
  click_timers (with_cache cache b) target = click_timers b target.
Proof. done. Qed.

(** An event on the browser with another cache: the same event on the
    browser, with a cache that is the one the event leaves when a timer
    callback ran. *)
Lemma step_fn_with_cache cache e b :
  step_fn e (with_cache cache b) = step_fn e b ∨
  step_fn e (with_cache cache b) = with_cache cache (step_fn e b).
Proof.
  destruct e as [target|ms| |d landmark|target stopped];
    [right; by rewrite !step_fn_Click|by right| |by right|
     right; by rewrite !step_fn_ClickStopped].
  destruct (timers b) as [|[due task] rest] eqn:Hts.
  { right. by rewrite !step_fn_Fire_idle. }
  destruct (decide (due ≤ now b)) as [Hdue|Hdue].
  - left. rewrite (step_fn_Fire_due _ due task rest), (step_fn_Fire_due b due task rest)
      by done.
    simpl. by rewrite !exec_reapplyFilters.
  - right. rewrite (step_fn_Fire_early _ due task rest), (step_fn_Fire_early b due task rest)
      by (done || simpl; lia). done.
Qed.

Lemma step_fn_same_but_cache e b1 b2 :
  same_but_cache b1 b2 → same_but_cache (step_fn e b1) (step_fn e b2).
Proof.
  intros Hb. rewrite <-(with_cache_forget b1), <-(with_cache_forget b2), Hb.
  destruct (step_fn_with_cache (tabsCache (this (world b1))) e (forget_cache b2))
    as [->| ->],
    (step_fn_with_cache (tabsCache (this (world b2))) e (forget_cache b2))
    as [->| ->];
    by rewrite ?same_but_cache_with_cache.
Qed.

(** ** The load *)

(** The script starts by creating the manager, whose constructor clears the
    field: what the field held before does not matter. *)
Lemma script_with_cache cache b : script (with_cache cache b) = script b.
Proof.
  unfold script. rewrite !run_bind. unfold lift. simpl.
  by rewrite !constructor_run.
Qed.

(** ** Runs *)

Lemma run_events_same_but_cache es b1 b2 :
  same_but_cache b1 b2 → same_but_cache (run_events es b1) (run_events es b2).
Proof.
  revert b1 b2. induction es as [|e es IH]; intros b1 b2 Hb; [done|].
  by apply IH, step_fn_same_but_cache.
Qed.

(** From the firing of a due timer on, the cache is the same too. *)
Lemma step_fn_Fire_same b1 b2 due task rest :
  same_but_cache b1 b2 →
  timers b1 = (due, task) :: rest →
  due ≤ now b1 →
  step_fn Fire b1 = step_fn Fire b2.
Proof.
  intros Hb Hts Hdue. pose proof Hb as (Hd&Hl&Hn&Ht&_)%same_but_cache_observe.
  rewrite (step_fn_Fire_due b1 due task rest), (step_fn_Fire_due b2 due task rest)
    by congruence.
  rewrite !exec_reapplyFilters.
  destruct b1 as [[d1 c1 l1] n1 ts1 dc1 pc1], b2 as [[d2 c2 l2] n2 ts2 dc2 pc2].
  apply same_but_cache_observe in Hb as (?&?&?&?&?&?). simpl in *. by subst.
Qed.

(** C12. The tab cache is dead state.  The load of the script does not depend
    on what the field holds.  And put anything in the cache of a browser,
    at any moment, and let anything happen: at every later moment the
    page, the console, the clock, the timers and the listeners are what
    they would have been; once a due timer fires, the two browsers are the
    same, cache included: what was put in the cache has been cleared
    before it could be read. *)
Theorem cache_never_read cache es b :
  script (with_cache cache b) = script b ∧
  let b1 := run_events es (with_cache cache b) in
  let b2 := run_events es b in
  document (world b1) = document (world b2) ∧
  console (world b1) = console (world b2) ∧
  now b1 = now b2 ∧ timers b1 = timers b2 ∧
  documentClick b1 = documentClick b2 ∧ paginationClick b1 = paginationClick b2 ∧
  ∀ due task rest,
    timers b2 = (due, task) :: rest → due ≤ now b2 →
    step_fn Fire b1 = step_fn Fire b2.
Proof.
  split; [apply script_with_cache|]. simpl.
  pose proof (run_events_same_but_cache es _ _ (same_but_cache_with_cache cache b)) as Hb.
  pose proof Hb as (?&?&Hn&Ht&?&?)%same_but_cache_observe.
  split_and!; [done..|]. intros due task rest Hts Hdue.
  apply (step_fn_Fire_same _ _ due task rest); [done|congruence|lia].
Qed.

End Cache.

(** ** The theorem on the pages of [Scenario] *)

(** An empty array put into the cache of the loaded browser, then a click
    on the list tab and the wait: the two browsers differ in the cache,
    and no more once the timer has fired. *)
Lemma cache_never_read_scenario :
  let es := [Click [0; 0]; Advance delay] in
  let tampered := run_events es (with_cache (Some []) loaded) in
  (tabsCache (this (world tampered)) = Some [] ∧
   length <$> tabsCache (this (world (run_events es loaded))) = Some 3) ∧
  step_fn Fire tampered = step_fn Fire (run_events es loaded).
Proof.
  split; [by split|].
  destruct (cache_never_read (Some []) [Click [0; 0]; Advance delay] loaded)
    as (_&_&_&_&_&_&_&Hfire).
  by apply (Hfire 500 ReapplyFilters []).
Defined.
