(* ===== verification/Reactive.v ===== *)
(** * Reactive: the script against the reactive contract of the specification

    The specification describes the script from the outside (sections 4.1
    and 5): a click on a view toggle and a click on a button of the
    pagination container each schedule a re-application of the filter for
    500 ms later; nothing is cancelled or coalesced; a re-application hides
    the flagged cards of the view the page shows then.  This file writes
    that contract down as a machine of its own, [reactive_step], whose
    state is the page, the clock and the due times of the pending
    re-applications: it has no cache, no console and no listeners, and it
    reads its triggers off the page as it is at the click.

    The refinement theorem says that the browser running the script
    ([EventLoop]) is that machine, seen through [abstract], along every run
    in which the host page keeps the pagination landmark where the script
    found it and outside any button, and lets the clicks bubble up to the
    document ([landmark_ok], [cooperative]).  What the cache holds, stale
    or not, never shows.  The examples at the end show that no condition
    can go: with the landmark replaced, or a click stopped on its way, the
    browser falls behind the contract; with the landmark inside a button
    it runs ahead of it, the listener of lines 191-199 looking for the
    closest button among all ancestors of the click target. *)

From S2P Require Import Prelude JsString JsMonad Dom SelectorText Console DomTree CardManager Scenario Filter Reapply Report EventLoop Runs.

Section Reactive.
Context `{DomLaws D R}.
Implicit Types (b : Browser D R) (e : Event D R) (d : D) (target : R).

(** ** The contract *)

Record Reactive := mkReactive {
  rpage : D;                (* the page *)
  rclock : nat;             (* the clock, in ms *)
  rpending : list nat;      (* due times of the pending re-applications, oldest first *)
}.

(** The click target matches a view-toggle marker. *)
Definition toggle_trigger d target : bool := matches d target toggleSelector.

(** A button of the pagination container [nav]: a button inside it. *)
Definition pagination_button d nav button : Prop :=
  matches d button buttonSelector = true ∧ nav ∈ dom_ancestors d button.

(** The click is on a button of the pagination container of the page, or
    inside one. *)
Definition pagination_trigger d target : bool :=
  match querySelector d paginationSelector with
  | Some nav => bool_decide (Exists (pagination_button d nav) (dom_ancestors d target))
  | None => false
  end.

(** The re-applications one click schedules. *)
Definition triggers d target : nat :=
  Nat.b2n (pagination_trigger d target) + Nat.b2n (toggle_trigger d target).

(** The re-application: the filter of the current view, all at once. *)
Definition reapply d : D := hide_spec d (fresh_cards d).

Definition reactive_step e (s : Reactive) : Reactive :=
  match e with
  | Click target | ClickStopped target _ =>
      mkReactive (rpage s) (rclock s)
        (rpending s ++ replicate (triggers (rpage s) target) (rclock s + delay))
  | Advance ms => mkReactive (rpage s) (rclock s + ms) (rpending s)
  | Fire =>
      match rpending s with
      | due :: rest =>
          if bool_decide (due ≤ rclock s)
          then mkReactive (reapply (rpage s)) (rclock s) rest else s
      | [] => s
      end
  | Render d _ => mkReactive d (rclock s) (rpending s)
  end.

Definition reactive_run (es : list (Event D R)) (s : Reactive) : Reactive :=
  foldl (λ s e, reactive_step e s) s es.

(** The contract at load: the page filtered, nothing pending. *)
Definition reactive_boot d : Reactive := mkReactive (reapply d) 0 [].

(** ** The abstraction *)

(** What the contract sees of the browser. *)
Definition abstract b : Reactive :=
  mkReactive (document (world b)) (now b) (fst <$> timers b).

(** States of the contract are compared up to what the script can observe
    of the page. *)
#[export] Instance reactive_equiv : Equiv Reactive := λ s1 s2,
  rpage s1 ≡ rpage s2 ∧ rclock s1 = rclock s2 ∧ rpending s1 = rpending s2.

(** The page has a pagination container, and it stands in no button: its
    buttons are the buttons a click in it can come from. *)
Definition landmark_ok d : Prop :=
  ∃ nav, querySelector d paginationSelector = Some nav ∧
         closest d nav buttonSelector = None.

(** The listeners are where the contract expects its triggers: one on the
    document, one on the pagination container of the page shown. *)
Definition linked b : Prop :=
  documentClick b = true ∧
  paginationClick b = querySelector (document (world b)) paginationSelector ∧
  landmark_ok (document (world b)).

(** The host page cooperates: after a re-render the element that carries
    the listener is the pagination container of the new page, and clicks
    bubble up to the document. *)
Definition cooperative e : Prop :=
  match e with
  | Render d landmark =>
      landmark = querySelector d paginationSelector ∧ landmark_ok d
  | ClickStopped _ _ => False
  | _ => True
  end.

#[export] Instance pagination_button_dec d nav button :
  Decision (pagination_button d nav button).
Proof. unfold pagination_button. apply _. Defined.

#[export] Instance landmark_ok_dec d : Decision (landmark_ok d).
Proof.
  unfold landmark_ok. destruct (querySelector d paginationSelector) as [nav|].
  - destruct (decide (closest d nav buttonSelector = None)); [left; by eauto|right].
    by intros (?&[= <-]&?).
  - right. by intros (?&?&_).
Defined.

#[export] Instance cooperative_dec e : Decision (cooperative e).
Proof. destruct e; simpl; apply _. Defined.

(** ** The contract respects observational equality *)

#[export] Instance reactive_equiv_equivalence : Equivalence (≡@{Reactive}).
Proof.
  split.
  - by intros s.
  - intros s1 s2 (?&?&?). by split_and!.
  - intros s1 s2 s3 (?&?&?) (?&?&?). split_and!; by etrans.
Qed.

#[export] Instance pagination_button_proper :
  Proper ((≡) ==> (=) ==> (=) ==> iff) pagination_button.
Proof.
  intros d1 d2 Hd nav ? <- button ? <-. unfold pagination_button.
  by rewrite (dom_ancestors_proper _ _ Hd _ _ eq_refl), Hd.
Qed.

#[export] Instance pagination_trigger_proper :
  Proper ((≡) ==> (=) ==> (=)) pagination_trigger.
Proof.
  intros d1 d2 Hd target ? <-. unfold pagination_trigger.
  rewrite (querySelector_proper _ _ Hd _ _ eq_refl),
    (dom_ancestors_proper _ _ Hd _ _ eq_refl).
  destruct (querySelector d2 _) as [nav|]; [|done].
  apply bool_decide_ext, Exists_proper; [|done]. intros button. by rewrite Hd.
Qed.

#[export] Instance landmark_ok_proper : Proper ((≡) ==> iff) landmark_ok.
Proof.
  intros d1 d2 Hd. unfold landmark_ok. f_equiv. intros nav.
  by rewrite (querySelector_proper _ _ Hd _ _ eq_refl),
    (closest_proper _ _ Hd _ _ eq_refl _ _ eq_refl).
Qed.

#[export] Instance triggers_proper : Proper ((≡) ==> (=) ==> (=)) triggers.
Proof.
  intros d1 d2 Hd target ? <-. unfold triggers, toggle_trigger. by rewrite Hd.
Qed.

#[export] Instance reapply_proper : Proper ((≡) ==> (≡)) reapply.
Proof. intros d1 d2 Hd. unfold reapply. by rewrite Hd. Qed.

#[export] Instance reactive_step_proper e : Proper ((≡) ==> (≡)) (reactive_step e).
Proof.
  intros [d1 t1 p1] [d2 t2 p2] (Hd&Ht&Hp). simpl in *. subst.
  destruct e as [target|ms| |d landmark|target stopped]; simpl.
  - split_and!; [done..|]. simpl. by rewrite Hd.
  - by split_and!.
  - destruct p2 as [|due rest]; [by split_and!|].
    case_bool_decide; split_and!; simpl; try done. by rewrite Hd.
  - by split_and!.
  - split_and!; [done..|]. simpl. by rewrite Hd.
Qed.

#[export] Instance reactive_run_proper es : Proper ((≡) ==> (≡)) (reactive_run es).
Proof.
  induction es as [|e es IH]; intros s1 s2 Hs; [done|].
  simpl. apply IH. by rewrite Hs.
Qed.

(** ** The triggers of the contract and the tests of the listeners *)

(** Where the pagination container stands in no button, a click comes from
    one of its buttons exactly when it reaches the container and has a
    closest button: the test of the pagination listener. *)
Lemma pagination_trigger_closest d target nav :
  querySelector d paginationSelector = Some nav →
  closest d nav buttonSelector = None →
  pagination_trigger d target =
    bool_decide (nav ∈ dom_ancestors d target) &&
    bool_decide (closest d target buttonSelector ≠ None).
Proof.
  intros Hnav Hfree. unfold pagination_trigger. rewrite Hnav, <-bool_decide_and.
  apply bool_decide_ext. rewrite Exists_exists, closest_is_Some. split.
  - intros (button&Hb&Hm&Hin). split; [by eapply dom_ancestors_trans|by eauto].
  - intros (Hin&button&Hb&Hm). exists button. split; [done|]. split; [done|].
    destruct (dom_ancestors_chain d target nav button Hin Hb) as [?|Hup]; [done|].
    apply eq_None_not_Some in Hfree. destruct Hfree.
    apply not_eq_None_Some, closest_is_Some. eauto.
Qed.

Lemma landmark_ok_hide_spec d cards : landmark_ok d → landmark_ok (hide_spec d cards).
Proof.
  intros (nav&Hnav&Hfree). exists nav.
  rewrite querySelector_hide_spec by apply paginationSelector_not_hidden.
  by rewrite closest_hide_spec by apply buttonSelector_not_hidden.
Qed.

(** ** The listeners stay linked *)

Lemma exec_script_landmark d nav :
  querySelector d paginationSelector = Some nav →
  exec script (boot d) = mkBrowser (booted d) 0 [] true (Some nav).
Proof.
  intros Hnav. unfold exec. rewrite script_run.
  by rewrite querySelector_booted, Hnav by apply paginationSelector_not_hidden.
Qed.

Lemma linked_boot d : landmark_ok d → linked (exec script (boot d)).
Proof.
  intros Hok. pose proof Hok as (nav&Hnav&_).
  rewrite (exec_script_landmark d nav Hnav). split_and!; simpl; [done| |].
  - by rewrite querySelector_booted, Hnav by apply paginationSelector_not_hidden.
  - rewrite document_booted. by apply landmark_ok_hide_spec.
Qed.

Lemma querySelector_exec_reapplyFilters (w : World D R) sel :
  ¬ mentions_class "hidden-card" sel →
  querySelector (document (exec reapplyFilters w)) sel = querySelector (document w) sel.
Proof.
  intros Hsel. by rewrite document_exec_reapplyFilters, querySelector_hide_spec.
Qed.

Lemma linked_step_fn b e : cooperative e → linked b → linked (step_fn e b).
Proof.
  intros He (Hd&Hq&Hok). destruct e as [target|ms| |d landmark|target stopped];
    [| | | |done].
  - by rewrite step_fn_Click.
  - done.
  - destruct (timers b) as [|[due task] rest] eqn:Hts; [by rewrite step_fn_Fire_idle|].
    destruct (decide (due ≤ now b)) as [Hdue|Hdue].
    + rewrite (step_fn_Fire_due _ _ _ _ Hts Hdue). split_and!; simpl; [done| |].
      * by rewrite querySelector_exec_reapplyFilters
          by apply paginationSelector_not_hidden.
      * rewrite document_exec_reapplyFilters. by apply landmark_ok_hide_spec.
    + rewrite (step_fn_Fire_early _ _ _ _ Hts) by lia. done.
  - destruct He as [-> Hok'], Hok as (nav&Hnav&_), Hok' as (nav'&Hnav'&Hfree').
    unfold linked. simpl. rewrite Hq, Hnav, Hnav'. simpl.
    split_and!; [done..|]. by exists nav'.
Qed.

(** ** One event *)

Lemma pagination_hit_linked b target :
  linked b → pagination_hit b target = pagination_trigger (document (world b)) target.
Proof.
  intros (_&Hq&nav&Hnav&Hfree). rewrite (pagination_trigger_closest _ _ nav) by done.
  unfold pagination_hit. by rewrite Hq, Hnav.
Qed.

Lemma toggle_hit_linked b target :
  linked b → toggle_hit b target = toggle_trigger (document (world b)) target.
Proof. intros (Hd&_). unfold toggle_hit. by rewrite Hd. Qed.

(** One event of the browser is one step of the contract. *)
Lemma abstract_step_fn b e :
  cooperative e → linked b → abstract (step_fn e b) ≡ reactive_step e (abstract b).
Proof.
  intros He Hl. destruct e as [target|ms| |d landmark|target stopped];
    [|done| |done|done].
  - rewrite step_fn_Click, click_timers_replicate. split_and!; [done..|]. simpl.
    rewrite fmap_app, fmap_replicate. unfold triggers.
    by rewrite pagination_hit_linked, toggle_hit_linked.
  - destruct (timers b) as [|[due task] rest] eqn:Hts.
    { rewrite step_fn_Fire_idle by done. unfold abstract. by rewrite Hts. }
    destruct (decide (due ≤ now b)) as [Hdue|Hdue].
    + rewrite (step_fn_Fire_due _ _ _ _ Hts Hdue). unfold abstract. rewrite Hts. simpl.
      rewrite bool_decide_eq_true_2 by done. split_and!; [|done..].
      apply document_exec_reapplyFilters.
    + rewrite (step_fn_Fire_early _ _ _ _ Hts) by lia. unfold abstract. rewrite Hts.
      simpl. by rewrite bool_decide_eq_false_2.
Qed.

(** ** Runs *)

Lemma abstract_run_events es b :
  Forall cooperative es →
  linked b →
  linked (run_events es b) ∧ abstract (run_events es b) ≡ reactive_run es (abstract b).
Proof.
  revert b. induction es as [|e es IH]; intros b Hes Hl; [done|].
  apply Forall_cons in Hes as [He Hes].
  destruct (IH (step_fn e b) Hes (linked_step_fn _ _ He Hl)) as [Hl' Hrun].
  split; [done|]. simpl. rewrite Hrun. by rewrite abstract_step_fn.
Qed.

(** C14. The script refines the reactive contract.  Load the script into a
    page that has a pagination landmark, outside any button, and let
    anything happen, in any order: clicks anywhere that bubble up to the
    document, time passing, timers firing, the host page re-rendering to
    any document that keeps the landmark so.  Then the page, the clock and
    the due times of the pending timers are, at every moment,
    those of the contract after the same events, started on the filtered
    page: what is cached and what was printed never shows, every trigger
    schedules its own re-application, and every re-application filters the
    view the page shows when it runs. *)
Theorem script_refines_reactive d es :
  landmark_ok d →
  Forall cooperative es →
  abstract (run_events es (exec script (boot d))) ≡ reactive_run es (reactive_boot d).
Proof.
  intros Hnav Hes.
  destruct (abstract_run_events es _ Hes (linked_boot d Hnav)) as [_ ->].
  apply reactive_run_proper. destruct Hnav as (nav&Hnav&_).
  rewrite (exec_script_landmark d nav Hnav).
  split_and!; [|done..]. apply document_booted.
Qed.

(** The same along the step relation: a run of the browser is a run of
    the contract. *)
Corollary steps_refine_reactive d es b :
  landmark_ok d →
  Forall cooperative es →
  steps (exec script (boot d)) es b →
  linked b ∧ abstract b ≡ reactive_run es (reactive_boot d).
Proof.
  intros Hnav Hes ->%steps_run_events. split.
  - by apply abstract_run_events, linked_boot.
  - by apply script_refines_reactive.
Qed.

End Reactive.

Arguments Reactive D : clear implicits.

(** ** The theorem on the pages of [Scenario] *)

(** A click on the list tab, a switch of the host page to the grid view
    that keeps the pagination navigation, the wait and the timer. *)
Lemma script_refines_reactive_scenario :
  abstract (run_events
              [Click [0; 0]; Render (page false) (Some [7]); Advance delay; Fire]
              (exec script (boot (page true)))) ≡
  reactive_run [Click [0; 0]; Render (page false) (Some [7]); Advance delay; Fire]
    (reactive_boot (page true)).
Proof. apply (script_refines_reactive (page true)); by_compute. Defined.

(** When the host page drops the landmark the browser falls behind the
    contract: the contract schedules a re-application for a click on a
    pagination button of the new page, the browser schedules none. *)
Example landmark_dropped :
  let es := [Render (page false) None; Click [7; 1]] in
  rpending (reactive_run es (reactive_boot (page true))) = [500] ∧
  rpending (abstract (run_events es (exec script (boot (page true))))) = [].
Proof. split; reflexivity. Qed.

(** When the landmark stands inside a button the browser runs ahead of
    the contract: the landmark of this page has no button, so no click is
    on one of its buttons, and a click on its page number schedules a
    re-application all the same, the listener finding the button around
    the landmark. *)
Example landmark_in_button :
  let es := [Click [1; 0; 0]] in
  ¬ landmark_ok page_nav_in_button ∧
  rpending (reactive_run es (reactive_boot page_nav_in_button)) = [] ∧
  rpending (abstract (run_events es (exec script (boot page_nav_in_button)))) = [500].
Proof. split; [by_compute|split; reflexivity]. Qed.

(** When the host page stops a click on a view toggle before it reaches
    the document, the browser falls behind the contract too. *)
Example click_stopped :
  let es := [ClickStopped [0; 0] [0]] in
  rpending (reactive_run es (reactive_boot (page true))) = [500] ∧
  rpending (abstract (run_events es (exec script (boot (page true))))) = [].
Proof. split; reflexivity. Qed.
