(* ===== verification/PageContract.v ===== *)
(** * PageContract: what the script does to a page, said of the page

    The theorems of [Filter] and [Reapply] describe a filter run through
    functions read off the code ([cards_of], [flagged], [hide_spec]).  This
    file says the same without them, in the words of the page structure
    contract of the specification (section 6): which elements of a page are
    to be hidden is a property of the page alone ([to_be_hidden]: the
    sponsored elements and the paywalled cards of the view the page shows),
    and a filter run takes a page to the page on which exactly these
    underwent the two writes and nothing else changed ([filter_post]).
    The markers of the view toggles are said the same way ([marker]: the
    first element in document order that carries a test id), and a scan of
    [getAllMapToggleTabs] is proved to find them.

    The contract determines the page a run leaves, up to what can be
    observed of a document.  [reapplyFilters] meets it from every world, the
    load of the script meets it on every page, also when the load ends in
    the [TypeError] of line 189, and so does every timer that fires; between
    two re-renders of the host page the page shown is the page of the
    contract. *)

From S2P Require Import Prelude JsString JsMonad Dom SelectorText Console DomTree CardManager Scenario Filter Reapply Report Methods EventLoop Runs Reactive.

Section PageContract.
Context `{DomLaws D R}.
Implicit Types (d : D) (r q card tab : R) (w : World D R) (b : Browser D R)
  (e : Event D R).

(** ** The page structure the script reads *)

(** A paywalled card: one of its proper descendants carries one of the two
    paywall markers. *)
Definition paywalled d card : Prop :=
  Exists (λ q, classList_contains d q "paywall-label" = true ∨
               classList_contains d q "plusBooking" = true)
    (dom_descendants d card).

(** A sponsored card carries the marker itself (line 145). *)
Definition sponsored d card : Prop :=
  classList_contains d card "touchpoint-card" = true.

(** The marker of a view toggle: the first element of the page, in
    document order, whose [data-testid] is [testId]. *)
Definition marker d (testId : string) : option R :=
  head (filter (λ r, getAttribute d r "data-testid" = Some testId) (dom_nodes d)).

(** The tab of the list view: the marker [mapToggleListMode]. *)
Definition list_tab d : option R := marker d "mapToggleListMode".

(** The three view toggles of the page, each test id with the mode it
    names, in the order the script scans them. *)
Definition toggles : list (string * string) :=
  [("mapToggleListMode", "List"); ("mapToggleHybridViewMode", "HybridView");
   ("mapToggleClassicMapMode", "ClassicMap")].

(** The tab object of a toggle whose marker is on the page, and the warning
    for a toggle whose marker is missing. *)
Definition toggle_tab d (t : string * string) : option (Tab R) :=
  r ← marker d t.1;
  Some (mkTab r t.2 (bool_decide (getAttribute d r "aria-selected" = Some "true"))).

Definition toggle_warning d (t : string * string) : list LogEntry :=
  if marker d t.1 is None then [(LevelWarn, MsgTestIdNotFound t.1)] else [].

(** The page shows the list view: it has the tab of the list view, and the
    tab says it is selected. *)
Definition list_mode d : Prop :=
  ∃ tab, list_tab d = Some tab ∧ getAttribute d tab "aria-selected" = Some "true".

(** The elements a filter run is to hide: the sponsored elements of the
    page, and the paywalled cards of the view the page shows. *)
Definition to_be_hidden d r : Prop :=
  r ∈ dom_nodes d ∧
  (sponsored d r ∨
   paywalled d r ∧
   (list_mode d ∧ classList_contains d r "result-list__listing" = true ∨
    ¬ list_mode d ∧ classList_contains d r "listing-card" = true)).

(** ** The page a filter run leaves *)

(** [filter_post d d']: [d'] is [d] after a filter run.  The elements and
    the tree are those of [d]; the elements to be hidden are not displayed
    and carry the marker class; every other element is as it was. *)
Record filter_post d d' : Prop := {
  post_nodes : dom_nodes d' = dom_nodes d;
  post_descendants r : dom_descendants d' r = dom_descendants d r;
  post_ancestors r : dom_ancestors d' r = dom_ancestors d r;
  post_hidden r : to_be_hidden d r → dom_props d' r = hide_props <$> dom_props d r;
  post_kept r : ¬ to_be_hidden d r → dom_props d' r = dom_props d r;
}.

(** ** The contract is decidable *)

#[export] Instance paywalled_dec d card : Decision (paywalled d card).
Proof. unfold paywalled. apply _. Defined.

#[export] Instance sponsored_dec d card : Decision (sponsored d card).
Proof. unfold sponsored. apply _. Defined.

#[export] Instance list_mode_dec d : Decision (list_mode d).
Proof.
  unfold list_mode. destruct (list_tab d) as [tab|].
  - destruct (decide (getAttribute d tab "aria-selected" = Some "true")) as [Hsel|Hsel].
    + left. by exists tab.
    + right. by intros (?&[= <-]&?).
  - right. by intros (?&?&?).
Defined.

#[export] Instance to_be_hidden_dec d r : Decision (to_be_hidden d r).
Proof. unfold to_be_hidden. apply _. Defined.

(** ** Paywalled cards *)

(** A marker counts for every element around it, not for the nearest card
    only: an element that contains a paywalled element is paywalled. *)
Lemma paywalled_up d r q : q ∈ dom_descendants d r → paywalled d q → paywalled d r.
Proof.
  unfold paywalled. rewrite !Exists_exists. intros Hq (p&Hp&Hmarker).
  exists p. split; [by eapply dom_descendants_trans|done].
Qed.

(** An element is paywalled exactly when it is a proper ancestor of a
    marker. *)
Lemma paywalled_ancestor d card :
  paywalled d card ↔
  ∃ q, q ≠ card ∧ card ∈ dom_ancestors d q ∧
       (classList_contains d q "paywall-label" = true ∨
        classList_contains d q "plusBooking" = true).
Proof.
  unfold paywalled. rewrite Exists_exists.
  setoid_rewrite dom_descendants_ancestors.
  split; intros (q&?&?); exists q; tauto.
Qed.

(** ** The tests of the code, in terms of the page *)

(** The two queries of lines 141-143 find a marker exactly on a paywalled
    card. *)
Lemma has_paywall_paywalled d card : has_paywall d card = true ↔ paywalled d card.
Proof.
  unfold has_paywall, paywalled.
  rewrite orb_true_iff, !classSelector_found, Exists_exists. split.
  - intros [(q&?&_&?)|(q&?&_&?)]; exists q; auto.
  - intros (q&?&[?|?]); [left|right]; exists q; eauto with dom.
Qed.

Lemma flagged_spec d card : flagged d card = true ↔ paywalled d card ∨ sponsored d card.
Proof. unfold flagged. by rewrite orb_true_iff, has_paywall_paywalled. Qed.

(** The selector of line 57 tests the value of [data-testid]. *)
Lemma matches_testIdSelector d r testId :
  matches d r (testIdSelector testId) = true ↔
  getAttribute d r "data-testid" = Some testId.
Proof.
  unfold matches, getAttribute, testIdSelector, props_match.
  destruct (dom_props d r) as [pr|]; simpl; [|done].
  by rewrite andb_true_r, bool_decide_eq_true.
Qed.

(** The query of line 57 returns the marker of the test id. *)
Lemma querySelector_marker d testId :
  querySelector d (testIdSelector testId) = marker d testId.
Proof.
  unfold querySelector, querySelectorAll, marker. f_equal.
  apply filter_ext_elem. intros r _. by rewrite Is_true_true, matches_testIdSelector.
Qed.

(** A scan of the page, toggle by toggle. *)
Lemma scan_tabs_toggles d :
  scan_tabs d = omap (toggle_tab d) toggles ∧
  testIds ≫= scan_warning d = toggles ≫= toggle_warning d.
Proof.
  unfold scan_tabs, scan_tab, scan_warning, toggle_tab, toggle_warning, testIds, toggles.
  cbn [omap list_omap mbind list_bind fst snd]. by rewrite !querySelector_marker.
Qed.

(** C39. Without a cache, [getAllMapToggleTabs] finds the markers of the
    page.  For each of the three test ids, in the order List, HybridView,
    ClassicMap, the first element of the page in document order whose
    [data-testid] is the id becomes a tab object that holds this element, the
    mode the id names, and whether the element's [aria-selected] is [true];
    an id that no element carries gives a warning instead.  The tab objects
    are returned and cached and the warnings printed, in the order of the
    ids. *)
Theorem getAllMapToggleTabs_finds_markers w :
  tabsCache (this w) = None →
  getAllMapToggleTabs w =
    (Normal (omap (toggle_tab (document w)) toggles),
     set_tabsCache (Some (omap (toggle_tab (document w)) toggles))
       (add_logs (toggles ≫= toggle_warning (document w)) w)).
Proof.
  intros Hc. rewrite getAllMapToggleTabs_run. unfold tabs_of, after_tabs.
  destruct (scan_tabs_toggles (document w)) as [<- <-]. by rewrite Hc.
Qed.

(** What [getCards] reads as the view mode, from a cleared cache, is the
    view mode of the page. *)
Lemma list_tab_selected_list_mode d : list_tab_selected d = true ↔ list_mode d.
Proof.
  unfold list_tab_selected, list_mode. rewrite querySelector_marker. fold (list_tab d).
  destruct (list_tab d) as [tab|].
  - rewrite bool_decide_eq_true. split; [by exists tab|by intros (?&[= <-]&?)].
  - split; [done|by intros (?&?&?)].
Qed.

(** The elements a filter run hides, from a cleared cache, are those the
    contract names. *)
Lemma to_hide_to_be_hidden d r :
  r ∈ fresh_cards d ∧ flagged d r = true ↔ to_be_hidden d r.
Proof.
  unfold fresh_cards, to_be_hidden, contentClass.
  rewrite elem_of_app, !elem_of_getElementsByClassName, flagged_spec.
  fold (sponsored d r). pose proof (list_tab_selected_list_mode d) as [Hm1 Hm2].
  destruct (list_tab_selected d); simpl.
  - pose proof (Hm1 eq_refl). tauto.
  - assert (¬ list_mode d) by (by intros ?%Hm2). tauto.
Qed.

(** ** The contract and the specification of the loop *)

(** The specification of the loop, on the cards [getCards] finds from a
    cleared cache, gives the page of the contract. *)
Lemma filter_post_hide_spec d : filter_post d (hide_spec d (fresh_cards d)).
Proof.
  split; intros; rewrite ?dom_props_hide_spec;
    try (unfold hide_spec; by autorewrite with dom).
  - rewrite decide_True; [done|]. by rewrite Is_true_true, to_hide_to_be_hidden.
  - rewrite decide_False; [done|]. by rewrite Is_true_true, to_hide_to_be_hidden.
Qed.

(** The page of the contract is a page up to what can be observed of it. *)
#[export] Instance filter_post_proper d : Proper ((≡) ==> iff) (filter_post d).
Proof.
  assert (Himp : ∀ d1 d2, d1 ≡ d2 → filter_post d d1 → filter_post d d2).
  { intros d1 d2 (Hn&Hp&Hd&Ha) [? ? ? ? ?].
    split; intros; rewrite <-?Hn, <-?Hp, <-?Hd, <-?Ha; auto. }
  intros d1 d2 Hd. split; apply Himp; [done|by symmetry].
Qed.

(** The contract determines the page. *)
Lemma filter_post_unique d d1 d2 : filter_post d d1 → filter_post d d2 → d1 ≡ d2.
Proof.
  intros [Hn1 Hd1 Ha1 Hh1 Hk1] [Hn2 Hd2 Ha2 Hh2 Hk2].
  split_and!; intros; rewrite ?Hn1, ?Hd1, ?Ha1, ?Hn2, ?Hd2, ?Ha2; try done.
  destruct (decide (to_be_hidden d r)); [by rewrite Hh1, Hh2|by rewrite Hk1, Hk2].
Qed.

(** The page of the contract is the page the specification of the loop
    gives, on the cards [getCards] finds from a cleared cache. *)
Lemma filter_post_iff d d' : filter_post d d' ↔ d' ≡ hide_spec d (fresh_cards d).
Proof.
  split; [intros Hpost; by eapply filter_post_unique, filter_post_hide_spec|].
  intros Hd. rewrite Hd. apply filter_post_hide_spec.
Qed.

(** What is hidden on the page of the contract: what was hidden before,
    and what was to be hidden. *)
Lemma filter_post_hidden d d' r :
  filter_post d d' →
  hidden d' r = true ↔ hidden d r = true ∨ to_be_hidden d r.
Proof.
  intros Hpost. destruct (decide (to_be_hidden d r)) as [Hr|Hr].
  - split; [auto|]. intros _. apply filter_post_iff in Hpost as ->.
    apply to_hide_to_be_hidden in Hr as [Hcard Hflag].
    apply hidden_hide_spec; [|done..]. revert Hcard. unfold fresh_cards.
    rewrite elem_of_app, !elem_of_getElementsByClassName. tauto.
  - unfold hidden, style_get_display, classList_contains.
    rewrite (post_kept _ _ Hpost) by done. tauto.
Qed.

(** The page of the contract is filtered. *)
Lemma filter_post_filtered d d' : filter_post d d' → filtered d'.
Proof.
  intros ->%filter_post_iff. apply filtered_hide_spec.
Qed.

(** A filter run does not change what is to be hidden: the contract looks
    at nothing the two writes touch. *)
Lemma to_be_hidden_post d d' r : filter_post d d' → to_be_hidden d' r ↔ to_be_hidden d r.
Proof.
  intros Hd%filter_post_iff. rewrite <-!to_hide_to_be_hidden.
  rewrite (fresh_cards_proper _ _ Hd), (flagged_proper _ _ Hd r r eq_refl).
  by rewrite fresh_cards_hide_spec, flagged_hide_spec.
Qed.

(** The page of the contract is its own page of the contract: a second
    filter run has nothing left to do. *)
Lemma filter_post_idemp d d' : filter_post d d' → filter_post d' d'.
Proof.
  intros Hpost.
  rewrite <-(hide_spec_filtered d') at 2 by by eapply filter_post_filtered.
  apply filter_post_hide_spec.
Qed.

(** ** The filter runs of the script *)

(** A call meets the contract from world [w]: it returns, and the page it
    leaves is the page of the contract for the page it found. *)
Definition meets_contract (c : Js (World D R) unit) w : Prop :=
  eval c w = Normal () ∧ filter_post (document w) (document (exec c w)).

Lemma reapplyFilters_meets w : meets_contract reapplyFilters w.
Proof.
  split; [unfold eval; by rewrite reapplyFilters_run|].
  rewrite document_exec_reapplyFilters. apply filter_post_hide_spec.
Qed.

Lemma constructor_meets w : meets_contract constructor w.
Proof.
  split; [unfold eval; by rewrite constructor_run|].
  unfold exec. rewrite constructor_run. cbn [snd].
  rewrite document_after_hideCards, cards_of_fresh by done.
  apply filter_post_hide_spec.
Qed.

(** [hideCards] meets the contract when nothing is cached. *)
Lemma hideCards_meets w : tabsCache (this w) = None → meets_contract hideCards w.
Proof.
  intros Hc. split; [unfold eval; by rewrite hideCards_run|].
  rewrite exec_hideCards, document_after_hideCards, cards_of_fresh by done.
  apply filter_post_hide_spec.
Qed.

(** C2. The filter runs of the script meet the contract: each of the two calls
    through which the script runs the filter, the constructor at load and
    [reapplyFilters] from a timer, returns from every world, whatever is
    cached, and leaves the page of the contract: the elements and the tree of
    the page it found, with [display] set to [none] and the class
    [hidden-card] on the sponsored elements and on the paywalled cards of the
    view shown, and every other element as it was.  The contract leaves no
    choice: a page that meets it is the page [reapplyFilters] leaves, and
    what is hidden on it is what was hidden before and what was to be
    hidden. *)
Theorem filter_runs_meet_contract w :
  meets_contract constructor w ∧
  meets_contract reapplyFilters w ∧
  ∀ d', filter_post (document w) d' →
    d' ≡ document (exec reapplyFilters w) ∧
    ∀ r, hidden d' r = true ↔ hidden (document w) r = true ∨ to_be_hidden (document w) r.
Proof.
  split_and!; [apply constructor_meets|apply reapplyFilters_meets|].
  intros d' Hpost. split; [|intros r; by apply filter_post_hidden].
  by eapply filter_post_unique, reapplyFilters_meets.
Qed.

(** ** The page along a run *)

(** What one turn of the event loop does to the page and to the console:
    a timer that fires takes the page to the page of the contract, a
    re-render shows the page of the host, a click or the passing of time
    leaves the page as it is; the console only grows. *)
Lemma step_page b e b' :
  step b e b' →
  console (world b) `prefix_of` console (world b') ∧
  match e with
  | Fire => filter_post (document (world b)) (document (world b'))
  | Render d _ => document (world b') = d
  | _ => document (world b') = document (world b)
  end.
Proof.
  revert b e b'. step_cases; try done.
  intros b due task rest _ _. simpl. split; [|apply reapplyFilters_meets].
  rewrite console_exec_reapplyFilters. by apply prefix_app_r.
Qed.

(** C3. The script meets the contract along its runs.  The load leaves the
    page of the contract for the page it was loaded into, also when it ends
    in the [TypeError] of a missing pagination landmark; the page the
    reactive contract computes ([reapply]) is that page.  Every turn of the
    event loop either leaves the page alone (a click, time passing), shows a
    page of the host (a re-render), or takes the page to the page of its
    contract (a timer firing), and never takes a line off the console.  And
    as long as the host does not re-render, whatever is clicked and however
    often the filter runs again, the page shown is the page of the contract
    for the page the script was loaded into. *)
Theorem script_meets_contract :
  (∀ d, filter_post d (reapply d) ∧
        filter_post d (document (world (exec script (boot d))))) ∧
  (∀ b e b', step b e b' →
     console (world b) `prefix_of` console (world b') ∧
     match e with
     | Fire => filter_post (document (world b)) (document (world b'))
     | Render d _ => document (world b') = d
     | _ => document (world b') = document (world b)
     end) ∧
  (∀ d es b,
     steps (exec script (boot d)) es b →
     Forall (λ e, is_render e = false) es →
     filter_post d (document (world b))).
Proof.
  split_and!.
  - intros d. split; [apply filter_post_hide_spec|].
    rewrite document_exec_script. apply filter_post_hide_spec.
  - apply step_page.
  - intros d es b Hsteps Hes. rewrite (stable_steps _ _ _ Hsteps Hes).
    apply filter_post_hide_spec.
Qed.

End PageContract.

(** ** The contract on the pages of [Scenario] *)

(** On the scenario of the specification the list view is shown, and the
    elements to be hidden are the paywalled list card and the sponsored
    card; the paywalled grid card is not among them. *)
Example scenario_to_be_hidden :
  list_mode (page true) ∧ ¬ list_mode (page false) ∧
  filter (to_be_hidden (page true)) (dom_nodes (page true)) = [[2]; [6]] ∧
  filter (to_be_hidden (page false)) (dom_nodes (page false)) = [[4]; [6]] ∧
  paywalled (page true) [4] ∧ ¬ to_be_hidden (page true) [4].
Proof. split_and!; by_compute. Qed.

(** The scan of the page that shows the hybrid view: the three markers are
    the three buttons of the first navigation, the second one selected. *)
Lemma getAllMapToggleTabs_finds_markers_scenario :
  getAllMapToggleTabs scenario_grid =
    (Normal [mkTab [0; 0] "List" false; mkTab [0; 1] "HybridView" true;
             mkTab [0; 2] "ClassicMap" false],
     set_tabsCache (Some [mkTab [0; 0] "List" false; mkTab [0; 1] "HybridView" true;
                          mkTab [0; 2] "ClassicMap" false]) scenario_grid).
Proof. exact (getAllMapToggleTabs_finds_markers scenario_grid eq_refl). Defined.

Lemma filter_runs_meet_contract_scenario :
  meets_contract reapplyFilters scenario_stale ∧
  ∀ r, hidden (document (exec reapplyFilters scenario_stale)) r = true ↔
       hidden (page false) r = true ∨ to_be_hidden (page false) r.
Proof.
  destruct (filter_runs_meet_contract scenario_stale) as (_&Hmeets&Hpost).
  split; [done|]. by apply Hpost, Hmeets.
Defined.

Lemma script_meets_contract_scenario :
  filter_post (page_no_pagination)
    (document (world (exec script (boot page_no_pagination)))) ∧
  filter_post (page true) (document (world clicked)).
Proof.
  destruct (script_meets_contract (D:=Element) (R:=Ref)) as (Hload&_&Hrun).
  split; [apply Hload|].
  apply (Hrun _ [Click [0; 0]]); [|by repeat constructor].
  rewrite loaded_unfold. eapply steps_cons; [apply clicked_step|constructor].
Defined.

(** [hideCards] alone does not meet the contract: with the tabs cached
    while the list view was shown, on the page that shows the hybrid view, it
    hides the paywalled list card and leaves the paywalled grid card, which
    was to be hidden, as it was. *)
Example hideCards_stale_cache :
  ¬ meets_contract hideCards scenario_stale ∧
  to_be_hidden (document scenario_stale) [4] ∧
  hidden (document (exec hideCards scenario_stale)) [4] = false ∧
  hidden (document (exec hideCards scenario_stale)) [2] = true.
Proof.
  split; [|by split_and!; by_compute].
  intros [_ Hpost]. apply (filter_post_hidden _ _ [4]) in Hpost.
  assert (Hr : to_be_hidden (document scenario_stale) [4]) by by_compute.
  by pose proof (proj2 Hpost (or_intror Hr)).
Qed.
